(** * BagelPay Go SDK: transport client, error taxonomy, models, webhook verifier

    A shallow embedding of [src/bagelpay/client.go], of the error and model
    files of package [bagelpay], and of the webhook verifier shown in the
    README, followed by the properties the specification states about them.

    Conventions.
    - A Go [string] and a Go [[]byte] are both sequences of bytes; both are
      modelled by [string] (a list of 8-bit [ascii]).  The conversions
      [[]byte(s)] and [string(b)] copy the bytes and are the identity here.
    - A Go [int] is modelled by [Z]; the code below never does arithmetic on
      one, it only compares and prints them.
    - A pointer field that is only ever tested for [nil] and read ([*string],
      [*Customer], [*http.Client], ...) is an [option].
    - A function of the Go standard library the code calls ([encoding/json],
      [net/url], [strings], [strconv], [crypto/hmac], ...) is modelled
      by a definition that follows the library's documented behaviour. *)

From Stdlib Require Import ZArith String Ascii DecimalString DecimalZ.
From stdpp Require Import base option list strings sorting gmap fin_maps.

Local Open Scope string_scope.
Local Open Scope Z_scope.

(* ===================================================================== *)
(** * Part I: definitions                                                 *)
(* ===================================================================== *)

(** ** Bytes *)

Module Bytes.

(** The numeric value of a byte, in [0, 256). *)
Definition val (c : ascii) : Z := Z.of_N (N_of_ascii c).

(** The byte of a number in [0, 256). *)
Definition of_val (z : Z) : ascii := ascii_of_N (Z.to_N z).

Definition in_range (lo hi : Z) (c : ascii) : bool :=
  (lo <=? val c) && (val c <=? hi).

(** [strings.HasPrefix], as a function that also returns what follows. *)
Fixpoint strip_prefix (p s : string) : option string :=
  match p, s with
  | EmptyString, _ => Some s
  | String a p', String b s' =>
      if Ascii.eqb a b then strip_prefix p' s' else None
  | String _ _, EmptyString => None
  end.

(** [strings.Cut(s, sep)] for a one-byte separator: the text before the
    first [sep] and, when there is one, the text after it. *)
Fixpoint cut (sep : ascii) (s : string) : string * option string :=
  match s with
  | EmptyString => (EmptyString, None)
  | String c s' =>
      if Ascii.eqb c sep then (EmptyString, Some s')
      else let '(a, b) := cut sep s' in (String c a, b)
  end.

(** [strings.TrimSuffix(s, "/")]: one trailing slash is removed. *)
Fixpoint TrimSuffix_slash (s : string) : string :=
  match s with
  | EmptyString => EmptyString
  | String c EmptyString => if Ascii.eqb c "/" then EmptyString else s
  | String c s' => String c (TrimSuffix_slash s')
  end.

Definition is_digit (c : ascii) : bool := in_range 48 57 c.

(** The digits a string starts with, and the rest. *)
Fixpoint span_digits (s : string) : string * string :=
  match s with
  | String c s' =>
      if is_digit c then let '(d, r) := span_digits s' in (String c d, r)
      else (EmptyString, s)
  | EmptyString => (EmptyString, EmptyString)
  end.

(** [strconv.Itoa] and the verb [%d] of [fmt.Sprintf]: decimal digits, with
    a leading minus sign for a negative number. *)
Definition Itoa (n : Z) : string := NilZero.string_of_int (Z.to_int n).

(** The double quote. *)
Definition dquote : ascii := ascii_of_N 34.

(** A text with each apostrophe replaced by a double quote: how the JSON
    texts of the examples are written down. *)
Fixpoint requote (s : string) : string :=
  match s with
  | EmptyString => EmptyString
  | String c r => String (if Ascii.eqb c "'" then dquote else c) (requote r)
  end.

Definition hex_digit (n : Z) : ascii :=
  if n <? 10 then of_val (48 + n) else of_val (87 + n).

(** The value of a hexadecimal digit of either case. *)
Definition hex_val (c : ascii) : option Z :=
  if in_range 48 57 c then Some (val c - 48)
  else if in_range 97 102 c then Some (val c - 87)
  else if in_range 65 70 c then Some (val c - 55)
  else None.

End Bytes.

(** ** UTF-8, as package [unicode/utf8] decodes and encodes it *)

Module UTF8.
Import Bytes.

Definition RuneError : Z := 65533.

Definition cont (c : ascii) : bool := in_range 128 191 c.

(** [utf8.DecodeRuneInString]: the first rune of [s], the number of bytes
    it takes and the rest of [s].  An empty string gives [None]; a byte
    that starts no well-formed sequence gives [RuneError] with width 1.
    The second byte has the narrower ranges that exclude overlong forms,
    surrogates and values above U+10FFFF. *)
Definition DecodeRune (s : string) : option (Z * nat * string) :=
  match s with
  | EmptyString => None
  | String c0 r0 =>
      let b0 := val c0 in
      let bad := Some (RuneError, 1%nat, r0) in
      if b0 <? 128 then Some (b0, 1%nat, r0)
      else if in_range 194 223 c0 then
        match r0 with
        | String c1 r1 =>
            if cont c1
            then Some ((b0 - 192) * 64 + (val c1 - 128), 2%nat, r1)
            else bad
        | _ => bad
        end
      else if in_range 224 239 c0 then
        match r0 with
        | String c1 (String c2 r2) =>
            let lo := if b0 =? 224 then 160 else 128 in
            let hi := if b0 =? 237 then 159 else 191 in
            if in_range lo hi c1 && cont c2 then
              Some ((b0 - 224) * 4096 + (val c1 - 128) * 64 + (val c2 - 128),
                    3%nat, r2)
            else bad
        | _ => bad
        end
      else if in_range 240 244 c0 then
        match r0 with
        | String c1 (String c2 (String c3 r3)) =>
            let lo := if b0 =? 240 then 144 else 128 in
            let hi := if b0 =? 244 then 143 else 191 in
            if in_range lo hi c1 && cont c2 && cont c3 then
              Some ((b0 - 240) * 262144 + (val c1 - 128) * 4096
                    + (val c2 - 128) * 64 + (val c3 - 128), 4%nat, r3)
            else bad
        | _ => bad
        end
      else bad
  end.

(** [utf8.EncodeRune]; a surrogate or out-of-range rune is encoded as
    [RuneError]. *)
Definition EncodeRune (r : Z) : string :=
  let r := if (r <? 0) || (1114111 <? r) || ((55296 <=? r) && (r <=? 57343))
           then RuneError else r in
  if r <? 128 then String (of_val r) EmptyString
  else if r <? 2048 then
    String (of_val (192 + r / 64)) (String (of_val (128 + r mod 64)) EmptyString)
  else if r <? 65536 then
    String (of_val (224 + r / 4096))
      (String (of_val (128 + (r / 64) mod 64))
         (String (of_val (128 + r mod 64)) EmptyString))
  else
    String (of_val (240 + r / 262144))
      (String (of_val (128 + (r / 4096) mod 64))
         (String (of_val (128 + (r / 64) mod 64))
            (String (of_val (128 + r mod 64)) EmptyString))).

(** A decoding step that met an ill-formed byte: [RuneError] of width 1. *)
Definition is_error (r : Z) (size : nat) : bool :=
  (r =? RuneError) && Nat.eqb size 1.

(** [utf8.ValidString], with the length of the string as fuel. *)
Fixpoint valid_fuel (n : nat) (s : string) : bool :=
  match DecodeRune s with
  | None => true
  | Some (r, size, rest) =>
      match n with
      | O => false
      | S n' => negb (is_error r size) && valid_fuel n' rest
      end
  end.

Definition Valid (s : string) : bool := valid_fuel (String.length s) s.

End UTF8.


(** ** JSON, as package [encoding/json] reads and writes it *)

Module JSON.
Import Bytes.

(** A JSON document.  A number keeps its literal text: how it is converted
    depends on the Go type it is stored into. *)
#[local] Unset Elimination Schemes.
Inductive json : Type :=
| JNull
| JBool (b : bool)
| JNum (lit : string)
| JStr (s : string)
| JArr (l : list json)
| JObj (l : list (string * json)).
#[local] Set Elimination Schemes.

(** *** Reading *)

Definition is_ws (c : ascii) : bool :=
  Ascii.eqb c " " || (val c =? 9) || (val c =? 10) || (val c =? 13).

Fixpoint skip_ws (s : string) : string :=
  match s with
  | String c r => if is_ws c then skip_ws r else s
  | EmptyString => s
  end.

(** Four hexadecimal digits. *)
Definition hex4 (s : string) : option (Z * string) :=
  match s with
  | String h1 (String h2 (String h3 (String h4 r))) =>
      a ← hex_val h1; b ← hex_val h2; c ← hex_val h3; d ← hex_val h4;
      Some (((a * 16 + b) * 16 + c) * 16 + d, r)
  | _ => None
  end.

(** [getu4]: a [\uXXXX] escape at the head of [s]. *)
Definition getu4 (s : string) : option (Z * string) :=
  r ← strip_prefix "\u" s; hex4 r.

Definition is_surrogate (r : Z) : bool := (55296 <=? r) && (r <? 57344).

(** [utf16.DecodeRune]: a high surrogate followed by a low one. *)
Definition utf16_pair (r1 r2 : Z) : option Z :=
  if (55296 <=? r1) && (r1 <? 56320) && (56320 <=? r2) && (r2 <? 57344)
  then Some ((r1 - 55296) * 1024 + (r2 - 56320) + 65536)
  else None.

(** The character a one-letter escape stands for. *)
Definition simple_escape (e : ascii) : option ascii :=
  if Ascii.eqb e dquote then Some dquote
  else if Ascii.eqb e "\" then Some "\"%char
  else if Ascii.eqb e "/" then Some "/"%char
  else if Ascii.eqb e "b" then Some (of_val 8)
  else if Ascii.eqb e "f" then Some (of_val 12)
  else if Ascii.eqb e "n" then Some (of_val 10)
  else if Ascii.eqb e "r" then Some (of_val 13)
  else if Ascii.eqb e "t" then Some (of_val 9)
  else None.

(** The scanner's string state followed by [unquote]: the text of a string
    literal whose opening quote has been read, and what follows its
    closing quote.  A control character is refused; an escaped surrogate
    without its partner and an ill-formed UTF-8 byte become U+FFFD. *)
Fixpoint unquote (n : nat) (s : string) : option (string * string) :=
  match n, s with
  | S n', String c r =>
      if Ascii.eqb c dquote then Some (EmptyString, r)
      else if Ascii.eqb c "\" then
        match r with
        | String e r' =>
            if Ascii.eqb e "u" then
              '(rr, r1) ← hex4 r';
              let '(rr, r2) :=
                if is_surrogate rr then
                  match getu4 r1 with
                  | Some (rr1, r2) =>
                      match utf16_pair rr rr1 with
                      | Some dec => (dec, r2)
                      | None => (UTF8.RuneError, r1)
                      end
                  | None => (UTF8.RuneError, r1)
                  end
                else (rr, r1) in
              '(t, rest) ← unquote n' r2;
              Some (UTF8.EncodeRune rr ++ t, rest)%string
            else
              ch ← simple_escape e;
              '(t, rest) ← unquote n' r';
              Some (String ch t, rest)
        | EmptyString => None
        end
      else if val c <? 32 then None
      else if val c <? 128 then
        '(t, rest) ← unquote n' r; Some (String c t, rest)
      else
        '(rr, _, r') ← UTF8.DecodeRune s;
        '(t, rest) ← unquote n' r';
        Some (UTF8.EncodeRune rr ++ t, rest)%string
  | _, _ => None
  end.

(** A string literal: its text and what follows it. *)
Definition parse_string (s : string) : option (string * string) :=
  match s with
  | String c r => if Ascii.eqb c dquote then unquote (String.length r) r else None
  | EmptyString => None
  end.

(** One or more digits. *)
Definition digits1 (s : string) : option (string * string) :=
  let '(d, r) := span_digits s in
  match d with EmptyString => None | _ => Some (d, r) end.

(** A number literal: an optional minus sign; a zero, or a non-zero digit
    and any digits; optionally a point and one or more digits; optionally
    [e] or [E], an optional sign and one or more digits. *)
Definition parse_number (s : string) : option (string * string) :=
  let '(sign, s1) :=
    match s with
    | String c r => if Ascii.eqb c "-" then ("-", r) else ("", s)
    | EmptyString => ("", s)
    end in
  '(ipart, s2) ←
    match s1 with
    | String c r =>
        if Ascii.eqb c "0" then Some ("0", r)
        else if in_range 49 57 c then
          let '(d, r') := span_digits r in Some (String c d, r')
        else None
    | EmptyString => None
    end;
  '(frac, s3) ←
    match s2 with
    | String c r =>
        if Ascii.eqb c "." then '(d, r') ← digits1 r; Some (String c d, r')
        else Some ("", s2)
    | EmptyString => Some ("", s2)
    end;
  '(exp, s4) ←
    match s3 with
    | String c r =>
        if Ascii.eqb c "e" || Ascii.eqb c "E" then
          let '(sg, r1) :=
            match r with
            | String g r1 =>
                if Ascii.eqb g "+" || Ascii.eqb g "-"
                then (String g "", r1) else ("", r)
            | EmptyString => ("", r)
            end in
          '(d, r') ← digits1 r1; Some (String c (sg ++ d), r')
        else Some ("", s3)
    | EmptyString => Some ("", s3)
    end;
  Some ((sign ++ ipart ++ frac ++ exp)%string, s4).

Section Containers.
(** How a value is read inside the container. *)
Variable pv : string -> option (json * string).

(** The elements of an array after the first has been found to start at
    [s]; each is followed by a comma or by the closing bracket. *)
Fixpoint parse_elems (n : nat) (s : string) : option (list json * string) :=
  match n with
  | O => None
  | S n' =>
      '(v, r) ← pv s;
      match skip_ws r with
      | String c r' =>
          if Ascii.eqb c "," then
            '(vs, r'') ← parse_elems n' (skip_ws r'); Some (v :: vs, r'')
          else if Ascii.eqb c "]" then Some ([v], r')
          else None
      | EmptyString => None
      end
  end.

(** The members of an object, likewise: a string key, a colon, a value. *)
Fixpoint parse_members (n : nat) (s : string)
  : option (list (string * json) * string) :=
  match n with
  | O => None
  | S n' =>
      '(k, r) ← parse_string s;
      match skip_ws r with
      | String c r0 =>
          if Ascii.eqb c ":" then
            '(v, r1) ← pv (skip_ws r0);
            match skip_ws r1 with
            | String c r' =>
                if Ascii.eqb c "," then
                  '(ms, r'') ← parse_members n' (skip_ws r');
                  Some ((k, v) :: ms, r'')
                else if Ascii.eqb c "}" then Some ([(k, v)], r')
                else None
            | EmptyString => None
            end
          else None
      | EmptyString => None
      end
  end.
End Containers.

(** A value that starts at [s]; [d] is how many more containers may be
    opened. *)
Fixpoint parse_value (d : nat) (s : string) : option (json * string) :=
  match s with
  | EmptyString => None
  | String c r =>
      if Ascii.eqb c "{" then
        match d with
        | O => None
        | S d' =>
            match skip_ws r with
            | String c' r' as r0 =>
                if Ascii.eqb c' "}" then Some (JObj [], r')
                else '(ms, r1) ← parse_members (parse_value d') (String.length r0) r0;
                     Some (JObj ms, r1)
            | EmptyString => None
            end
        end
      else if Ascii.eqb c "[" then
        match d with
        | O => None
        | S d' =>
            match skip_ws r with
            | String c' r' as r0 =>
                if Ascii.eqb c' "]" then Some (JArr [], r')
                else '(vs, r1) ← parse_elems (parse_value d') (String.length r0) r0;
                     Some (JArr vs, r1)
            | EmptyString => None
            end
        end
      else if Ascii.eqb c dquote then
        '(t, r') ← parse_string s; Some (JStr t, r')
      else if Ascii.eqb c "t" then
        r' ← strip_prefix "rue" r; Some (JBool true, r')
      else if Ascii.eqb c "f" then
        r' ← strip_prefix "alse" r; Some (JBool false, r')
      else if Ascii.eqb c "n" then
        r' ← strip_prefix "ull" r; Some (JNull, r')
      else
        '(lit, r') ← parse_number s; Some (JNum lit, r')
  end.

(** The scanner refuses a document nested deeper than this. *)
Definition maxNestingDepth : nat := Z.to_nat 10000.

(** A whole document: one value, with white space around it at most. *)
Definition parse (s : string) : option json :=
  '(v, r) ← parse_value maxNestingDepth (skip_ws s);
  match skip_ws r with
  | EmptyString => Some v
  | String _ _ => None
  end.

(** *** Writing *)

(** [htmlSafeSet]: the ASCII characters [json.Marshal] writes as they
    are.  The quote, the backslash, the control characters and, because
    [Marshal] escapes for HTML, [<], [>] and [&] are not among them. *)
Definition html_safe (c : ascii) : bool :=
  (32 <=? val c) && (val c <? 128)
  && negb (Ascii.eqb c dquote || Ascii.eqb c "\" || Ascii.eqb c "<"
           || Ascii.eqb c ">" || Ascii.eqb c "&").

Definition u00 (c : ascii) : string :=
  "\u00" ++ String (hex_digit (val c / 16)) (String (hex_digit (val c mod 16)) "").

(** How [appendString] writes an ASCII character. *)
Definition quote_ascii (c : ascii) : string :=
  if html_safe c then String c ""
  else if Ascii.eqb c dquote || Ascii.eqb c "\" then String "\" (String c "")
  else if val c =? 8 then "\b"
  else if val c =? 12 then "\f"
  else if val c =? 10 then "\n"
  else if val c =? 13 then "\r"
  else if val c =? 9 then "\t"
  else u00 c.

(** The body of [appendString]: an ill-formed UTF-8 byte is written as
    the escape of U+FFFD, the separators U+2028 and U+2029 as escapes, any
    other multi-byte sequence as it is. *)
Fixpoint quote_body (n : nat) (s : string) : string :=
  match n, s with
  | S n', String c r =>
      if val c <? 128 then quote_ascii c ++ quote_body n' r
      else
        match UTF8.DecodeRune s with
        | Some (rr, size, rest) =>
            (if UTF8.is_error rr size then "\ufffd"
             else if (rr =? 8232) || (rr =? 8233)
                  then "\u202" ++ String (hex_digit (rr mod 16)) ""
                  else substring 0 size s)
            ++ quote_body n' rest
        | None => ""
        end
  | _, _ => ""
  end.

Definition quote (s : string) : string :=
  String dquote (quote_body (String.length s) s ++ String dquote "").

(** The compact text [json.Marshal] writes for a document. *)
Fixpoint print (j : json) : string :=
  match j with
  | JNull => "null"
  | JBool true => "true"
  | JBool false => "false"
  | JNum lit => lit
  | JStr s => quote s
  | JArr l =>
      "[" ++ (fix elems (l : list json) : string :=
                match l with
                | [] => ""
                | [v] => print v
                | v :: l' => print v ++ "," ++ elems l'
                end) l ++ "]"
  | JObj l =>
      "{" ++ (fix members (l : list (string * json)) : string :=
                match l with
                | [] => ""
                | [(k, v)] => quote k ++ ":" ++ print v
                | (k, v) :: l' => quote k ++ ":" ++ print v ++ "," ++ members l'
                end) l ++ "}"
  end.

(** *** Storing a document into a Go value *)

(** [foldName]: the form under which a key is matched against the field
    names when no name equals it.  ASCII letters are upper-cased; the
    long s (U+017F) and the Kelvin sign (U+212A) are the two runes outside
    ASCII whose fold is an ASCII letter.  Any other rune folds to a rune
    outside ASCII and so never matches the ASCII names of this package: it
    is left as it is. *)
Fixpoint foldName (s : string) : string :=
  match s with
  | EmptyString => EmptyString
  | String c r =>
      if in_range 97 122 c then String (of_val (val c - 32)) (foldName r)
      else
        match r with
        | String c1 r1 =>
            if (val c =? 197) && (val c1 =? 191) then String "S" (foldName r1)
            else
              match r1 with
              | String c2 r2 =>
                  if (val c =? 226) && (val c1 =? 132) && (val c2 =? 170)
                  then String "K" (foldName r2)
                  else String c (foldName r)
              | EmptyString => String c (foldName r)
              end
        | EmptyString => String c (foldName r)
        end
  end.

(** The field a key names: the one with that very name, or else the first
    with the same fold. *)
Definition match_field (names : list string) (key : string) : option string :=
  match List.find (String.eqb key) names with
  | Some f => Some f
  | None => List.find (fun f => String.eqb (foldName f) (foldName key)) names
  end.

(** [strconv.ParseInt(lit, 10, 64)] on a number literal: a literal with a
    fraction or an exponent, or outside 64 bits, is refused. *)
Definition ParseInt (lit : string) : option Z :=
  d ← NilZero.int_of_string lit;
  let z := Z.of_int d in
  if (- 2 ^ 63 <=? z) && (z <? 2 ^ 63) then Some z else None.

(** Storing into an [int]: [null] leaves it alone; anything but a number
    is an [UnmarshalTypeError]. *)
Definition store_int (j : json) (old : Z) : option Z :=
  match j with
  | JNull => Some old
  | JNum lit => ParseInt lit
  | _ => None
  end.

Definition store_string (j : json) (old : string) : option string :=
  match j with
  | JNull => Some old
  | JStr s => Some s
  | _ => None
  end.

(** Storing into a [*string]: [null] makes the pointer nil. *)
Definition store_string_ptr (j : json) : option (option string) :=
  match j with
  | JNull => Some None
  | JStr s => Some (Some s)
  | _ => None
  end.

(** Storing an object into a struct: the members in the order of the
    document, each into the field its key names; a key that names no
    field is skipped.  [null] leaves the struct alone, any other document
    is an [UnmarshalTypeError].  [None] stands for the error [Unmarshal]
    returns; what it has stored by then is not kept. *)
Definition store_struct {T : Type} (names : list string)
    (set : string -> json -> T -> option T) (j : json) (old : T) : option T :=
  match j with
  | JNull => Some old
  | JObj ms =>
      foldl (fun acc '(k, v) =>
               t ← acc;
               match match_field names k with
               | Some f => set f v t
               | None => Some t
               end) (Some old) ms
  | _ => None
  end.

End JSON.

(** ** Models ([models.go]) *)

Module Models.
Import Bytes JSON.

(** The Go types [json.Marshal] and [json.Unmarshal] are used with: their
    zero value, the document [Marshal] writes ([None] when it returns an
    error) and how [Unmarshal] stores a document into a value that exists
    already ([None] when it returns an error). *)
Class GoValue (T : Type) := {
  zero : T;
  encode : T -> option json;
  store : json -> T -> option T;
}.

(** [json.Marshal] and [json.Unmarshal]. *)
Definition Marshal {T} `{GoValue T} (v : T) : option string :=
  print <$> encode v.

Definition Unmarshal {T} `{GoValue T} (data : string) (v : T) : option T :=
  j ← parse data; store j v.

(** [ToJSON]: the text, or [None] for the error. *)
Definition ToJSON {T} `{GoValue T} (v : T) : option string :=
  match Marshal v with
  | None => None
  | Some b => Some b
  end.

(** [FromJSON]: the value [v] points to after the call, or [None] for the
    error. *)
Definition FromJSON {T} `{GoValue T} (data : string) (v : T) : option T :=
  Unmarshal data v.

(** A member written unless the pointer is nil ([omitempty] on a pointer
    field). *)
Definition opt_member {A} (k : string) (f : A -> option json) (o : option A)
  : option (list (string * json)) :=
  match o with
  | None => Some []
  | Some a => j ← f a; Some [(k, j)]
  end.

Definition enc_string (s : string) : option json := Some (JStr s).

(** *** APIError *)

Record APIError := {
  Code : Z;         (* `json:"code"` *)
  Message : string; (* `json:"message"` *)
  Details : string; (* `json:"details,omitempty"` *)
}.

#[export] Instance APIError_GoValue : GoValue APIError := {
  zero := {| Code := 0; Message := ""; Details := "" |};
  encode e :=
    Some (JObj ([("code", JNum (Itoa (Code e))); ("message", JStr (Message e))]
                ++ if String.eqb (Details e) "" then []
                   else [("details", JStr (Details e))]));
  store :=
    store_struct ["code"; "message"; "details"]
      (fun f j e =>
         if String.eqb f "code" then
           n ← store_int j (Code e);
           Some {| Code := n; Message := Message e; Details := Details e |}
         else if String.eqb f "message" then
           s ← store_string j (Message e);
           Some {| Code := Code e; Message := s; Details := Details e |}
         else
           s ← store_string j (Details e);
           Some {| Code := Code e; Message := Message e; Details := s |});
}.

(** *** Customer *)

Record Customer := {
  Email : string; (* `json:"email"` *)
}.

#[export] Instance Customer_GoValue : GoValue Customer := {
  zero := {| Email := "" |};
  encode c := Some (JObj [("email", JStr (Email c))]);
  store :=
    store_struct ["email"]
      (fun _ j c => s ← store_string j (Email c); Some {| Email := s |});
}.

(** Storing into a pointer to a struct: [null] makes the pointer nil; an
    object is stored into the value pointed to, a new zero value when the
    pointer is nil. *)
Definition store_ptr {T} `{GoValue T} (j : json) (old : option T)
  : option (option T) :=
  match j with
  | JNull => Some None
  | _ => Some <$> store j (default zero old)
  end.

(** The values an [interface{}] holds: the document [Marshal] writes for
    one ([None] for a value it refuses, a channel for instance) and the
    value [Unmarshal] stores for a document. *)
Class Dynamic (iface : Type) := {
  encode_iface : iface -> option json;
  decode_iface : json -> iface;
}.

Section CheckoutRequest.
Context {iface : Type} `{!Dynamic iface}.

(** A [map[string]interface{}] that is not nil. *)
#[local] Abbreviation metadata := (gmap string iface).

(** The entries of a map in the order [Marshal] writes them: by
    increasing key. *)
Definition sorted_entries (m : metadata) : list (string * iface) :=
  merge_sort (fun a b => bool_decide (String.leb a.1 b.1 = true)) (map_to_list m).

Definition encode_map (m : metadata) : option json :=
  ms ← mapM (fun '(k, v) => j ← encode_iface v; Some (k, j)) (sorted_entries m);
  Some (JObj ms).

(** Storing into a map: [null] makes it nil; the members of an object
    are added to the map, a new one when it is nil. *)
Definition store_map (j : json) (old : option metadata) : option (option metadata) :=
  match j with
  | JNull => Some None
  | JObj ms =>
      Some (Some (foldl (fun m '(k, v) => <[k := decode_iface v]> m)
                    (default ∅ old) ms))
  | _ => None
  end.

Record CheckoutRequest := {
  ProductID : string;           (* `json:"product_id"` *)
  Customer_ : option Customer;  (* Customer *Customer `json:"customer,omitempty"` *)
  RequestID : option string;    (* `json:"request_id,omitempty"` *)
  Units : option string;        (* `json:"units,omitempty"` *)
  SuccessURL : option string;   (* `json:"success_url,omitempty"` *)
  Metadata : option metadata;   (* `json:"metadata,omitempty"` *)
}.

(** [omitempty] on a map leaves out a nil map and an empty one. *)
Definition metadata_member (o : option metadata) : option (list (string * json)) :=
  match o with
  | None => Some []
  | Some m => if bool_decide (m = ∅) then Some []
              else j ← encode_map m; Some [("metadata", j)]
  end.

Definition encode_CheckoutRequest (r : CheckoutRequest) : option json :=
  c ← opt_member "customer" encode (Customer_ r);
  q ← opt_member "request_id" enc_string (RequestID r);
  u ← opt_member "units" enc_string (Units r);
  s ← opt_member "success_url" enc_string (SuccessURL r);
  m ← metadata_member (Metadata r);
  Some (JObj ([("product_id", JStr (ProductID r))] ++ c ++ q ++ u ++ s ++ m)).

Definition set_CheckoutRequest (f : string) (j : json) (r : CheckoutRequest)
  : option CheckoutRequest :=
  if String.eqb f "product_id" then
    v ← store_string j (ProductID r);
    Some {| ProductID := v; Customer_ := Customer_ r; RequestID := RequestID r;
            Units := Units r; SuccessURL := SuccessURL r; Metadata := Metadata r |}
  else if String.eqb f "customer" then
    v ← store_ptr j (Customer_ r);
    Some {| ProductID := ProductID r; Customer_ := v; RequestID := RequestID r;
            Units := Units r; SuccessURL := SuccessURL r; Metadata := Metadata r |}
  else if String.eqb f "request_id" then
    v ← store_string_ptr j;
    Some {| ProductID := ProductID r; Customer_ := Customer_ r; RequestID := v;
            Units := Units r; SuccessURL := SuccessURL r; Metadata := Metadata r |}
  else if String.eqb f "units" then
    v ← store_string_ptr j;
    Some {| ProductID := ProductID r; Customer_ := Customer_ r; RequestID := RequestID r;
            Units := v; SuccessURL := SuccessURL r; Metadata := Metadata r |}
  else if String.eqb f "success_url" then
    v ← store_string_ptr j;
    Some {| ProductID := ProductID r; Customer_ := Customer_ r; RequestID := RequestID r;
            Units := Units r; SuccessURL := v; Metadata := Metadata r |}
  else
    v ← store_map j (Metadata r);
    Some {| ProductID := ProductID r; Customer_ := Customer_ r; RequestID := RequestID r;
            Units := Units r; SuccessURL := SuccessURL r; Metadata := v |}.

#[export] Instance CheckoutRequest_GoValue : GoValue CheckoutRequest := {
  zero := {| ProductID := ""; Customer_ := None; RequestID := None;
             Units := None; SuccessURL := None; Metadata := None |};
  encode := encode_CheckoutRequest;
  store :=
    store_struct
      ["product_id"; "customer"; "request_id"; "units"; "success_url"; "metadata"]
      set_CheckoutRequest;
}.
End CheckoutRequest.

Arguments CheckoutRequest : clear implicits.

End Models.

(** ** Error taxonomy ([errors.go]) *)

Module Errors.
Import Bytes.

(** [BagelPayError], over the type of the errors that can cause it. *)
Record BagelPayError (E : Type) := {
  Message : string;
  Cause : option E;
}.
Arguments Message {E}.
Arguments Cause {E}.

(** [BagelPayAPIError]; [Base] is the embedded [*BagelPayError]. *)
Record BagelPayAPIError (E : Type) := {
  Base : BagelPayError E;
  StatusCode : Z;
  ErrorCode : string;
  APIError : option Models.APIError;
}.
Arguments Base {E}.
Arguments StatusCode {E}.
Arguments ErrorCode {E}.
Arguments APIError {E}.

(** A value of interface type [error] that is not nil, by its dynamic
    type.  Each of the five specialised structs embeds a
    [*BagelPayAPIError] and has no field of its own. *)
#[local] Unset Elimination Schemes.
Inductive error : Type :=
| Foreign (origin : string) (* an error of another package *)
| PAPIError (e : Models.APIError)                                 (* *APIError *)
| PBagelPayError (e : BagelPayError error)                        (* *BagelPayError *)
| PBagelPayAPIError (e : BagelPayAPIError error)                  (* *BagelPayAPIError *)
| PBagelPayAuthenticationError (e : BagelPayAPIError error)
| PBagelPayValidationError (e : BagelPayAPIError error)
| PBagelPayNotFoundError (e : BagelPayAPIError error)
| PBagelPayRateLimitError (e : BagelPayAPIError error)
| PBagelPayServerError (e : BagelPayAPIError error).
#[local] Set Elimination Schemes.

(** [http.StatusBadRequest] and the like. *)
Definition StatusBadRequest : Z := 400.
Definition StatusUnauthorized : Z := 401.
Definition StatusNotFound : Z := 404.
Definition StatusTooManyRequests : Z := 429.
Definition StatusInternalServerError : Z := 500.

Definition NewBagelPayError (message : string) (cause : option error)
  : BagelPayError error :=
  {| Message := message; Cause := cause |}.

Definition NewBagelPayAPIError (statusCode : Z)
    (apiError : option Models.APIError) (cause : option error)
  : BagelPayAPIError error :=
  let '(message, errorCode) :=
    match apiError with
    | Some a =>
        (Models.Message a,
         if Models.Code a =? 0 then "" else Itoa (Models.Code a))
    | None => ("API request failed", "")
    end in
  {| Base := NewBagelPayError message cause;
     StatusCode := statusCode;
     ErrorCode := errorCode;
     APIError := apiError |}.

(** The body the five constructors share: the status code given, or the
    default of the kind when it is zero. *)
Definition new_with_default (default_status : Z) (message : string)
    (statusCode : Z) (errorCode : string)
    (apiError : option Models.APIError) (cause : option error)
  : BagelPayAPIError error :=
  let statusCode := if statusCode =? 0 then default_status else statusCode in
  {| Base := NewBagelPayError message cause;
     StatusCode := statusCode;
     ErrorCode := errorCode;
     APIError := apiError |}.

Definition NewBagelPayAuthenticationError := new_with_default StatusUnauthorized.
Definition NewBagelPayValidationError := new_with_default StatusBadRequest.
Definition NewBagelPayNotFoundError := new_with_default StatusNotFound.
Definition NewBagelPayRateLimitError := new_with_default StatusTooManyRequests.
Definition NewBagelPayServerError := new_with_default StatusInternalServerError.

Definition NewBagelPayAuthenticationErrorSimple (message : string) (cause : option error) :=
  NewBagelPayAuthenticationError message StatusUnauthorized "" None cause.
Definition NewBagelPayValidationErrorSimple (message : string) (cause : option error) :=
  NewBagelPayValidationError message StatusBadRequest "" None cause.
Definition NewBagelPayNotFoundErrorSimple (message : string) (cause : option error) :=
  NewBagelPayNotFoundError message StatusNotFound "" None cause.
Definition NewBagelPayRateLimitErrorSimple (message : string) (cause : option error) :=
  NewBagelPayRateLimitError message StatusTooManyRequests "" None cause.
Definition NewBagelPayServerErrorSimple (statusCode : Z) (message : string)
    (cause : option error) :=
  NewBagelPayServerError message statusCode "" None cause.

(** The type tests.  [err] is a value of interface type [error], [None]
    when nil; a type assertion of [err] to a pointer type holds when the
    dynamic type of [err] is that very pointer type. *)
Definition IsAuthenticationError (err : option error) : bool :=
  match err with Some (PBagelPayAuthenticationError _) => true | _ => false end.
Definition IsValidationError (err : option error) : bool :=
  match err with Some (PBagelPayValidationError _) => true | _ => false end.
Definition IsNotFoundError (err : option error) : bool :=
  match err with Some (PBagelPayNotFoundError _) => true | _ => false end.
Definition IsRateLimitError (err : option error) : bool :=
  match err with Some (PBagelPayRateLimitError _) => true | _ => false end.
Definition IsServerError (err : option error) : bool :=
  match err with Some (PBagelPayServerError _) => true | _ => false end.
Definition IsAPIError (err : option error) : bool :=
  match err with Some (PBagelPayAPIError _) => true | _ => false end.

(** The kinds of the specification's table. *)
Inductive kind : Type :=
| Authentication | Validation | NotFound | RateLimit | Server | GenericAPI
| NotAPI.

Definition kind_of (err : error) : kind :=
  match err with
  | PBagelPayAuthenticationError _ => Authentication
  | PBagelPayValidationError _ => Validation
  | PBagelPayNotFoundError _ => NotFound
  | PBagelPayRateLimitError _ => RateLimit
  | PBagelPayServerError _ => Server
  | PBagelPayAPIError _ => GenericAPI
  | Foreign _ | PAPIError _ | PBagelPayError _ => NotAPI
  end.

(** The [BagelPayAPIError] an error is or embeds. *)
Definition api_part (err : error) : option (BagelPayAPIError error) :=
  match err with
  | PBagelPayAuthenticationError e | PBagelPayValidationError e
  | PBagelPayNotFoundError e | PBagelPayRateLimitError e
  | PBagelPayServerError e | PBagelPayAPIError e => Some e
  | Foreign _ | PAPIError _ | PBagelPayError _ => None
  end.

End Errors.

(** ** URLs, as package [net/url] parses and writes them *)

Module URL.
Import Bytes.

(** [strings.HasPrefix], [strings.HasSuffix] for one byte, [strings.Count]
    of a byte, and the text before and after the last occurrence of a
    byte ([strings.LastIndex]). *)
Definition HasPrefix (s p : string) : bool :=
  match strip_prefix p s with Some _ => true | None => false end.

Fixpoint ends_with (c : ascii) (s : string) : bool :=
  match s with
  | EmptyString => false
  | String a EmptyString => Ascii.eqb a c
  | String _ r => ends_with c r
  end.

Fixpoint Count (c : ascii) (s : string) : nat :=
  match s with
  | EmptyString => O
  | String a r => if Ascii.eqb a c then S (Count c r) else Count c r
  end.

Fixpoint drop_last (s : string) : string :=
  match s with
  | EmptyString => EmptyString
  | String _ EmptyString => EmptyString
  | String a r => String a (drop_last r)
  end.

Fixpoint cut_last (sep : ascii) (s : string) : option (string * string) :=
  match s with
  | EmptyString => None
  | String c r =>
      match cut_last sep r with
      | Some (a, b) => Some (String c a, b)
      | None => if Ascii.eqb c sep then Some (EmptyString, r) else None
      end
  end.

Fixpoint contains (c : ascii) (s : string) : bool :=
  match s with
  | EmptyString => false
  | String a r => Ascii.eqb a c || contains c r
  end.

(** Whether a byte is one of those of a text. *)
Definition one_of (set : string) (c : ascii) : bool := contains c set.

Fixpoint all_bytes (p : ascii -> bool) (s : string) : bool :=
  match s with
  | EmptyString => true
  | String a r => p a && all_bytes p r
  end.

Definition is_letter (c : ascii) : bool := in_range 97 122 c || in_range 65 90 c.
Definition is_alnum (c : ascii) : bool := is_letter c || in_range 48 57 c.

(** [strings.ToLower] on ASCII. *)
Fixpoint ToLower (s : string) : string :=
  match s with
  | EmptyString => EmptyString
  | String c r =>
      String (if in_range 65 90 c then of_val (val c + 32) else c) (ToLower r)
  end.

(** The modes of escaping. *)
Inductive encoding : Type :=
| encodePath | encodePathSegment | encodeHost | encodeZone
| encodeUserPassword | encodeQueryComponent | encodeFragment.

Definition host_mode (mode : encoding) : bool :=
  match mode with encodeHost | encodeZone => true | _ => false end.

(** [shouldEscape]. *)
Definition shouldEscape (c : ascii) (mode : encoding) : bool :=
  if is_alnum c then false
  else if host_mode mode && one_of "!$&'()*+,;=:[]<>" c then false
  else if host_mode mode && Ascii.eqb c dquote then false
  else if one_of "-_.~" c then false
  else if one_of "$&+,/:;=?@" c then
    match mode with
    | encodePath => Ascii.eqb c "?"
    | encodePathSegment =>
        Ascii.eqb c "/" || Ascii.eqb c ";" || Ascii.eqb c "," || Ascii.eqb c "?"
    | encodeUserPassword =>
        Ascii.eqb c "@" || Ascii.eqb c "/" || Ascii.eqb c "?" || Ascii.eqb c ":"
    | encodeQueryComponent => true
    | encodeFragment => false
    | encodeHost | encodeZone => true
    end
  else
    match mode with
    | encodeFragment => negb (one_of "!()*" c)
    | _ => true
    end.

Definition ishex (c : ascii) : bool :=
  match hex_val c with Some _ => true | None => false end.

(** [unescape]: [None] for the error. *)
Fixpoint unescape (mode : encoding) (s : string) : option string :=
  match s with
  | EmptyString => Some EmptyString
  | String c r =>
      if Ascii.eqb c "%" then
        match r with
        | String h1 (String h2 r') =>
            a ← hex_val h1; b ← hex_val h2;
            let is25 := Ascii.eqb h1 "2" && Ascii.eqb h2 "5" in
            let v := of_val (a * 16 + b) in
            match mode with
            | encodeHost =>
                if (a <? 8) && negb is25 then None
                else t ← unescape mode r'; Some (String v t)
            | encodeZone =>
                if negb is25 && negb (Ascii.eqb v " ") && shouldEscape v encodeHost
                then None
                else t ← unescape mode r'; Some (String v t)
            | _ => t ← unescape mode r'; Some (String v t)
            end
        | _ => None
        end
      else
        match mode with
        | encodeQueryComponent =>
            t ← unescape mode r;
            Some (String (if Ascii.eqb c "+" then " "%char else c) t)
        | encodeHost | encodeZone =>
            if (val c <? 128) && shouldEscape c encodeHost then None
            else t ← unescape mode r; Some (String c t)
        | _ => t ← unescape mode r; Some (String c t)
        end
  end.

Definition upper_hex (n : Z) : ascii :=
  if n <? 10 then of_val (48 + n) else of_val (55 + n).

(** [escape]. *)
Fixpoint escape (mode : encoding) (s : string) : string :=
  match s with
  | EmptyString => EmptyString
  | String c r =>
      if shouldEscape c mode then
        match mode with
        | encodeQueryComponent =>
            if Ascii.eqb c " " then String "+" (escape mode r)
            else String "%" (String (upper_hex (val c / 16))
                               (String (upper_hex (val c mod 16)) (escape mode r)))
        | _ => String "%" (String (upper_hex (val c / 16))
                             (String (upper_hex (val c mod 16)) (escape mode r)))
        end
      else String c (escape mode r)
  end.

(** [validEncoded]. *)
Definition validEncoded (mode : encoding) (s : string) : bool :=
  all_bytes (fun c => one_of "!$&'()*+,;=:@[]%" c || negb (shouldEscape c mode)) s.

(** [stringContainsCTLByte]. *)
Fixpoint has_ctl (s : string) : bool :=
  match s with
  | EmptyString => false
  | String c r => (val c <? 32) || (val c =? 127) || has_ctl r
  end.

(** [url.Userinfo]: the password is [None] when it is not set. *)
Record Userinfo := {
  username : string;
  password : option string;
}.

(** [url.URL]; [User] is [None] for a nil pointer. *)
Record URL := {
  Scheme : string;
  Opaque : string;
  User : option Userinfo;
  Host : string;
  Path : string;
  RawPath : string;
  OmitHost : bool;
  ForceQuery : bool;
  RawQuery : string;
  Fragment : string;
  RawFragment : string;
}.

(** The loop of [getScheme] from the byte at hand on: the scheme and what
    follows its colon, no scheme, or the error of a colon at the start. *)
Inductive scheme_scan : Type :=
| scheme_found (scheme rest : string)
| scheme_none
| scheme_missing.

Fixpoint scan_scheme (first : bool) (s : string) : scheme_scan :=
  match s with
  | EmptyString => scheme_none
  | String c r =>
      let more :=
        match scan_scheme false r with
        | scheme_found scheme rest => scheme_found (String c scheme) rest
        | other => other
        end in
      if is_letter c then more
      else if in_range 48 57 c || one_of "+-." c then
        if first then scheme_none else more
      else if Ascii.eqb c ":" then
        if first then scheme_missing else scheme_found EmptyString r
      else scheme_none
  end.

(** [getScheme]: [None] for the error. *)
Definition getScheme (rawURL : string) : option (string * string) :=
  match scan_scheme true rawURL with
  | scheme_found scheme rest => Some (scheme, rest)
  | scheme_none => Some (EmptyString, rawURL)
  | scheme_missing => None
  end.

(** [validUserinfo]. *)
Definition validUserinfo (s : string) : bool :=
  all_bytes (fun c => is_alnum c || one_of "-._:~!$&'()*+,;=%@" c) s.

(** [validOptionalPort]. *)
Definition validOptionalPort (port : string) : bool :=
  match port with
  | EmptyString => true
  | String c r => Ascii.eqb c ":" && all_bytes (in_range 48 57) r
  end.

(** The text before the first [%25] and the text from it on
    ([strings.Index]). *)
Fixpoint cut_zone (s : string) : option (string * string) :=
  match s with
  | EmptyString => None
  | String c r =>
      if HasPrefix s "%25" then Some (EmptyString, s)
      else match cut_zone r with
           | Some (a, b) => Some (String c a, b)
           | None => None
           end
  end.

(** [parseHost]. *)
Definition parseHost (host : string) : option string :=
  if HasPrefix host "[" then
    match cut_last "]" host with
    | None => None
    | Some (literal, colonPort) =>
        if negb (validOptionalPort colonPort) then None
        else
          match cut_zone literal with
          | Some (before, zone) =>
              host1 ← unescape encodeHost before;
              host2 ← unescape encodeZone zone;
              host3 ← unescape encodeHost (String "]" colonPort);
              Some (host1 ++ host2 ++ host3)
          | None => unescape encodeHost host
          end
    end
  else
    match cut_last ":" host with
    | Some (_, port) =>
        if validOptionalPort (String ":" port) then unescape encodeHost host
        else None
    | None => unescape encodeHost host
    end.

(** [parseAuthority]. *)
Definition parseAuthority (authority : string) : option (option Userinfo * string) :=
  match cut_last "@" authority with
  | None => host ← parseHost authority; Some (None, host)
  | Some (userinfo, hostport) =>
      host ← parseHost hostport;
      if negb (validUserinfo userinfo) then None
      else if negb (contains ":" userinfo) then
        name ← unescape encodeUserPassword userinfo;
        Some (Some {| username := name; password := None |}, host)
      else
        let '(name, pass) := cut ":" userinfo in
        name ← unescape encodeUserPassword name;
        pass ← unescape encodeUserPassword (default "" pass);
        Some (Some {| username := name; password := Some pass |}, host)
  end.

(** [URL.setPath]: the path and the raw path. *)
Definition setPath (p : string) : option (string * string) :=
  path ← unescape encodePath p;
  Some (path, if String.eqb p (escape encodePath path) then "" else p).

(** [URL.setFragment]. *)
Definition setFragment (f : string) : option (string * string) :=
  frag ← unescape encodeFragment f;
  Some (frag, if String.eqb f (escape encodeFragment frag) then "" else f).

(** The query cut off what follows the scheme: the text before it, the
    query, and whether there is a question mark with nothing after it. *)
Definition split_query (rest : string) : string * string * bool :=
  if ends_with "?" rest && Nat.eqb (Count "?" rest) 1
  then (drop_last rest, "", true)
  else let '(a, b) := cut "?" rest in (a, default "" b, false).

(** The authority of a text that starts with two slashes: the user, the
    host and the rest. *)
Definition split_authority (rest : string) : option (option Userinfo * string * string) :=
  let authority := default "" (strip_prefix "//" rest) in
  let '(authority, rest) :=
    match cut "/" authority with
    | (a, Some b) => (a, String "/" b)
    | (a, None) => (a, "")
    end in
  '(user, host) ← parseAuthority authority;
  Some (user, host, rest).

(** [parse] with [viaRequest] false, from the scheme on. *)
Definition parse_rest (scheme rest rawQuery : string) (forceQuery : bool)
  : option URL :=
  if negb (HasPrefix rest "/") && negb (String.eqb scheme "") then
    Some {| Scheme := scheme; Opaque := rest; User := None; Host := ""; Path := "";
            RawPath := ""; OmitHost := false; ForceQuery := forceQuery;
            RawQuery := rawQuery; Fragment := ""; RawFragment := "" |}
  else if negb (HasPrefix rest "/") && contains ":" (cut "/" rest).1 then None
  else
    '(user, host, rest, omitHost) ←
      (if (negb (String.eqb scheme "") || negb (HasPrefix rest "///"))
          && HasPrefix rest "//"
       then '(user, host, rest) ← split_authority rest; Some (user, host, rest, false)
       else Some (None, "", rest,
                  negb (String.eqb scheme "") && HasPrefix rest "/"));
    '(path, rawPath) ← setPath rest;
    Some {| Scheme := scheme; Opaque := ""; User := user; Host := host;
            Path := path; RawPath := rawPath; OmitHost := omitHost;
            ForceQuery := forceQuery; RawQuery := rawQuery;
            Fragment := ""; RawFragment := "" |}.

(** [parse] with [viaRequest] false. *)
Definition parse (rawURL : string) : option URL :=
  if has_ctl rawURL then None
  else if String.eqb rawURL "*" then
    Some {| Scheme := ""; Opaque := ""; User := None; Host := ""; Path := "*";
            RawPath := ""; OmitHost := false; ForceQuery := false; RawQuery := "";
            Fragment := ""; RawFragment := "" |}
  else
    '(scheme, rest) ← getScheme rawURL;
    let '(rest, rawQuery, forceQuery) := split_query rest in
    parse_rest (ToLower scheme) rest rawQuery forceQuery.

(** [url.Parse]: [None] for the error. *)
Definition Parse (rawURL : string) : option URL :=
  let '(u, frag) := cut "#" rawURL in
  url ← parse u;
  match default "" frag with
  | EmptyString => Some url
  | f =>
      '(fragment, rawFragment) ← setFragment f;
      Some {| Scheme := Scheme url; Opaque := Opaque url; User := User url;
              Host := Host url; Path := Path url; RawPath := RawPath url;
              OmitHost := OmitHost url; ForceQuery := ForceQuery url;
              RawQuery := RawQuery url;
              Fragment := fragment; RawFragment := rawFragment |}
  end.

(** [URL.EscapedPath] and [URL.EscapedFragment]. *)
Definition EscapedPath (u : URL) : string :=
  if negb (String.eqb (RawPath u) "") && validEncoded encodePath (RawPath u)
     && bool_decide (unescape encodePath (RawPath u) = Some (Path u))
  then RawPath u
  else if String.eqb (Path u) "*" then "*"
  else escape encodePath (Path u).

Definition EscapedFragment (u : URL) : string :=
  if negb (String.eqb (RawFragment u) "") && validEncoded encodeFragment (RawFragment u)
     && bool_decide (unescape encodeFragment (RawFragment u) = Some (Fragment u))
  then RawFragment u
  else escape encodeFragment (Fragment u).

(** [Userinfo.String]. *)
Definition Userinfo_String (ui : Userinfo) : string :=
  escape encodeUserPassword (username ui)
  ++ match password ui with
     | Some p => ":" ++ escape encodeUserPassword p
     | None => ""
     end.

(** What [URL.String] writes of the authority. *)
Definition String_authority (u : URL) : string :=
  let has_user := match User u with Some _ => true | None => false end in
  if negb (String.eqb (Scheme u) "") || negb (String.eqb (Host u) "") || has_user
  then
    if OmitHost u && String.eqb (Host u) "" && negb has_user then ""
    else
      (if negb (String.eqb (Host u) "") || negb (String.eqb (Path u) "") || has_user
       then "//" else "")
      ++ match User u with
         | Some ui => Userinfo_String ui ++ "@"
         | None => ""
         end
      ++ escape encodeHost (Host u)
  else "".

(** [URL.String] up to the query: the scheme, then the opaque text or the
    authority and the path. *)
Definition String_head (u : URL) : string :=
  let scheme := if String.eqb (Scheme u) "" then "" else Scheme u ++ ":" in
  if negb (String.eqb (Opaque u) "") then scheme ++ Opaque u
  else
    let path := EscapedPath u in
    let buf :=
      scheme ++ String_authority u
      ++ (if negb (String.eqb path "") && negb (HasPrefix path "/")
             && negb (String.eqb (Host u) "")
          then "/" else "") in
    (if String.eqb buf "" && contains ":" (cut "/" path).1 then "./" else buf)
    ++ path.

(** [URL.String]. *)
Definition String_ (u : URL) : string :=
  String_head u
  ++ (if ForceQuery u || negb (String.eqb (RawQuery u) "")
      then "?" ++ RawQuery u else "")
  ++ (if negb (String.eqb (Fragment u) "")
      then "#" ++ EscapedFragment u else "").

(** [url.Values]. *)
Abbreviation Values := (gmap string (list string)).

(** [Values.Add]. *)
Definition Add (key value : string) (v : Values) : Values :=
  <[key := (default [] (v !! key) ++ [value])%list]> v.

(** [QueryUnescape]: a plus sign is a space, a percent sign starts a byte
    in hexadecimal. *)
Fixpoint QueryUnescape (s : string) : option string :=
  match s with
  | EmptyString => Some EmptyString
  | String c r =>
      if Ascii.eqb c "%" then
        match r with
        | String h1 (String h2 r') =>
            a ← hex_val h1; b ← hex_val h2;
            t ← QueryUnescape r'; Some (String (of_val (a * 16 + b)) t)
        | _ => None
        end
      else
        t ← QueryUnescape r;
        Some (String (if Ascii.eqb c "+" then " "%char else c) t)
  end.

(** The characters [QueryEscape] leaves as they are. *)
Definition unreserved (c : ascii) : bool :=
  in_range 97 122 c || in_range 65 90 c || in_range 48 57 c
  || Ascii.eqb c "-" || Ascii.eqb c "_" || Ascii.eqb c "." || Ascii.eqb c "~".

Fixpoint QueryEscape (s : string) : string :=
  match s with
  | EmptyString => EmptyString
  | String c r =>
      if unreserved c then String c (QueryEscape r)
      else if Ascii.eqb c " " then String "+" (QueryEscape r)
      else String "%" (String (upper_hex (val c / 16))
                         (String (upper_hex (val c mod 16)) (QueryEscape r)))
  end.

(** The text between two ampersands, with a fuel of the length. *)
Fixpoint split_amp (n : nat) (s : string) : list string :=
  match n with
  | O => []
  | S n' =>
      match s with
      | EmptyString => []
      | _ => let '(key, rest) := cut "&" s in
             key :: split_amp n' (default "" rest)
      end
  end.

(** [parseQuery]; a pair that is empty, holds a semicolon or does not
    unescape is skipped ([URL.Query] drops the error). *)
Definition parseQuery (query : string) : Values :=
  foldl (fun m key =>
           if contains ";" key then m
           else if String.eqb key "" then m
           else
             let '(k, v) := cut "=" key in
             match QueryUnescape k, QueryUnescape (default "" v) with
             | Some k', Some v' => Add k' v' m
             | _, _ => m
             end)
        ∅ (split_amp (String.length query) query).

(** [URL.Query]. *)
Definition Query (u : URL) : Values := parseQuery (RawQuery u).

(** The pairs [Values.Encode] writes, in its order: by increasing key,
    the values of a key in their order. *)
Definition pairs (v : Values) : list (string * string) :=
  mbind (M := list) (fun '(k, vs) => (fun x => (k, x)) <$> vs)
    (merge_sort (fun a b => bool_decide (String.leb a.1 b.1 = true))
       (map_to_list v)).

Fixpoint join_amp (l : list string) : string :=
  match l with
  | [] => ""
  | [x] => x
  | x :: l' => x ++ "&" ++ join_amp l'
  end.

(** [Values.Encode]. *)
Definition Encode (v : Values) : string :=
  join_amp ((fun '(k, x) => QueryEscape k ++ "=" ++ QueryEscape x) <$> pairs v).

End URL.

(** ** Package [net/http], as far as the client uses it *)

Module http.

(** [time.Second], in nanoseconds. *)
Definition Second : Z := 1000000000.

(** [http.Client]. *)
Record Client := {
  Timeout : Z;
}.

(** [http.Request]: the method, the URL, the body and the headers. *)
Record Request := {
  Method : string;
  Url : URL.URL;
  ReqBody : option string;
  Header : list (string * string);
}.

(** [httpguts.IsTokenRune] on a byte, and [validMethod]. *)
Definition isToken (c : ascii) : bool :=
  URL.is_alnum c || URL.one_of "!#$%&'*+-.^_`|~" c.

Definition validMethod (method : string) : bool :=
  negb (String.eqb method "") && URL.all_bytes isToken method.

(** [removeEmptyPort]: a colon after which no port stands is taken off
    the host. *)
Definition removeEmptyPort (host : string) : string :=
  match URL.cut_last ":" host with
  | Some (_, after) =>
      if negb (URL.contains "]" after) && URL.ends_with ":" host
      then URL.drop_last host else host
  | None => host
  end.

(** [http.NewRequestWithContext] with a context that is not nil: the
    request without headers, or [None] for the error.  The text of the URL
    is parsed again. *)
Definition NewRequestWithContext (method url : string) (body : option string)
  : option Request :=
  let method := if String.eqb method "" then "GET" else method in
  if negb (validMethod method) then None
  else
    u ← URL.Parse url;
    Some {| Method := method;
            Url := {| URL.Scheme := URL.Scheme u; URL.Opaque := URL.Opaque u;
                      URL.User := URL.User u;
                      URL.Host := removeEmptyPort (URL.Host u);
                      URL.Path := URL.Path u; URL.RawPath := URL.RawPath u;
                      URL.OmitHost := URL.OmitHost u;
                      URL.ForceQuery := URL.ForceQuery u;
                      URL.RawQuery := URL.RawQuery u;
                      URL.Fragment := URL.Fragment u;
                      URL.RawFragment := URL.RawFragment u |};
            ReqBody := body;
            Header := [] |}.

(** A response: its status code and what [io.ReadAll] gives for its
    body, the bytes or an error. *)
Record Response := {
  StatusCode : Z;
  Body : Errors.error + string;
}.

End http.

(** ** The client ([client.go]) *)

Module Client.
Import Bytes Errors Models.

Record ClientConfig := {
  APIKey : string;
  TestMode : bool;
  BaseURL : string;
  Timeout : Z;                      (* time.Duration, in nanoseconds *)
  HTTPClient : option http.Client;  (* *http.Client *)
}.

Record BagelPayClient := {
  baseURL : string;
  apiKey : string;
  httpClient : http.Client;
}.

(** The constants of [bagelpay.go]. *)
Definition DefaultTestBaseURL : string := "https://test.bagelpay.io".
Definition DefaultLiveBaseURL : string := "https://live.bagelpay.io".
Definition DefaultTimeout : Z := 30 * http.Second.
Definition DefaultUserAgent : string := "BagelPay-Go-SDK/1.0.0".

Definition NewClient (config : ClientConfig) : BagelPayClient :=
  let baseURL := BaseURL config in
  let baseURL :=
    if String.eqb baseURL "" then
      if TestMode config then "https://test.bagelpay.io"
      else "https://live.bagelpay.io"
    else baseURL in
  let baseURL := TrimSuffix_slash baseURL in
  let timeout := Timeout config in
  let timeout := if timeout =? 0 then 30 * http.Second else timeout in
  let httpClient :=
    match HTTPClient config with
    | None => {| http.Timeout := timeout |}
    | Some cl => cl
    end in
  {| baseURL := baseURL; apiKey := APIKey config; httpClient := httpClient |}.

(** The loop of [makeRequest] over the parameters, in the order the map
    yields them: a parameter is added unless its value is empty. *)
Definition add_params (params : gmap string string) (q : URL.Values) : URL.Values :=
  foldr (fun '(key, value) q =>
           if String.eqb value "" then q else URL.Add key value q)
        q (map_to_list params).

Definition carries_body (method : string) : bool :=
  String.eqb method "POST" || String.eqb method "PUT" || String.eqb method "PATCH".

(** [URL.RawQuery] set to [rawQuery]. *)
Definition with_RawQuery (u : URL.URL) (rawQuery : string) : URL.URL :=
  {| URL.Scheme := URL.Scheme u; URL.Opaque := URL.Opaque u; URL.User := URL.User u;
     URL.Host := URL.Host u; URL.Path := URL.Path u; URL.RawPath := URL.RawPath u;
     URL.OmitHost := URL.OmitHost u; URL.ForceQuery := URL.ForceQuery u;
     URL.RawQuery := rawQuery;
     URL.Fragment := URL.Fragment u; URL.RawFragment := URL.RawFragment u |}.

(** [makeRequest] up to the call of the transport: the request it hands
    to [httpClient.Do], or the error it returns.  [data] is [None] for a nil
    interface and [params] is [None] for a nil map.  The context is taken
    not to be nil, and is not described otherwise. *)
Definition newRequest {T} `{GoValue T} (c : BagelPayClient)
    (method endpoint : string) (data : option T)
    (params : option (gmap string string)) : error + http.Request :=
  match URL.Parse (baseURL c ++ endpoint) with
  | None => inl (PBagelPayError (NewBagelPayError "invalid URL" (Some (Foreign "net/url"))))
  | Some u =>
      let u :=
        match params with
        | None => u
        | Some params =>
            let q := add_params params (URL.Query u) in
            with_RawQuery u (URL.Encode q)
        end in
      let body :=
        match data with
        | Some d =>
            if carries_body method then
              match Marshal d with
              | None => inl (PBagelPayError
                               (NewBagelPayError "failed to marshal request data"
                                  (Some (Foreign "encoding/json"))))
              | Some jsonData => inr (Some jsonData)
              end
            else inr None
        | None => inr None
        end in
      match body with
      | inl err => inl err
      | inr body =>
          match http.NewRequestWithContext method (URL.String_ u) body with
          | None => inl (PBagelPayError
                           (NewBagelPayError "failed to create request"
                              (Some (Foreign "net/http"))))
          | Some req =>
              inr {| http.Method := http.Method req;
                     http.Url := http.Url req;
                     http.ReqBody := http.ReqBody req;
                     http.Header := [("Content-Type", "application/json");
                                     ("User-Agent", "BagelPay-Go-SDK/1.0.0");
                                     ("x-api-key", apiKey c)] |}
          end
      end
  end.

(** The payload [handleResponse] classifies: the body stored into a zero
    [APIError], or the fallback when [Unmarshal] returns an error. *)
Definition error_payload (status : Z) (body : string) : APIError :=
  match Unmarshal body (zero : APIError) with
  | Some apiError => apiError
  | None =>
      {| Code := status;
         Message := "HTTP " ++ Itoa status ++ ": " ++ body;
         Details := "" |}
  end.

(** The switch of [handleResponse] on the status code. *)
Definition classify (status : Z) (apiError : APIError) : error :=
  if status =? StatusUnauthorized then
    PBagelPayAuthenticationError
      (NewBagelPayAuthenticationErrorSimple (Message apiError) None)
  else if status =? StatusBadRequest then
    PBagelPayValidationError
      (NewBagelPayValidationErrorSimple (Message apiError) None)
  else if status =? StatusNotFound then
    PBagelPayNotFoundError
      (NewBagelPayNotFoundErrorSimple (Message apiError) None)
  else if status =? StatusTooManyRequests then
    PBagelPayRateLimitError
      (NewBagelPayRateLimitErrorSimple (Message apiError) None)
  else if 500 <=? status then
    PBagelPayServerError
      (NewBagelPayServerErrorSimple status (Message apiError) None)
  else
    PBagelPayAPIError (NewBagelPayAPIError status (Some apiError) None).

(** [handleResponse]: the value [result] points to after the call ([None]
    for a nil [result]) and the error returned ([None] for nil). *)
Definition handleResponse {T} `{GoValue T} (resp : http.Response)
    (result : option T) : option T * option error :=
  match http.Body resp with
  | inl err =>
      (result, Some (PBagelPayError
                       (NewBagelPayError "failed to read response body" (Some err))))
  | inr body =>
      if 400 <=? http.StatusCode resp then
        (result,
         Some (classify (http.StatusCode resp)
                 (error_payload (http.StatusCode resp) body)))
      else
        match result with
        | Some r =>
            match Unmarshal body r with
            | Some r' => (Some r', None)
            | None =>
                (result, Some (PBagelPayError
                                 (NewBagelPayError "failed to parse response"
                                    (Some (Foreign "encoding/json")))))
            end
        | None => (None, None)
        end
  end.

(** The anonymous struct with one field [Data] tagged [json:"data"]. *)
Record DataOf (T : Type) := { Data : T }.
Arguments Data {T}.

#[export] Instance DataOf_GoValue {T} `{GoValue T} : GoValue (DataOf T) := {
  zero := {| Data := zero |};
  encode w := j ← encode (Data w); Some (JSON.JObj [("data", j)]);
  store :=
    JSON.store_struct ["data"]
      (fun _ j w => d ← store j (Data w); Some {| Data := d |});
}.

(** The parameters of the four list operations. *)
Definition page_params (pageNum pageSize : Z) : gmap string string :=
  let params : gmap string string := ∅ in
  let params := if 0 <? pageSize then <["pageSize" := Itoa pageSize]> params else params in
  let params := if 0 <? pageNum then <["pageNum" := Itoa pageNum]> params else params in
  params.

Section Operations.
(** The models with a [float64] field, whose encoding is not described
    here, and the transport: [httpClient.Do]. *)
Context {Product Subscription : Type}.
Context {ProductListResponse TransactionListResponse : Type}.
Context {SubscriptionListResponse CustomerListResponse : Type}.
Context `{!GoValue Product, !GoValue Subscription}.
Context `{!GoValue ProductListResponse, !GoValue TransactionListResponse}.
Context `{!GoValue SubscriptionListResponse, !GoValue CustomerListResponse}.
Variable Do : http.Client -> http.Request -> error + http.Response.

Definition makeRequest {T} `{GoValue T} (c : BagelPayClient)
    (method endpoint : string) (data : option T)
    (params : option (gmap string string)) : error + http.Response :=
  match newRequest c method endpoint data params with
  | inl err => inl err
  | inr req =>
      match Do (httpClient c) req with
      | inl err => inl (PBagelPayError (NewBagelPayError "request failed" (Some err)))
      | inr resp => inr resp
      end
  end.

(** What every operation does with the answer of [makeRequest]: the
    error it returns, or the value [extract] takes from the result
    [handleResponse] has filled. *)
Definition finish {R T} `{GoValue R} (extract : R -> T)
    (answer : error + http.Response) : error + T :=
  match answer with
  | inl err => inl err
  | inr resp =>
      match handleResponse resp (Some (zero : R)) with
      | (_, Some err) => inl err
      | (Some r, None) => inr (extract r)
      | (None, None) => inr (extract zero)
      end
  end.

(** No operation below sends a body: its [data] is a nil interface. *)
Definition no_data : option APIError := None.

Definition GetProduct (c : BagelPayClient) (productID : string) : error + Product :=
  let endpoint := "/api/products/" ++ productID in
  finish Data (makeRequest c "GET" endpoint no_data None).

Definition ArchiveProduct (c : BagelPayClient) (productID : string) : error + Product :=
  let endpoint := "/api/products/" ++ productID ++ "/archive" in
  finish Data (makeRequest c "POST" endpoint no_data None).

Definition UnarchiveProduct (c : BagelPayClient) (productID : string) : error + Product :=
  let endpoint := "/api/products/" ++ productID ++ "/unarchive" in
  finish Data (makeRequest c "POST" endpoint no_data None).

Definition GetSubscription (c : BagelPayClient) (subscriptionID : string)
  : error + Subscription :=
  let endpoint := "/api/subscriptions/" ++ subscriptionID in
  finish Data (makeRequest c "GET" endpoint no_data None).

Definition CancelSubscription (c : BagelPayClient) (subscriptionID : string)
  : error + Subscription :=
  let endpoint := "/api/subscriptions/" ++ subscriptionID ++ "/cancel" in
  finish Data (makeRequest c "POST" endpoint no_data None).

Definition ListProducts (c : BagelPayClient) (pageNum pageSize : Z)
  : error + ProductListResponse :=
  let params := page_params pageNum pageSize in
  finish id (makeRequest c "GET" "/api/products/list" no_data (Some params)).

Definition ListTransactions (c : BagelPayClient) (pageNum pageSize : Z)
  : error + TransactionListResponse :=
  let params := page_params pageNum pageSize in
  finish id (makeRequest c "GET" "/api/transactions/list" no_data (Some params)).

Definition ListSubscriptions (c : BagelPayClient) (pageNum pageSize : Z)
  : error + SubscriptionListResponse :=
  let params := page_params pageNum pageSize in
  finish id (makeRequest c "GET" "/api/subscriptions/list" no_data (Some params)).

Definition ListCustomers (c : BagelPayClient) (pageNum pageSize : Z)
  : error + CustomerListResponse :=
  let params := page_params pageNum pageSize in
  finish id (makeRequest c "GET" "/api/customers/list" no_data (Some params)).
End Operations.

End Client.

(** ** SHA-256 and HMAC, as [crypto/sha256] and [crypto/hmac] compute them *)

Module SHA256.

(** A word of 32 bits is a number below [2^32]; sums wrap around. *)
Definition w32 (x : Z) : Z := x mod 2 ^ 32.

Definition rotr (n x : Z) : Z :=
  Z.lor (Z.shiftr x n) (w32 (Z.shiftl x (32 - n))).

Definition Ch (x y z : Z) : Z :=
  Z.lxor (Z.land x y) (Z.land (Z.lxor x 0xffffffff) z).

Definition Maj (x y z : Z) : Z :=
  Z.lxor (Z.lxor (Z.land x y) (Z.land x z)) (Z.land y z).

Definition Sigma0 (x : Z) : Z := Z.lxor (Z.lxor (rotr 2 x) (rotr 13 x)) (rotr 22 x).
Definition Sigma1 (x : Z) : Z := Z.lxor (Z.lxor (rotr 6 x) (rotr 11 x)) (rotr 25 x).
Definition sigma0 (x : Z) : Z := Z.lxor (Z.lxor (rotr 7 x) (rotr 18 x)) (Z.shiftr x 3).
Definition sigma1 (x : Z) : Z := Z.lxor (Z.lxor (rotr 17 x) (rotr 19 x)) (Z.shiftr x 10).

(** The first 64 primes. *)
Definition primes : list Z :=
  [2; 3; 5; 7; 11; 13; 17; 19; 23; 29; 31; 37; 41; 43; 47; 53; 59; 61; 67; 71;
   73; 79; 83; 89; 97; 101; 103; 107; 109; 113; 127; 131; 137; 139; 149; 151;
   157; 163; 167; 173; 179; 181; 191; 193; 197; 199; 211; 223; 227; 229; 233;
   239; 241; 251; 257; 263; 269; 271; 277; 281; 283; 293; 307; 311].

(** The integer part of the cube root of a number below [2^108], a bit at
    a time from the top. *)
Definition cube_root (n : Z) : Z :=
  foldl (fun r k => let r' := r + 2 ^ k in if r' ^ 3 <=? n then r' else r)
        0 (reverse (seqZ 0 36)).

(** The round constants: the first 32 bits of the fractional part of the
    cube root of each of the 64 primes. *)
Definition K : list Z :=
  Eval vm_compute in (fun p => w32 (cube_root (p * 2 ^ 96))) <$> primes.

(** The initial state: the first 32 bits of the fractional part of the
    square root of each of the first 8 primes. *)
Definition init : list Z :=
  Eval vm_compute in (fun p => w32 (Z.sqrt (p * 2 ^ 64))) <$> take 8 primes.

(** The number a sequence of bytes is, most significant byte first. *)
Definition be (bytes : list Z) : Z := foldl (fun acc b => acc * 256 + b) 0 bytes.

(** The [n] bytes of a number, most significant first. *)
Fixpoint to_be (n : nat) (x : Z) : list Z :=
  match n with
  | O => []
  | S n' => (to_be n' (x / 256) ++ [x mod 256])%list
  end.

(** The message followed by the byte 0x80, zeros, and its length in bits
    on 8 bytes, a multiple of 64 bytes in all. *)
Definition pad (msg : list Z) : list Z :=
  let l := Z.of_nat (length msg) in
  (msg ++ [128] ++ repeat 0 (Z.to_nat ((55 - l) mod 64)) ++ to_be 8 (8 * l))%list.

Fixpoint chunks (size fuel : nat) (l : list Z) : list (list Z) :=
  match fuel, l with
  | S fuel', _ :: _ => take size l :: chunks size fuel' (drop size l)
  | _, _ => []
  end.

(** The message schedule: [n] more words after those of [w]. *)
Fixpoint schedule (n : nat) (w : list Z) : list Z :=
  match n with
  | O => w
  | S n' =>
      let t := length w in
      let at_ (i : nat) := nth (t - i) w 0 in
      schedule n' (w ++ [w32 (sigma1 (at_ 2%nat) + at_ 7%nat
                              + sigma0 (at_ 15%nat) + at_ 16%nat)])%list
  end.

Definition round (st : list Z) (kw : Z * Z) : list Z :=
  match st with
  | [a; b; c; d; e; f; g; h] =>
      let t1 := w32 (h + Sigma1 e + Ch e f g + kw.1 + kw.2) in
      let t2 := w32 (Sigma0 a + Maj a b c) in
      [w32 (t1 + t2); a; b; c; w32 (d + t1); e; f; g]
  | _ => st
  end.

(** One block of 64 bytes into the state. *)
Definition block (st : list Z) (bytes : list Z) : list Z :=
  let w := schedule 48 (be <$> chunks 4 16 bytes) in
  let st' := foldl round st (zip K w) in
  zip_with (fun x y => w32 (x + y)) st st'.

(** [sha256.Sum256], on the values of the bytes. *)
Definition sum (msg : list Z) : list Z :=
  let p := pad msg in
  mbind (M := list) (to_be 4) (foldl block init (chunks 64 (length p) p)).

End SHA256.

Module hmac.
Import Bytes.

Fixpoint values (s : string) : list Z :=
  match s with
  | EmptyString => []
  | String c r => val c :: values r
  end.

Fixpoint of_values (l : list Z) : string :=
  match l with
  | [] => EmptyString
  | b :: r => String (of_val b) (of_values r)
  end.

(** HMAC with SHA-256: a key longer than a block is hashed first, then the
    key is filled with zeros to 64 bytes; the digest is that of the outer
    pad and the digest of the inner pad and the message. *)
Definition sha256_mac (key message : string) : string :=
  let k := values key in
  let k := if (64 <? Z.of_nat (length k)) then SHA256.sum k else k in
  let k := (k ++ repeat 0 (64 - length k)%nat)%list in
  let ipad := Z.lxor 0x36 <$> k in
  let opad := Z.lxor 0x5c <$> k in
  of_values (SHA256.sum (opad ++ SHA256.sum (ipad ++ values message)))%list.

(** The loop of [subtle.ConstantTimeCompare]: the xor of each pair of
    bytes is or-ed into [v]. *)
Fixpoint xor_all (x y : string) (v : Z) : Z :=
  match x, y with
  | String a x', String b y' => xor_all x' y' (Z.lor v (Z.lxor (val a) (val b)))
  | _, _ => v
  end.

Definition ConstantTimeCompare (x y : string) : Z :=
  if negb (Nat.eqb (String.length x) (String.length y)) then 0
  else if xor_all x y 0 =? 0 then 1 else 0.

(** [hmac.Equal]. *)
Definition Equal (mac1 mac2 : string) : bool :=
  ConstantTimeCompare mac1 mac2 =? 1.

End hmac.

(** ** The webhook verifier of the README *)

Module Webhook.
Import Bytes.

(** [hex.EncodeToString]: two lower-case digits for each byte. *)
Fixpoint EncodeToString (s : string) : string :=
  match s with
  | EmptyString => EmptyString
  | String c r =>
      String (hex_digit (val c / 16)) (String (hex_digit (val c mod 16))
                                         (EncodeToString r))
  end.

Definition verifyWebhookSignature (payload timestamp signature secret : string)
  : bool :=
  let signatureData := timestamp ++ "." ++ payload in
  let expectedSignature := EncodeToString (hmac.sha256_mac secret signatureData) in
  hmac.Equal expectedSignature signature.

End Webhook.

(** ** Predicates and sample values of the properties *)

Section Samples.
Import Bytes UTF8 JSON Models Client.

(** The answer with status 401 and a structured body, and the error
    [handleResponse] returns for it. *)
Definition unauthorized : http.Response :=
  {| http.StatusCode := 401;
     http.Body := inr (requote "{'code':401,'message':'invalid api key'}") |}.

Definition unauthorized_error : option Errors.error :=
  (handleResponse unauthorized (Some (zero : Customer))).2.

(** The configuration with a client of the caller's and no timeout
    anywhere. *)
Definition own_client_config : ClientConfig :=
  {| APIKey := "key"; TestMode := true; BaseURL := ""; Timeout := 0;
     HTTPClient := Some {| http.Timeout := 0 |} |}.

(** A text with no control character, percent sign, question mark or
    hash sign. *)
Definition plain (s : string) : bool :=
  URL.all_bytes
    (fun c => negb ((val c <? 32) || (val c =? 127)) && negb (URL.one_of "%?#" c)) s.

(** A client with one of the two base URLs of the package. *)
Definition default_base (c : BagelPayClient) : Prop :=
  baseURL c = "https://test.bagelpay.io" ∨ baseURL c = "https://live.bagelpay.io".

(** The URL of a request of such a client: the scheme and the host of
    the base URL, and the path, the query and the fragment given. *)
Definition default_url (c : BagelPayClient) (path rawQuery fragment : string)
    (u : URL.URL) : Prop :=
  URL.Scheme u = "https" ∧ "https://" ++ URL.Host u = baseURL c
  ∧ URL.Opaque u = "" ∧ URL.User u = None
  ∧ URL.Path u = path ∧ URL.RawQuery u = rawQuery ∧ URL.Fragment u = fragment.

(** What [makeRequest] does once the request is built or refused: it
    returns the error, or hands the request to the transport of the client
    and wraps the error of the transport. *)
Definition send (Do : http.Client -> http.Request -> Errors.error + http.Response)
    (c : BagelPayClient) (built : Errors.error + http.Request)
  : Errors.error + http.Response :=
  match built with
  | inl err => inl err
  | inr req =>
      match Do (httpClient c) req with
      | inl err =>
          inl (Errors.PBagelPayError
                 (Errors.NewBagelPayError "request failed" (Some err)))
      | inr resp => inr resp
      end
  end.

(** A client in test mode, for the examples. *)
Definition test_client : BagelPayClient :=
  NewClient {| APIKey := "bagel_test_key"; TestMode := true; BaseURL := "";
               Timeout := 0; HTTPClient := None |}.

(** What an identifier written as it is between [prefix] and [suffix]
    makes of the request [built] for that endpoint: with no control
    character, percent sign, question mark or hash sign it is part of the
    path, slashes included; its first question mark ends the path and starts
    the query; its first hash sign ends the path or the query and starts the
    fragment; with a control character before any hash sign no request is
    built. *)
Definition interpolated (c : BagelPayClient) (prefix id suffix : string)
    (built : Errors.error + http.Request) : Prop :=
  (plain id = true →
   ∃ req, built = inr req
          ∧ default_url c (prefix ++ id ++ suffix) "" "" (http.Url req))
  ∧ (∀ a b, id = a ++ String "?" b →
       plain a = true → URL.has_ctl b = false → URL.contains "#" b = false →
       ∃ req, built = inr req
              ∧ default_url c (prefix ++ a) (b ++ suffix) "" (http.Url req))
  ∧ (∀ a b, id = a ++ String "#" b →
       plain a = true → URL.contains "%" b = false →
       ∃ req, built = inr req
              ∧ default_url c (prefix ++ a) "" (b ++ suffix) (http.Url req))
  ∧ (∀ a b d, id = a ++ String "?" (b ++ String "#" d) →
       plain a = true → URL.has_ctl b = false → URL.contains "#" b = false →
       URL.contains "%" d = false →
       ∃ req, built = inr req
              ∧ default_url c (prefix ++ a) b (d ++ suffix) (http.Url req))
  ∧ (URL.has_ctl (cut "#" id).1 = true →
     built = inl (Errors.PBagelPayError
                    (Errors.NewBagelPayError "invalid URL"
                       (Some (Errors.Foreign "net/url"))))).

(** The request [ListProducts] builds for page 0 and size 5 with the test
    client. *)
Definition size_only_request : http.Request :=
  {| http.Method := "GET";
     http.Url := {| URL.Scheme := "https"; URL.Opaque := ""; URL.User := None;
                    URL.Host := "test.bagelpay.io";
                    URL.Path := "/api/products/list"; URL.RawPath := "";
                    URL.OmitHost := false; URL.ForceQuery := false;
                    URL.RawQuery := "pageSize=5";
                    URL.Fragment := ""; URL.RawFragment := "" |};
     http.ReqBody := None;
     http.Header := [("Content-Type", "application/json");
                     ("User-Agent", "BagelPay-Go-SDK/1.0.0");
                     ("x-api-key", "bagel_test_key")] |}.

(** Two texts that differ in one byte. *)
Definition one_byte_altered (s s' : string) : Prop :=
  ∃ a c c' b, s = a ++ String c b ∧ s' = a ++ String c' b ∧ c ≠ c'.

(** The secret of the README, a timestamp and a payload. *)
Definition WEBHOOK_SECRET : string := "your_webhook_key".
Definition sample_timestamp : string := "1700000000".
Definition sample_payload : string := requote "{'event_type':'checkout.completed'}".
Definition sample_signature : string :=
  "598620d802715b88a2db01e1ade2828e43977df2133d5393845e2e142f59e610".

(** The elements and the members as [print] writes them. *)
Fixpoint print_elems (l : list json) : string :=
  match l with
  | [] => ""
  | [v] => print v
  | v :: l' => print v ++ "," ++ print_elems l'
  end.

Fixpoint print_members (l : list (string * json)) : string :=
  match l with
  | [] => ""
  | [(k, v)] => quote k ++ ":" ++ print v
  | (k, v) :: l' => quote k ++ ":" ++ print v ++ "," ++ print_members l'
  end.

(** The documents without numbers, with well-formed strings and at most
    [d] containers inside one another. *)
#[local] Unset Elimination Schemes.
Inductive readable : nat → json → Prop :=
| readable_null d : readable d JNull
| readable_bool d b : readable d (JBool b)
| readable_str d s : Valid s = true → readable d (JStr s)
| readable_arr d l : Forall (readable d) l → readable (S d) (JArr l)
| readable_obj d l :
    Forall (fun kv => Valid kv.1 = true ∧ readable d kv.2) l →
    readable (S d) (JObj l).
#[local] Set Elimination Schemes.

(** What such a document starts with is no white space and closes no
    container. *)
Definition opens (c : ascii) : Prop :=
  is_ws c = false ∧ Ascii.eqb c "]" = false ∧ Ascii.eqb c "}" = false.

(** Interface values taken as the documents they are written as. *)
Definition document_values : Dynamic json :=
  {| encode_iface := Some; decode_iface := id |}.



(** A request whose metadata is a map with no entry. *)
Definition empty_metadata_request : CheckoutRequest json :=
  {| ProductID := "prod_1"; Customer_ := None; RequestID := None;
     Units := None; SuccessURL := None; Metadata := Some ∅ |}.

(** The strings of a request are well-formed UTF-8. *)
Definition valid_opt (o : option string) : Prop :=
  match o with
  | Some s => Valid s = true
  | None => True
  end.

Definition well_formed_strings {iface} (r : CheckoutRequest iface) : Prop :=
  Valid (ProductID r) = true
  ∧ valid_opt (Email <$> Customer_ r)
  ∧ valid_opt (RequestID r)
  ∧ valid_opt (Units r)
  ∧ valid_opt (SuccessURL r).

(** A request with every string field present, in ASCII and beyond. *)
Definition sample_request : CheckoutRequest json :=
  {| ProductID := "prod_123456789";
     Customer_ := Some {| Email := "customer@example.com" |};
     RequestID := Some "req_1700000000";
     Units := Some "1";
     SuccessURL := Some "https://yoursite.com/success?a=1&b=<é>";
     Metadata := None |}.

End Samples.

(** ** The methods of the errors ([errors.go]) *)

Module ErrorMethods.
Import Bytes Errors.

(** [BagelPayError.Unwrap]. *)
Definition Unwrap (e : BagelPayError error) : option error := Cause e.

(** The [*BagelPayError] an error of this package is or embeds, whose
    fields and methods it has by promotion. *)
Definition base_of (err : error) : option (BagelPayError error) :=
  match err with
  | PBagelPayError e => Some e
  | PBagelPayAPIError e | PBagelPayAuthenticationError e
  | PBagelPayValidationError e | PBagelPayNotFoundError e
  | PBagelPayRateLimitError e | PBagelPayServerError e => Some (Base e)
  | Foreign _ | PAPIError _ => None
  end.

(** The method [Error] of each type of this package; [None] for an error
    of another package, whose text is not described, and for a
    [BagelPayError] caused by one, whose text holds that text. *)
Fixpoint Error (err : error) : option string :=
  match err with
  | Foreign _ => None
  | PAPIError a => Some (Models.Message a)
  | PBagelPayError {| Message := message; Cause := cause |} =>
      match cause with
      | Some c =>
          t ← Error c;
          Some ("BagelPay error: " ++ message ++ " (caused by: " ++ t ++ ")")
      | None => Some ("BagelPay error: " ++ message)
      end
  | PBagelPayAPIError e =>
      Some ("BagelPay API error (status " ++ Itoa (StatusCode e) ++ "): "
            ++ match APIError e with
               | Some a => Models.Message a
               | None => Message (Base e)
               end)
  | PBagelPayAuthenticationError e =>
      Some ("BagelPay authentication error: " ++ Message (Base e))
  | PBagelPayValidationError e =>
      Some ("BagelPay validation error: " ++ Message (Base e))
  | PBagelPayNotFoundError e =>
      Some ("BagelPay not found error: " ++ Message (Base e))
  | PBagelPayRateLimitError e =>
      Some ("BagelPay rate limit error: " ++ Message (Base e))
  | PBagelPayServerError e =>
      Some ("BagelPay server error: " ++ Message (Base e))
  end.

(** [BagelPayAPIError.String]: the message, the status when it is
    positive and the error code when there is one, with bars between. *)
Definition BagelPayAPIError_String (e : BagelPayAPIError error) : string :=
  let parts := [Message (Base e)] in
  let parts :=
    if 0 <? StatusCode e
    then app parts [("Status: " ++ Itoa (StatusCode e))%string] else parts in
  let parts :=
    if negb (String.eqb (ErrorCode e) "")
    then app parts [("Code: " ++ ErrorCode e)%string] else parts in
  match parts with
  | [] => ""
  | first :: others => foldl (fun result part => result ++ " | " ++ part) first others
  end.

End ErrorMethods.

(** ** The constructors of [bagelpay.go] and the operations that send a body *)

Module Package.
Import Bytes Errors Models Client.

Definition NewDefaultClient (apiKey : string) : BagelPayClient :=
  NewClient {| APIKey := apiKey; TestMode := true; BaseURL := ""; Timeout := 0;
               HTTPClient := None |}.

Definition NewTestClient (apiKey : string) : BagelPayClient :=
  NewClient {| APIKey := apiKey; TestMode := true; BaseURL := ""; Timeout := 0;
               HTTPClient := None |}.

Definition NewLiveClient (apiKey : string) : BagelPayClient :=
  NewClient {| APIKey := apiKey; TestMode := false; BaseURL := ""; Timeout := 0;
               HTTPClient := None |}.

Section Sending.
(** The values of [interface{}], the models with a [float64] or an [int]
    field, and the transport. *)
Context {iface : Type} `{!Dynamic iface}.
Context {CheckoutResponse CreateProductRequest UpdateProductRequest Product : Type}.
Context `{!GoValue CheckoutResponse, !GoValue CreateProductRequest}.
Context `{!GoValue UpdateProductRequest, !GoValue Product}.
Variable Do : http.Client -> http.Request -> error + http.Response.

Definition CreateCheckout (c : BagelPayClient) (request : CheckoutRequest iface)
  : error + CheckoutResponse :=
  finish Data (makeRequest Do c "POST" "/api/payments/checkouts" (Some request) None).

Definition CreateProduct (c : BagelPayClient) (request : CreateProductRequest)
  : error + Product :=
  finish Data (makeRequest Do c "POST" "/api/products/create" (Some request) None).

Definition UpdateProduct (c : BagelPayClient) (request : UpdateProductRequest)
  : error + Product :=
  finish Data (makeRequest Do c "POST" "/api/products/update" (Some request) None).
End Sending.

End Package.

(** ** The webhook handler of the README *)

Module Handler.
Import Bytes JSON.

(** An incoming request: what [io.ReadAll] gives for its body, and the
    values of its headers [timestamp] and [Bagelpay-Signature], empty when
    the header is absent. *)
Record Incoming := {
  body : Errors.error + string;
  timestamp : string;
  signature : string;
}.

Definition newline : string := String (of_val 10) "".

(** [http.Error]: the status and the message on a line. *)
Definition http_Error (message : string) (code : Z) : Z * string :=
  (code, message ++ newline).

(** The number the digits of a text are, after [acc]. *)
Fixpoint digits_value (acc : Z) (s : string) : Z :=
  match s with
  | EmptyString => acc
  | String c r => digits_value (acc * 10 + (val c - 48)) r
  end.

(** A number literal without its sign as [m] and [e]: the number is
    [m * 10^e]. *)
Definition decimal_of (lit : string) : Z * Z :=
  let s :=
    match lit with
    | String c r => if Ascii.eqb c "-" then r else lit
    | EmptyString => lit
    end in
  let '(ipart, s) := span_digits s in
  let '(frac, s) :=
    match s with
    | String c r => if Ascii.eqb c "." then span_digits r else ("", s)
    | EmptyString => ("", s)
    end in
  let exp :=
    match s with
    | String _ (String g r1) =>
        if Ascii.eqb g "-" then - digits_value 0 r1
        else if Ascii.eqb g "+" then digits_value 0 r1
        else digits_value 0 (String g r1)
    | _ => 0
    end in
  (digits_value 0 (ipart ++ frac), exp - Z.of_nat (String.length frac)).

(** [strconv.ParseFloat(lit, 64)] returns an error for a number literal
    when the nearest [float64] is infinite: when the number is, in
    magnitude, at least half a step above the largest [float64]. *)
Definition out_of_range (lit : string) : bool :=
  let '(m, e) := decimal_of lit in
  if 0 <=? e then 2 ^ 1024 - 2 ^ 970 <=? m * 10 ^ e
  else (2 ^ 1024 - 2 ^ 970) * 10 ^ (- e) <=? m.

(** A document [Unmarshal] stores into an [interface{}] without an
    error: a number is stored as a [float64], and every other value
    always is. *)
Fixpoint storable (j : json) : bool :=
  match j with
  | JNum lit => negb (out_of_range lit)
  | JArr l => forallb storable l
  | JObj ms => forallb (fun '(_, v) => storable v) ms
  | JNull | JBool _ | JStr _ => true
  end.

(** The entry of a key in the map an object is stored into: the last
    member with that very key. *)
Definition entry (key : string) (ms : list (string * json)) : option json :=
  foldl (fun acc '(k, v) => if String.eqb k key then Some v else acc) None ms.

(** [event["event_type"].(string)] after [json.Unmarshal] of the payload
    into a nil [map[string]interface{}]: [None] for the error of
    [Unmarshal], else the string, or [None] when the assertion fails.  Only
    an object or [null] is stored into a map, and [null] leaves it nil. *)
Definition event_type (payload : string) : option (option string) :=
  match parse payload with
  | Some (JObj ms) =>
      if storable (JObj ms) then
        Some (match entry "event_type" ms with
              | Some (JStr s) => Some s
              | _ => None
              end)
      else None
  | Some JNull => Some None
  | _ => None
  end.

(** [webhookHandler]: the status and the body of the answer.  What it
    prints is not described. *)
Definition webhookHandler (r : Incoming) : Z * string :=
  match body r with
  | inl _ => http_Error "Failed to read request body" 400
  | inr payload =>
      if negb (Webhook.verifyWebhookSignature payload (timestamp r) (signature r)
                 WEBHOOK_SECRET)
      then http_Error "Invalid signature" 401
      else
        match event_type payload with
        | None => http_Error "Invalid JSON" 400
        | Some None => http_Error "Missing event_type" 400
        | Some (Some eventType) => (200, requote "{'message': 'Success'}")
        end
  end.

End Handler.

(** ** More sample values of the properties *)

Section Occasions.
Import Bytes JSON Models Client Handler.

(** Interface values taken as the documents they are written as, with
    [None] for a value [Marshal] refuses, a channel for instance. *)
Definition refused_values : Dynamic (option json) :=
  {| encode_iface := id; decode_iface := Some |}.

(** A request with such a value in its metadata. *)
Definition unmarshalable_request : CheckoutRequest (option json) :=
  {| ProductID := "prod_1"; Customer_ := None; RequestID := None;
     Units := None; SuccessURL := None;
     Metadata := Some {[ "callback" := None ]} |}.

(** A transport that reaches no server, and one that always gets the
    same answer. *)
Definition unreachable (cl : http.Client) (req : http.Request)
  : Errors.error + http.Response :=
  inl (Errors.Foreign "net/http").

Definition answering (resp : http.Response) (cl : http.Client) (req : http.Request)
  : Errors.error + http.Response :=
  inr resp.

(** The request [GetProduct] builds for [prod_1] with the test client. *)
Definition product_request : http.Request :=
  {| http.Method := "GET";
     http.Url := {| URL.Scheme := "https"; URL.Opaque := ""; URL.User := None;
                    URL.Host := "test.bagelpay.io";
                    URL.Path := "/api/products/prod_1"; URL.RawPath := "";
                    URL.OmitHost := false; URL.ForceQuery := false;
                    URL.RawQuery := "";
                    URL.Fragment := ""; URL.RawFragment := "" |};
     http.ReqBody := None;
     http.Header := [("Content-Type", "application/json");
                     ("User-Agent", "BagelPay-Go-SDK/1.0.0");
                     ("x-api-key", "bagel_test_key")] |}.

(** A request with the product identifier alone. *)
Definition bare_request : CheckoutRequest json :=
  {| ProductID := "prod_2"; Customer_ := None; RequestID := None;
     Units := None; SuccessURL := None; Metadata := None |}.

(** A delivery with no signature and a body that is no document. *)
Definition unsigned_delivery : Incoming :=
  {| body := inr "not a document"; timestamp := "1700000000"; signature := "" |}.

End Occasions.

(* ===================================================================== *)
(** * Part II: properties                                                 *)
(* ===================================================================== *)

(** ** Classification of a response by its status code *)

Section Classification.
Import Bytes Errors Models Client.

Lemma classify_kind (status : Z) (apiError : APIError) :
  kind_of (classify status apiError) =
    if status =? 401 then Authentication
    else if status =? 400 then Validation
    else if status =? 404 then NotFound
    else if status =? 429 then RateLimit
    else if 500 <=? status then Server
    else GenericAPI.
Proof.
  unfold classify, StatusUnauthorized, StatusBadRequest, StatusNotFound,
    StatusTooManyRequests.
  repeat case_match; reflexivity.
Qed.

(** An answer with an error status leaves the result alone and returns
    the classified error. *)
Lemma handleResponse_error_status {T} `{GoValue T}
    (status : Z) (body : string) (result : option T) :
  400 ≤ status →
  handleResponse {| http.StatusCode := status; http.Body := inr body |} result
  = (result, Some (classify status (error_payload status body))).
Proof.
  intros Hs. unfold handleResponse. simpl.
  destruct (400 <=? status) eqn:E; [reflexivity | lia].
Qed.

(** C1.  For a response with status code 400 or more whose body has been
    read, [handleResponse] returns an error whose kind the status code
    alone determines: 401 Authentication, 400 Validation, 404 NotFound, 429
    RateLimit, 500 and above Server, anything else the generic API error;
    in particular 404 is never the generic kind. *)
Theorem handleResponse_kind_by_status {T} `{GoValue T}
    (status : Z) (body : string) (result : option T) :
  400 ≤ status →
  ∃ err : error,
    (handleResponse {| http.StatusCode := status; http.Body := inr body |} result).2
    = Some err
    ∧ (status = 401 → kind_of err = Authentication)
    ∧ (status = 400 → kind_of err = Validation)
    ∧ (status = 404 → kind_of err = NotFound ∧ kind_of err ≠ GenericAPI)
    ∧ (status = 429 → kind_of err = RateLimit)
    ∧ (500 ≤ status → kind_of err = Server)
    ∧ (status ≠ 401 → status ≠ 400 → status ≠ 404 → status ≠ 429 →
       status < 500 → kind_of err = GenericAPI).
Proof.
  intros Hs. rewrite handleResponse_error_status by assumption.
  eexists; split; [reflexivity |].
  rewrite classify_kind.
  repeat split; intros; subst; try reflexivity; try discriminate;
    repeat (case_match; try lia; try reflexivity).
Qed.

Lemma handleResponse_kind_by_status_witness :
  400 ≤ 404 ∧
  ∃ err : error,
    (handleResponse {| http.StatusCode := 404; http.Body := inr "gone" |}
       (Some (zero : Customer))).2 = Some err
    ∧ (404 = 401 → kind_of err = Authentication)
    ∧ (404 = 400 → kind_of err = Validation)
    ∧ (404 = 404 → kind_of err = NotFound ∧ kind_of err ≠ GenericAPI)
    ∧ (404 = 429 → kind_of err = RateLimit)
    ∧ (500 ≤ 404 → kind_of err = Server)
    ∧ (404 ≠ 401 → 404 ≠ 400 → 404 ≠ 404 → 404 ≠ 429 →
       404 < 500 → kind_of err = GenericAPI).
Proof.
  split; [lia |].
  apply (handleResponse_kind_by_status 404 "gone" (Some (zero : Customer))). lia.
Defined.

Lemma not_json_not_stored {T} `{GoValue T} (body : string) (v : T) :
  JSON.parse body = None → Unmarshal body v = None.
Proof. intros Hp. unfold Unmarshal. rewrite Hp. reflexivity. Qed.

(** C3.  When [Unmarshal] returns an error for the body of a response with
    status 400 or more, the payload classified is the fallback: its code is
    the status and its message is "HTTP ", the status in decimal, ": " and
    the body as it is; the error returned is the classification of that
    payload.  For a status of 500 or more it is a Server error with that
    message, and for the status 500 the message is "HTTP 500: " and the
    body. *)
Theorem unparsable_body_fallback {T} `{GoValue T}
    (status : Z) (body : string) (result : option T) :
  400 ≤ status →
  Unmarshal body (zero : APIError) = None →
  let fallback :=
    {| Code := status;
       Message := "HTTP " ++ Itoa status ++ ": " ++ body;
       Details := "" |} in
  error_payload status body = fallback
  ∧ (handleResponse {| http.StatusCode := status; http.Body := inr body |} result).2
    = Some (classify status fallback)
  ∧ (500 ≤ status →
     classify status fallback
     = PBagelPayServerError
         {| Base := {| Errors.Message := "HTTP " ++ Itoa status ++ ": " ++ body;
                       Cause := None |};
            StatusCode := status; ErrorCode := ""; Errors.APIError := None |})
  ∧ (status = 500 →
     ∃ e, classify status fallback = PBagelPayServerError e
          ∧ Errors.Message (Base e) = "HTTP 500: " ++ body).
Proof.
  intros Hs Hu fallback.
  assert (Hp : error_payload status body = fallback).
  { unfold error_payload. rewrite Hu. reflexivity. }
  assert (Hsrv : 500 ≤ status →
     classify status fallback
     = PBagelPayServerError
         {| Base := {| Errors.Message := "HTTP " ++ Itoa status ++ ": " ++ body;
                       Cause := None |};
            StatusCode := status; ErrorCode := ""; Errors.APIError := None |}).
  { intros H5. unfold classify, StatusUnauthorized, StatusBadRequest,
      StatusNotFound, StatusTooManyRequests.
    repeat (case_match; try lia).
    unfold NewBagelPayServerErrorSimple, NewBagelPayServerError, new_with_default.
    case_match; [lia | reflexivity]. }
  split; [exact Hp |]. split.
  - rewrite handleResponse_error_status by assumption. rewrite Hp. reflexivity.
  - split; [exact Hsrv |].
    intros ->. eexists. split; [apply Hsrv; lia | reflexivity].
Qed.

Lemma unparsable_body_fallback_witness :
  400 ≤ 500 ∧
  Unmarshal "<html>Bad Gateway</html>" (zero : APIError) = None ∧
  let fallback :=
    {| Code := 500;
       Message := "HTTP " ++ Itoa 500 ++ ": " ++ "<html>Bad Gateway</html>";
       Details := "" |} in
  error_payload 500 "<html>Bad Gateway</html>" = fallback
  ∧ (handleResponse {| http.StatusCode := 500;
                       http.Body := inr "<html>Bad Gateway</html>" |}
       (Some (zero : Customer))).2
    = Some (classify 500 fallback)
  ∧ (500 ≤ 500 →
     classify 500 fallback
     = PBagelPayServerError
         {| Base := {| Errors.Message :=
                         "HTTP " ++ Itoa 500 ++ ": " ++ "<html>Bad Gateway</html>";
                       Cause := None |};
            StatusCode := 500; ErrorCode := ""; Errors.APIError := None |})
  ∧ (500 = 500 →
     ∃ e, classify 500 fallback = PBagelPayServerError e
          ∧ Errors.Message (Base e) = "HTTP 500: " ++ "<html>Bad Gateway</html>").
Proof.
  split; [lia |]. split; [vm_compute; reflexivity |].
  apply (unparsable_body_fallback 500 "<html>Bad Gateway</html>"
           (Some (zero : Customer))); [lia | vm_compute; reflexivity].
Defined.

(** ** The type tests *)

(** Each of the five tests of a kind holds of the errors of that kind and
    of no other error. *)
Lemma kind_tests_exact (err : error) :
  (IsAuthenticationError (Some err) = true ↔ kind_of err = Authentication)
  ∧ (IsValidationError (Some err) = true ↔ kind_of err = Validation)
  ∧ (IsNotFoundError (Some err) = true ↔ kind_of err = NotFound)
  ∧ (IsRateLimitError (Some err) = true ↔ kind_of err = RateLimit)
  ∧ (IsServerError (Some err) = true ↔ kind_of err = Server).
Proof. destruct err; simpl; repeat split; intros; congruence. Qed.

(** C5.  Each of the five tests of a kind holds exactly of the errors of
    its own kind; [IsAPIError] holds exactly of the errors whose dynamic
    type is [*BagelPayAPIError], the generic kind, and so of none of the
    five specialisations: for the answer 401 above, [IsAuthenticationError]
    is true and [IsAPIError] is false. *)
Theorem IsAPIError_only_generic (err : error) :
  (IsAuthenticationError (Some err) = true ↔ kind_of err = Authentication)
  ∧ (IsValidationError (Some err) = true ↔ kind_of err = Validation)
  ∧ (IsNotFoundError (Some err) = true ↔ kind_of err = NotFound)
  ∧ (IsRateLimitError (Some err) = true ↔ kind_of err = RateLimit)
  ∧ (IsServerError (Some err) = true ↔ kind_of err = Server)
  ∧ (IsAPIError (Some err) = true ↔ kind_of err = GenericAPI)
  ∧ IsAuthenticationError unauthorized_error = true
  ∧ IsAPIError unauthorized_error = false.
Proof.
  repeat split; try (destruct err; simpl; intros; congruence);
    vm_compute; reflexivity.
Qed.

(** ** What a classified error carries *)

(** The generic kind keeps the payload and derives the error code from
    it. *)
Lemma generic_error_carries_payload (status : Z) (body : string) :
  status ≠ 401 → status ≠ 400 → status ≠ 404 → status ≠ 429 → status < 500 →
  let payload := error_payload status body in
  classify status payload
  = PBagelPayAPIError
      {| Base := {| Errors.Message := Message payload; Cause := None |};
         StatusCode := status;
         ErrorCode := if Code payload =? 0 then "" else Itoa (Code payload);
         Errors.APIError := Some payload |}.
Proof.
  intros. unfold classify, StatusUnauthorized, StatusBadRequest,
    StatusNotFound, StatusTooManyRequests.
  rewrite !(proj2 (Z.eqb_neq _ _)) by assumption.
  rewrite (proj2 (Z.leb_gt _ _)) by lia.
  reflexivity.
Qed.

(** C6.  An error of one of the five specialised kinds carries the status
    code, but neither the payload nor an error code: [handleResponse] builds
    it with the constructor that takes the message alone, whatever the body
    held. *)
Theorem specialised_error_drops_payload (status : Z) (body : string) :
  400 ≤ status →
  status = 401 ∨ status = 400 ∨ status = 404 ∨ status = 429 ∨ 500 ≤ status →
  ∃ e, api_part (classify status (error_payload status body)) = Some e
       ∧ kind_of (classify status (error_payload status body)) ≠ GenericAPI
       ∧ StatusCode e = status
       ∧ Errors.Message (Base e) = Message (error_payload status body)
       ∧ ErrorCode e = ""
       ∧ Errors.APIError e = None.
Proof.
  intros Hs Hk. rewrite classify_kind.
  unfold classify, StatusUnauthorized, StatusBadRequest, StatusNotFound,
    StatusTooManyRequests.
  repeat (case_match; try lia);
    (eexists; split; [reflexivity |]); simpl;
    unfold StatusUnauthorized, StatusBadRequest, StatusNotFound,
      StatusTooManyRequests;
    repeat split; try discriminate; try lia.
  destruct (status =? 0) eqn:E; lia.
Qed.

Lemma specialised_error_drops_payload_witness :
  let body := requote "{'code':401,'message':'invalid api key'}" in
  400 ≤ 401 ∧
  (401 = 401 ∨ 401 = 400 ∨ 401 = 404 ∨ 401 = 429 ∨ 500 ≤ 401) ∧
  error_payload 401 body
  = {| Code := 401; Message := "invalid api key"; Details := "" |} ∧
  ∃ e, api_part (classify 401 (error_payload 401 body)) = Some e
       ∧ kind_of (classify 401 (error_payload 401 body)) ≠ GenericAPI
       ∧ StatusCode e = 401
       ∧ Errors.Message (Base e) = Message (error_payload 401 body)
       ∧ ErrorCode e = ""
       ∧ Errors.APIError e = None.
Proof.
  intros body. split; [lia |]. split; [left; reflexivity |].
  split; [vm_compute; reflexivity |].
  apply (specialised_error_drops_payload 401 body); [lia | left; reflexivity].
Defined.

End Classification.

(** ** Construction of the client *)

Section Construction.
Import Bytes Client.

Lemma TrimSuffix_slash_app (s : string) : TrimSuffix_slash (s ++ "/") = s.
Proof.
  induction s as [| c s IH]; [reflexivity |].
  simpl. destruct (s ++ "/") eqn:E.
  - destruct s; discriminate.
  - f_equal. exact IH.
Qed.

Lemma TrimSuffix_slash_other (s : string) :
  (∀ t, s ≠ t ++ "/") → TrimSuffix_slash s = s.
Proof.
  induction s as [| c s IH]; [reflexivity |].
  intros Hn. simpl. destruct s as [| c' s'].
  - destruct (Ascii.eqb_spec c "/") as [-> | _]; [| reflexivity].
    exfalso. apply (Hn ""). reflexivity.
  - f_equal. apply IH. intros t Ht. apply (Hn (String c t)).
    rewrite Ht. reflexivity.
Qed.

(** C8, as stated, fails: with a client of the caller's, no timeout is
    supplied and the client stored has no timeout of 30 seconds. *)
Lemma NewClient_timeout_not_defaulted :
  Timeout own_client_config = 0
  ∧ http.Timeout (httpClient (NewClient own_client_config)) ≠ 30 * http.Second.
Proof. split; [reflexivity | vm_compute; discriminate]. Qed.

(** C8, amended.  An explicit base URL that is not empty is the one chosen,
    whatever the mode; otherwise test mode chooses https://test.bagelpay.io
    and live mode https://live.bagelpay.io; one trailing slash of the URL
    chosen is removed before it is stored.  When the configuration has no
    HTTP client of its own, the client made has the timeout configured, and
    30 seconds when that is zero; a client of the caller's is stored as it
    is, and the configured timeout is not used. *)
Theorem NewClient_resolution (config : ClientConfig) :
  (BaseURL config ≠ "" →
   baseURL (NewClient config) = TrimSuffix_slash (BaseURL config))
  ∧ (BaseURL config = "" → TestMode config = true →
     baseURL (NewClient config) = "https://test.bagelpay.io")
  ∧ (BaseURL config = "" → TestMode config = false →
     baseURL (NewClient config) = "https://live.bagelpay.io")
  ∧ (∀ s, BaseURL config = s ++ "/" → baseURL (NewClient config) = s)
  ∧ (BaseURL config ≠ "" → (∀ t, BaseURL config ≠ t ++ "/") →
     baseURL (NewClient config) = BaseURL config)
  ∧ (HTTPClient config = None → Timeout config = 0 →
     http.Timeout (httpClient (NewClient config)) = 30 * http.Second)
  ∧ (HTTPClient config = None → Timeout config ≠ 0 →
     http.Timeout (httpClient (NewClient config)) = Timeout config)
  ∧ (∀ cl, HTTPClient config = Some cl → httpClient (NewClient config) = cl)
  ∧ apiKey (NewClient config) = APIKey config.
Proof.
  unfold NewClient. simpl.
  assert (Hne : BaseURL config ≠ "" → String.eqb (BaseURL config) "" = false).
  { intros Hn. destruct (String.eqb_spec (BaseURL config) ""); congruence. }
  repeat split.
  - intros Hn. rewrite (Hne Hn). reflexivity.
  - intros -> ->. reflexivity.
  - intros -> ->. reflexivity.
  - intros s Hs. rewrite Hne.
    + rewrite Hs. apply TrimSuffix_slash_app.
    + rewrite Hs. destruct s; discriminate.
  - intros Hn Ht. rewrite (Hne Hn). apply TrimSuffix_slash_other. exact Ht.
  - intros -> ->. reflexivity.
  - intros -> Hn. simpl. destruct (Timeout config =? 0) eqn:E; [lia | reflexivity].
  - intros cl ->. reflexivity.
Qed.

End Construction.

(** ** The URL of a request *)

Section Requests.
Import Bytes Errors Models Client.

(** The cases of a byte. *)
Ltac each_byte a :=
  destruct a as [[] [] [] [] [] [] [] []].

Lemma contains_app (c : ascii) (a b : string) :
  URL.contains c (a ++ b) = URL.contains c a || URL.contains c b.
Proof.
  induction a as [| x a IH]; [reflexivity |].
  simpl. rewrite IH. apply orb_assoc.
Qed.

Lemma has_ctl_app (a b : string) :
  URL.has_ctl (a ++ b) = URL.has_ctl a || URL.has_ctl b.
Proof.
  induction a as [| x a IH]; [reflexivity |].
  simpl. rewrite IH. rewrite !orb_assoc. reflexivity.
Qed.

Lemma cut_absent (c : ascii) (s : string) :
  URL.contains c s = false → cut c s = (s, None).
Proof.
  induction s as [| x s IH]; [reflexivity |].
  simpl. intros H. apply orb_false_iff in H as [Hx Hs].
  rewrite Ascii.eqb_sym in Hx. rewrite Ascii.eqb_sym, Hx, (IH Hs). reflexivity.
Qed.

Lemma cut_first (c : ascii) (a b : string) :
  URL.contains c a = false → cut c (a ++ String c b) = (a, Some b).
Proof.
  induction a as [| x a IH]; simpl.
  - intros _. rewrite Ascii.eqb_refl. reflexivity.
  - intros H. apply orb_false_iff in H as [Hx Hs].
    rewrite Ascii.eqb_sym in Hx. rewrite Ascii.eqb_sym, Hx, (IH Hs). reflexivity.
Qed.

Lemma app_assoc_s (a b c : string) : (a ++ b) ++ c = a ++ (b ++ c).
Proof.
  induction a as [| x a IH]; [reflexivity |].
  change (String x ((a ++ b) ++ c) = String x (a ++ (b ++ c))).
  f_equal. exact IH.
Qed.

Lemma append_nil_r (s : string) : s ++ "" = s.
Proof.
  induction s as [| x s IH]; [reflexivity |].
  change (String x (s ++ "") = String x s). f_equal. exact IH.
Qed.

(** *** Texts and their bytes *)

Lemma cut_app (c : ascii) (a b : string) :
  URL.contains c a = false → cut c (a ++ b) = (a ++ (cut c b).1, (cut c b).2).
Proof.
  induction a as [| x a IH]; cbn [URL.contains].
  - intros _. change (cut c b = ("" ++ (cut c b).1, (cut c b).2)).
    destruct (cut c b). reflexivity.
  - intros H. apply orb_false_iff in H as [Hx Ha].
    change (String x a ++ b) with (String x (a ++ b)). cbn [cut].
    rewrite Hx, (IH Ha). reflexivity.
Qed.

Lemma cut_fst_clean (c : ascii) (s : string) : URL.contains c (cut c s).1 = false.
Proof.
  induction s as [| x s IH]; [reflexivity |].
  cbn [cut]. destruct (Ascii.eqb x c) eqn:E; [reflexivity |].
  destruct (cut c s) as [a b]. cbn [fst URL.contains] in *. rewrite E, IH. reflexivity.
Qed.

Lemma cut_fst_keeps (c d : ascii) (s : string) :
  URL.contains d s = false → URL.contains d (cut c s).1 = false.
Proof.
  induction s as [| x s IH]; [reflexivity |].
  cbn [cut URL.contains]. intros H. apply orb_false_iff in H as [Hx Hs].
  destruct (Ascii.eqb x c); [reflexivity |].
  destruct (cut c s) as [a b]. cbn [fst URL.contains] in *.
  rewrite Hx, (IH Hs). reflexivity.
Qed.

Lemma cut_snd_keeps (c d : ascii) (s t : string) :
  URL.contains d s = false → (cut c s).2 = Some t → URL.contains d t = false.
Proof.
  revert t. induction s as [| x s IH]; intros t; [discriminate |].
  cbn [cut URL.contains]. intros H. apply orb_false_iff in H as [Hx Hs].
  destruct (Ascii.eqb x c); [intros [= <-]; exact Hs |].
  destruct (cut c s) as [a b]. cbn [snd] in *. apply IH, Hs.
Qed.

Lemma has_ctl_cut_fst (c : ascii) (s : string) :
  URL.has_ctl s = false → URL.has_ctl (cut c s).1 = false.
Proof.
  induction s as [| a r IH]; [reflexivity |].
  cbn [URL.has_ctl cut]. intros Hs.
  apply orb_false_iff in Hs as [Ha Hr].
  destruct (Ascii.eqb a c); [reflexivity |].
  destruct (cut c r) as [x y]. cbn [fst] in *. cbn [URL.has_ctl].
  rewrite Ha, (IH Hr). reflexivity.
Qed.

Lemma ends_with_count (c : ascii) (s : string) :
  URL.ends_with c s = true → URL.Count c s ≠ O.
Proof.
  induction s as [| x s IH]; [discriminate |].
  destruct s as [| y s'].
  - cbn. intros ->. discriminate.
  - change (URL.ends_with c (String x (String y s')))
      with (URL.ends_with c (String y s')).
    intros He. specialize (IH He). cbn [URL.Count] in *.
    destruct (Ascii.eqb x c); [discriminate | exact IH].
Qed.

(** A text that ends with its only occurrence of a byte. *)
Lemma ends_with_once (c : ascii) (s : string) :
  URL.ends_with c s = true → URL.Count c s = 1%nat →
  cut c s = (URL.drop_last s, Some "").
Proof.
  induction s as [| x s IH]; [discriminate |].
  destruct s as [| y s'].
  - cbn. intros ->. reflexivity.
  - change (URL.ends_with c (String x (String y s')))
      with (URL.ends_with c (String y s')).
    change (URL.drop_last (String x (String y s')))
      with (String x (URL.drop_last (String y s'))).
    intros He Hc. pose proof (ends_with_count _ _ He) as Hn.
    change (URL.Count c (String x (String y s')))
      with (if Ascii.eqb x c then S (URL.Count c (String y s'))
            else URL.Count c (String y s')) in Hc.
    change (cut c (String x (String y s')))
      with (if Ascii.eqb x c then (EmptyString, Some (String y s'))
            else let '(a, b) := cut c (String y s') in (String x a, b)).
    destruct (Ascii.eqb x c).
    + exfalso. injection Hc as Hc. exact (Hn Hc).
    + rewrite (IH He Hc). reflexivity.
Qed.

(** The query [split_query] gives is what follows the first question
    mark, and the text it gives is free of question marks. *)
Lemma split_query_spec (rest : string) :
  (URL.split_query rest).1.2 = default "" (cut "?" rest).2
  ∧ (URL.split_query rest).1.1 = (cut "?" rest).1.
Proof.
  unfold URL.split_query.
  destruct (URL.ends_with "?" rest && Nat.eqb (URL.Count "?" rest) 1) eqn:E.
  - apply andb_true_iff in E as [He Hc]. apply Nat.eqb_eq in Hc.
    rewrite (ends_with_once _ _ He Hc). split; reflexivity.
  - destruct (cut "?" rest) as [a b]. split; reflexivity.
Qed.

(** *** Schemes *)

Lemma scheme_byte_clean (c : ascii) :
  URL.is_letter c || in_range 48 57 c || URL.one_of "+-." c = true →
  Ascii.eqb c "?" = false ∧ Ascii.eqb c "#" = false.
Proof.
  each_byte c; vm_compute; intros H; first [discriminate H | split; reflexivity].
Qed.

Lemma scan_scheme_spec (first : bool) (s scheme rest : string) :
  URL.scan_scheme first s = URL.scheme_found scheme rest →
  s = scheme ++ String ":" rest
  ∧ URL.contains "?" scheme = false ∧ URL.contains "#" scheme = false.
Proof.
  revert first scheme. induction s as [| c s IH]; intros first scheme; [discriminate |].
  cbn [URL.scan_scheme].
  assert (Hmore :
    Ascii.eqb c "?" = false ∧ Ascii.eqb c "#" = false →
    match URL.scan_scheme false s with
    | URL.scheme_found scheme rest => URL.scheme_found (String c scheme) rest
    | other => other
    end = URL.scheme_found scheme rest →
    String c s = scheme ++ String ":" rest
    ∧ URL.contains "?" scheme = false ∧ URL.contains "#" scheme = false).
  { intros [Hq Hh] Hs.
    destruct (URL.scan_scheme false s) as [sch r | |] eqn:E; try discriminate.
    injection Hs as <- <-. destruct (IH false sch E) as (-> & H1 & H2).
    split; [reflexivity |]. cbn [URL.contains]. rewrite Hq, Hh, H1, H2.
    split; reflexivity. }
  destruct (URL.is_letter c) eqn:El.
  { apply Hmore, scheme_byte_clean. rewrite El. reflexivity. }
  destruct (in_range 48 57 c || URL.one_of "+-." c) eqn:Ed.
  { destruct first; [discriminate |]. apply Hmore, scheme_byte_clean.
    rewrite El. exact Ed. }
  destruct (Ascii.eqb c ":") eqn:Ec; [| discriminate].
  destruct first; [discriminate |]. intros [= <- <-].
  apply Ascii.eqb_eq in Ec. subst c. repeat split.
Qed.

(** What [getScheme] leaves is the text after a prefix free of question
    marks and hash signs. *)
Lemma getScheme_spec (s scheme rest : string) :
  URL.getScheme s = Some (scheme, rest) →
  ∃ pre, s = pre ++ rest
         ∧ URL.contains "?" pre = false ∧ URL.contains "#" pre = false
         ∧ URL.contains "?" scheme = false ∧ URL.contains "#" scheme = false.
Proof.
  unfold URL.getScheme.
  destruct (URL.scan_scheme true s) as [sch r | |] eqn:E; [| | discriminate].
  - intros [= <- <-]. destruct (scan_scheme_spec _ _ _ _ E) as (-> & H1 & H2).
    exists (sch ++ ":"). rewrite app_assoc_s. split; [reflexivity |].
    rewrite !contains_app, H1, H2. repeat split.
  - intros [= <- <-]. exists "". repeat split.
Qed.

Lemma ToLower_clean (c : ascii) (s : string) :
  (c = "?" ∨ c = "#")%char →
  URL.contains c (URL.ToLower s) = URL.contains c s.
Proof.
  intros Hc. induction s as [| a s IH]; [reflexivity |].
  cbn [URL.ToLower URL.contains]. rewrite IH. f_equal.
  destruct Hc as [-> | ->]; each_byte a; vm_compute; reflexivity.
Qed.

(** *** Escaping *)

Lemma escape_cons (mode : URL.encoding) (a : ascii) (r : string) :
  URL.escape mode (String a r) = URL.escape mode (String a "") ++ URL.escape mode r.
Proof.
  cbn [URL.escape]. destruct (URL.shouldEscape a mode); [| reflexivity].
  destruct mode; try reflexivity. destruct (Ascii.eqb a " "); reflexivity.
Qed.

(** What is written for one byte holds no control character, and no
    question mark or hash sign outside a fragment. *)
Lemma escape_byte_clean (mode : URL.encoding) (a : ascii) :
  URL.has_ctl (URL.escape mode (String a "")) = false
  ∧ URL.contains "#" (URL.escape mode (String a "")) = false
  ∧ (mode ≠ URL.encodeFragment →
     URL.contains "?" (URL.escape mode (String a "")) = false).
Proof.
  destruct mode; each_byte a; vm_compute;
    (split; [reflexivity | split; [reflexivity |]]);
    first [intros _; reflexivity | intros H; exfalso; apply H; reflexivity].
Qed.

Lemma escape_clean (mode : URL.encoding) (s : string) :
  URL.has_ctl (URL.escape mode s) = false
  ∧ URL.contains "#" (URL.escape mode s) = false
  ∧ (mode ≠ URL.encodeFragment → URL.contains "?" (URL.escape mode s) = false).
Proof.
  induction s as [| a s (IH1 & IH2 & IH3)]; [repeat split |].
  rewrite escape_cons, has_ctl_app, !contains_app.
  destruct (escape_byte_clean mode a) as (H1 & H2 & H3).
  rewrite H1, H2, IH1, IH2. split; [reflexivity |]. split; [reflexivity |].
  intros Hm. rewrite (H3 Hm), (IH3 Hm). reflexivity.
Qed.

(** How one byte is written in a path or a fragment: as it is, when it
    is no percent sign, or as a percent sign and the two digits of its
    value. *)
Lemma escape_byte_shape (mode : URL.encoding) (a : ascii) :
  mode = URL.encodePath ∨ mode = URL.encodeFragment →
  if URL.shouldEscape a mode
  then hex_val (URL.upper_hex (val a / 16)) = Some (val a / 16)
       ∧ hex_val (URL.upper_hex (val a mod 16)) = Some (val a mod 16)
       ∧ of_val (val a / 16 * 16 + val a mod 16) = a
  else Ascii.eqb a "%" = false.
Proof.
  intros [-> | ->]; each_byte a; vm_compute; repeat split.
Qed.

Lemma unescape_escape (mode : URL.encoding) (s : string) :
  mode = URL.encodePath ∨ mode = URL.encodeFragment →
  URL.unescape mode (URL.escape mode s) = Some s.
Proof.
  intros Hm. induction s as [| a s IH]; [reflexivity |].
  pose proof (escape_byte_shape mode a Hm) as Ha.
  cbn [URL.escape]. destruct (URL.shouldEscape a mode).
  - destruct Ha as (H1 & H2 & H3).
    destruct Hm as [-> | ->]; cbn [URL.unescape];
      change (Ascii.eqb "%" "%") with true; cbn iota;
      rewrite H1, H2; cbn [mbind option_bind]; rewrite IH;
      cbn [mbind option_bind]; rewrite H3; reflexivity.
  - destruct Hm as [-> | ->]; cbn [URL.unescape]; rewrite Ha, IH; reflexivity.
Qed.

(** A text with no percent sign is its own unescaping. *)
Lemma unescape_plain (mode : URL.encoding) (s : string) :
  mode = URL.encodePath ∨ mode = URL.encodeFragment →
  URL.contains "%" s = false → URL.unescape mode s = Some s.
Proof.
  intros Hm. induction s as [| a s IH]; [reflexivity |].
  cbn [URL.contains]. intros H. apply orb_false_iff in H as [Ha Hs].
  destruct Hm as [-> | ->]; cbn [URL.unescape]; rewrite Ha, (IH Hs); reflexivity.
Qed.

Lemma validEncoded_byte (mode : URL.encoding) (a : ascii) :
  mode = URL.encodePath ∨ mode = URL.encodeFragment →
  URL.one_of "!$&'()*+,;=:@[]%" a || negb (URL.shouldEscape a mode) = true →
  (val a <? 32) || (val a =? 127) = false
  ∧ Ascii.eqb a "#" = false
  ∧ (mode = URL.encodePath → Ascii.eqb a "?" = false).
Proof.
  intros [-> | ->]; each_byte a; vm_compute; intros H;
    first [discriminate H
          | split; [reflexivity | split; [reflexivity |]];
            first [intros _; reflexivity | intros H'; discriminate H']].
Qed.

Lemma validEncoded_clean (mode : URL.encoding) (s : string) :
  mode = URL.encodePath ∨ mode = URL.encodeFragment →
  URL.validEncoded mode s = true →
  URL.has_ctl s = false ∧ URL.contains "#" s = false
  ∧ (mode = URL.encodePath → URL.contains "?" s = false).
Proof.
  intros Hm. unfold URL.validEncoded.
  induction s as [| a s IH]; [repeat split |].
  cbn [URL.all_bytes]. intros H. apply andb_true_iff in H as [Ha Hs].
  destruct (validEncoded_byte mode a Hm Ha) as (H1 & H2 & H3).
  destruct (IH Hs) as (I1 & I2 & I3).
  cbn [URL.has_ctl URL.contains]. rewrite H1, H2, I1, I2.
  split; [reflexivity |]. split; [reflexivity |].
  intros Hp. rewrite (H3 Hp), (I3 Hp). reflexivity.
Qed.

(** The path [String] writes is unescaped to the path, and holds no
    control character, question mark or hash sign. *)
Lemma EscapedPath_spec (u : URL.URL) :
  URL.unescape URL.encodePath (URL.EscapedPath u) = Some (URL.Path u)
  ∧ URL.has_ctl (URL.EscapedPath u) = false
  ∧ URL.contains "#" (URL.EscapedPath u) = false
  ∧ URL.contains "?" (URL.EscapedPath u) = false.
Proof.
  unfold URL.EscapedPath.
  destruct (negb (String.eqb (URL.RawPath u) "")
            && URL.validEncoded URL.encodePath (URL.RawPath u)
            && bool_decide (URL.unescape URL.encodePath (URL.RawPath u)
                            = Some (URL.Path u))) eqn:E.
  - apply andb_true_iff in E as [E Hu]. apply andb_true_iff in E as [_ Hv].
    apply bool_decide_eq_true in Hu.
    destruct (validEncoded_clean _ _ (or_introl eq_refl) Hv) as (H1 & H2 & H3).
    split; [exact Hu |]. split; [exact H1 |]. split; [exact H2 | exact (H3 eq_refl)].
  - destruct (String.eqb (URL.Path u) "*") eqn:Es.
    + apply String.eqb_eq in Es. rewrite Es. repeat split.
    + destruct (escape_clean URL.encodePath (URL.Path u)) as (H1 & H2 & H3).
      split; [apply unescape_escape; left; reflexivity |].
      split; [exact H1 |]. split; [exact H2 |]. apply H3. discriminate.
Qed.

Lemma EscapedFragment_spec (u : URL.URL) :
  URL.unescape URL.encodeFragment (URL.EscapedFragment u) = Some (URL.Fragment u)
  ∧ URL.has_ctl (URL.EscapedFragment u) = false.
Proof.
  unfold URL.EscapedFragment.
  destruct (negb (String.eqb (URL.RawFragment u) "")
            && URL.validEncoded URL.encodeFragment (URL.RawFragment u)
            && bool_decide (URL.unescape URL.encodeFragment (URL.RawFragment u)
                            = Some (URL.Fragment u))) eqn:E.
  - apply andb_true_iff in E as [E Hu]. apply andb_true_iff in E as [_ Hv].
    apply bool_decide_eq_true in Hu.
    destruct (validEncoded_clean _ _ (or_intror eq_refl) Hv) as (H1 & _).
    split; [exact Hu | exact H1].
  - destruct (escape_clean URL.encodeFragment (URL.Fragment u)) as (H1 & _).
    split; [apply unescape_escape; right; reflexivity | exact H1].
Qed.

(** *** What [Parse] returns, and what is parsed of what [String] writes *)

Lemma parse_rest_spec (scheme rest rawQuery : string) (forceQuery : bool)
    (u : URL.URL) :
  URL.parse_rest scheme rest rawQuery forceQuery = Some u →
  URL.Scheme u = scheme ∧ URL.RawQuery u = rawQuery
  ∧ URL.ForceQuery u = forceQuery
  ∧ (URL.Opaque u = "" ∨ URL.Opaque u = rest)
  ∧ URL.Fragment u = "".
Proof.
  unfold URL.parse_rest.
  destruct (negb (URL.HasPrefix rest "/") && negb (String.eqb scheme ""));
    [intros [= <-]; repeat split; right; reflexivity |].
  destruct (negb (URL.HasPrefix rest "/") && URL.contains ":" (cut "/" rest).1);
    [discriminate |].
  destruct ((negb (String.eqb scheme "") || negb (URL.HasPrefix rest "///"))
            && URL.HasPrefix rest "//").
  - destruct (URL.split_authority rest) as [[[user host] rest'] |];
      [| discriminate]. cbn [mbind option_bind].
    destruct (URL.setPath rest') as [[path rawPath] |]; [| discriminate].
    intros [= <-]. repeat split. left. reflexivity.
  - cbn [mbind option_bind].
    destruct (URL.setPath rest) as [[path rawPath] |]; [| discriminate].
    intros [= <-]. repeat split. left. reflexivity.
Qed.

Lemma parse_spec (s : string) (u : URL.URL) :
  URL.parse s = Some u →
  URL.contains "#" s = false →
  URL.RawQuery u = default "" (cut "?" s).2
  ∧ URL.contains "?" (URL.Scheme u) = false
  ∧ URL.contains "#" (URL.Scheme u) = false
  ∧ URL.contains "?" (URL.Opaque u) = false
  ∧ URL.contains "#" (URL.Opaque u) = false
  ∧ URL.Fragment u = "".
Proof.
  unfold URL.parse. destruct (URL.has_ctl s); [discriminate |].
  destruct (String.eqb s "*") eqn:Es.
  { apply String.eqb_eq in Es. subst s. intros [= <-] _. repeat split. }
  destruct (URL.getScheme s) as [[scheme rest] |] eqn:Eg; [| discriminate].
  cbn [mbind option_bind].
  destruct (getScheme_spec _ _ _ Eg) as (pre & -> & Hq & Hh & Hsq & Hsh).
  destruct (split_query_spec rest) as [Hrq Hrest].
  destruct (URL.split_query rest) as [[rest' rawQuery] forceQuery].
  cbn [fst snd] in Hrq, Hrest. subst rest' rawQuery.
  intros Hp Hs. rewrite contains_app in Hs. apply orb_false_iff in Hs as [_ Hs].
  destruct (parse_rest_spec _ _ _ _ _ Hp) as (-> & -> & _ & Ho & Hf).
  rewrite (cut_app _ _ _ Hq). cbn [snd].
  split; [reflexivity |].
  rewrite !ToLower_clean by (first [left; reflexivity | right; reflexivity]).
  split; [exact Hsq |]. split; [exact Hsh |].
  destruct Ho as [-> | ->].
  - repeat split. exact Hf.
  - split; [apply cut_fst_clean |]. split; [apply cut_fst_keeps, Hs | exact Hf].
Qed.

Lemma Parse_spec (s : string) (u : URL.URL) :
  URL.Parse s = Some u →
  URL.RawQuery u = default "" (cut "?" (cut "#" s).1).2
  ∧ URL.contains "#" (URL.RawQuery u) = false
  ∧ URL.contains "?" (URL.Scheme u) = false
  ∧ URL.contains "#" (URL.Scheme u) = false
  ∧ URL.contains "?" (URL.Opaque u) = false
  ∧ URL.contains "#" (URL.Opaque u) = false.
Proof.
  unfold URL.Parse. pose proof (cut_fst_clean "#" s) as Hclean.
  destruct (cut "#" s) as [t frag]. cbn [fst] in *.
  destruct (URL.parse t) as [url |] eqn:Ep; [| discriminate].
  cbn [mbind option_bind].
  destruct (parse_spec _ _ Ep Hclean) as (Hrq & H1 & H2 & H3 & H4 & _).
  assert (Hno : URL.contains "#" (URL.RawQuery url) = false).
  { rewrite Hrq. destruct (cut "?" t).2 as [q |] eqn:Eq; [| reflexivity].
    exact (cut_snd_keeps _ _ _ _ Hclean Eq). }
  destruct (default "" frag) as [| c f].
  - intros [= <-]. repeat split; assumption.
  - destruct (URL.setFragment (String c f)) as [[fragment rawFragment] |];
      [| discriminate].
    intros [= <-]. cbn. repeat split; assumption.
Qed.

(** What [String] writes before the query holds no question mark and no
    hash sign. *)
Lemma String_head_clean (u : URL.URL) :
  URL.contains "?" (URL.Scheme u) = false →
  URL.contains "#" (URL.Scheme u) = false →
  URL.contains "?" (URL.Opaque u) = false →
  URL.contains "#" (URL.Opaque u) = false →
  URL.contains "?" (URL.String_head u) = false
  ∧ URL.contains "#" (URL.String_head u) = false.
Proof.
  intros H1 H2 H3 H4.
  assert (Hesc : ∀ mode s, mode ≠ URL.encodeFragment →
            URL.contains "?" (URL.escape mode s) = false
            ∧ URL.contains "#" (URL.escape mode s) = false).
  { intros mode s Hm. destruct (escape_clean mode s) as (_ & Hh & Hq).
    split; [exact (Hq Hm) | exact Hh]. }
  destruct (EscapedPath_spec u) as (_ & _ & Hph & Hpq).
  assert (Hscheme :
    URL.contains "?" (if String.eqb (URL.Scheme u) "" then ""
                      else URL.Scheme u ++ ":") = false
    ∧ URL.contains "#" (if String.eqb (URL.Scheme u) "" then ""
                        else URL.Scheme u ++ ":") = false).
  { destruct (String.eqb (URL.Scheme u) ""); [repeat split |].
    rewrite !contains_app, H1, H2. repeat split. }
  destruct Hscheme as [Hs1 Hs2].
  assert (Hauth : URL.contains "?" (URL.String_authority u) = false
                  ∧ URL.contains "#" (URL.String_authority u) = false).
  { unfold URL.String_authority.
    destruct (negb (String.eqb (URL.Scheme u) "")
              || negb (String.eqb (URL.Host u) "")
              || match URL.User u with Some _ => true | None => false end);
      [| repeat split].
    destruct (URL.OmitHost u && String.eqb (URL.Host u) ""
              && negb match URL.User u with Some _ => true | None => false end);
      [repeat split |].
    destruct (Hesc URL.encodeHost (URL.Host u)) as [Hh1 Hh2]; [discriminate |].
    rewrite !contains_app, Hh1, Hh2.
    assert (Huser :
      URL.contains "?" match URL.User u with
                       | Some ui => URL.Userinfo_String ui ++ "@"
                       | None => ""
                       end = false
      ∧ URL.contains "#" match URL.User u with
                         | Some ui => URL.Userinfo_String ui ++ "@"
                         | None => ""
                         end = false).
    { destruct (URL.User u) as [ui |]; [| repeat split].
      unfold URL.Userinfo_String.
      destruct (Hesc URL.encodeUserPassword (URL.username ui)) as [Hu1 Hu2];
        [discriminate |].
      rewrite !contains_app, Hu1, Hu2.
      destruct (URL.password ui) as [p |]; [| repeat split].
      destruct (Hesc URL.encodeUserPassword p) as [Hp1 Hp2]; [discriminate |].
      rewrite !contains_app, Hp1, Hp2. repeat split. }
    destruct Huser as [-> ->].
    destruct (negb (String.eqb (URL.Host u) "") || negb (String.eqb (URL.Path u) "")
              || match URL.User u with Some _ => true | None => false end);
      repeat split. }
  destruct Hauth as [Ha1 Ha2].
  unfold URL.String_head.
  destruct (negb (String.eqb (URL.Opaque u) "")).
  { rewrite !contains_app, Hs1, Hs2, H3, H4. repeat split. }
  cbv zeta.
  match goal with
  | |- context [if ?b then "./" else _] => destruct b
  end;
    repeat match goal with
      | |- context [if ?b then "/" else ""] => destruct b
      end;
    rewrite !contains_app, ?Hs1, ?Hs2, ?Ha1, ?Ha2, Hph, Hpq; repeat split.
Qed.

(** The query is the same after [String] and [Parse]. *)
Lemma Parse_String_RawQuery (u u2 : URL.URL) :
  URL.contains "?" (URL.Scheme u) = false →
  URL.contains "#" (URL.Scheme u) = false →
  URL.contains "?" (URL.Opaque u) = false →
  URL.contains "#" (URL.Opaque u) = false →
  URL.contains "#" (URL.RawQuery u) = false →
  URL.Parse (URL.String_ u) = Some u2 →
  URL.RawQuery u2 = URL.RawQuery u.
Proof.
  intros H1 H2 H3 H4 Hq HP.
  destruct (String_head_clean u H1 H2 H3 H4) as [Hhq Hhh].
  destruct (Parse_spec _ _ HP) as (-> & _).
  unfold URL.String_.
  set (query := if URL.ForceQuery u || negb (String.eqb (URL.RawQuery u) "")
                then "?" ++ URL.RawQuery u else "").
  set (frag := if negb (String.eqb (URL.Fragment u) "")
               then "#" ++ URL.EscapedFragment u else "").
  assert (Hcut : (cut "#" (URL.String_head u ++ query ++ frag)).1
                 = URL.String_head u ++ query).
  { rewrite <- app_assoc_s. rewrite cut_app.
    - cbn [fst]. subst frag.
      destruct (negb (String.eqb (URL.Fragment u) ""));
        [| rewrite append_nil_r; reflexivity].
      cbn. rewrite append_nil_r. reflexivity.
    - rewrite contains_app, Hhh. subst query.
      destruct (URL.ForceQuery u || negb (String.eqb (URL.RawQuery u) ""));
        [| reflexivity].
      cbn [orb]. exact Hq. }
  rewrite Hcut, (cut_app _ _ _ Hhq). cbn [snd].
  subst query. destruct (URL.ForceQuery u || negb (String.eqb (URL.RawQuery u) "")) eqn:E.
  - reflexivity.
  - apply orb_false_iff in E as [_ E]. apply negb_false_iff, String.eqb_eq in E.
    rewrite E. reflexivity.
Qed.

Lemma QueryEscape_byte_no_hash (a : ascii) (r : string) :
  URL.contains "#" (URL.QueryEscape (String a r))
  = URL.contains "#" (URL.QueryEscape r).
Proof.
  cbn [URL.QueryEscape].
  destruct (URL.unreserved a) eqn:Eu.
  - cbn [URL.contains]. replace (Ascii.eqb a "#") with false; [reflexivity |].
    revert Eu. each_byte a; vm_compute; intros H; first [discriminate H | reflexivity].
  - destruct (Ascii.eqb a " "); [reflexivity |].
    cbn [URL.contains].
    replace (Ascii.eqb (URL.upper_hex (val a / 16)) "#") with false
      by (each_byte a; reflexivity).
    replace (Ascii.eqb (URL.upper_hex (val a mod 16)) "#") with false
      by (each_byte a; reflexivity).
    reflexivity.
Qed.

Lemma QueryEscape_no_hash (s : string) : URL.contains "#" (URL.QueryEscape s) = false.
Proof.
  induction s as [| a s IH]; [reflexivity |].
  rewrite QueryEscape_byte_no_hash. exact IH.
Qed.

Lemma join_amp_no_hash (l : list string) :
  Forall (fun x => URL.contains "#" x = false) l →
  URL.contains "#" (URL.join_amp l) = false.
Proof.
  induction 1 as [| x l Hx Hl IH]; [reflexivity |].
  destruct l as [| y l']; [exact Hx |].
  change (URL.join_amp (x :: y :: l')) with (x ++ "&" ++ URL.join_amp (y :: l')).
  rewrite !contains_app, Hx, IH. reflexivity.
Qed.

Lemma Encode_no_hash (q : URL.Values) : URL.contains "#" (URL.Encode q) = false.
Proof.
  unfold URL.Encode. apply join_amp_no_hash, Forall_fmap, Forall_forall.
  intros [k x] _. cbn.
  rewrite !contains_app, !QueryEscape_no_hash. reflexivity.
Qed.
(** *** Query parameters *)

Lemma Add_lookup (k x key : string) (q : URL.Values) :
  URL.Add k x q !! key
  = if decide (k = key) then Some (default [] (q !! k) ++ [x])%list else q !! key.
Proof. unfold URL.Add. apply lookup_insert. Qed.

(** The loop over a list of parameters with distinct keys. *)
Lemma add_list_lookup (l : list (string * string)) (q : URL.Values) (key : string) :
  NoDup l.*1 →
  foldr (fun '(key, value) q =>
           if String.eqb value "" then q else URL.Add key value q) q l !! key
  = match (list_to_map l : gmap string string) !! key with
    | Some v => if String.eqb v "" then q !! key
                else Some (default [] (q !! key) ++ [v])%list
    | None => q !! key
    end.
Proof.
  induction l as [| [k v] l IH]; [intros _; reflexivity |].
  intros Hnd. apply NoDup_cons in Hnd as [Hk Hnd]. specialize (IH Hnd).
  cbn [foldr list_to_map fst snd]. destruct (decide (k = key)) as [-> | Hne].
  - rewrite lookup_insert_eq.
    assert (Hl : (list_to_map l : gmap string string) !! key = None)
      by (apply not_elem_of_list_to_map_1; exact Hk).
    rewrite Hl in IH. destruct (String.eqb v ""); [exact IH |].
    rewrite Add_lookup, decide_True by reflexivity. rewrite IH. reflexivity.
  - rewrite lookup_insert_ne by assumption.
    destruct (String.eqb v ""); [exact IH |].
    rewrite Add_lookup, decide_False by assumption. exact IH.
Qed.

(** What the loop of [makeRequest] leaves under a key. *)
Lemma add_params_lookup (params : gmap string string) (q : URL.Values) (key : string) :
  add_params params q !! key
  = match params !! key with
    | Some v => if String.eqb v "" then q !! key
                else Some (default [] (q !! key) ++ [v])%list
    | None => q !! key
    end.
Proof.
  unfold add_params. rewrite add_list_lookup by apply NoDup_fst_map_to_list.
  rewrite list_to_map_to_list. reflexivity.
Qed.

(** The pairs [Encode] writes are the values of the keys. *)
Lemma elem_of_pairs (q : URL.Values) (k x : string) :
  (k, x) ∈ URL.pairs q ↔ ∃ vs, q !! k = Some vs ∧ x ∈ vs.
Proof.
  unfold URL.pairs. rewrite list_elem_of_bind. split.
  - intros [[k' vs] [Hin Hs]].
    apply list_elem_of_fmap in Hin as [y [[= -> ->] Hy]].
    rewrite merge_sort_Permutation in Hs.
    apply elem_of_map_to_list in Hs. eauto.
  - intros [vs [Hq Hx]]. exists (k, vs). split.
    + apply list_elem_of_fmap. eauto.
    + rewrite merge_sort_Permutation. apply elem_of_map_to_list. exact Hq.
Qed.

Lemma pairs_same_key (q q' : URL.Values) (key : string) :
  q !! key = q' !! key →
  ∀ x, (key, x) ∈ URL.pairs q ↔ (key, x) ∈ URL.pairs q'.
Proof. intros H x. rewrite !elem_of_pairs, H. reflexivity. Qed.

(** The number a positive page argument is written as is not empty. *)
Lemma Itoa_not_empty (n : Z) : Itoa n ≠ "".
Proof.
  unfold Itoa. destruct n as [| p | p]; simpl; [discriminate | | discriminate].
  pose proof (DecimalPos.Unsigned.to_uint_nonnil p) as Hn.
  destruct (Pos.to_uint p); [congruence | discriminate ..].
Qed.

(** The parameters of the list operations: a page argument that is not
    positive has no entry. *)
Lemma page_params_lookup (pageNum pageSize : Z) :
  page_params pageNum pageSize !! "pageNum"
  = (if 0 <? pageNum then Some (Itoa pageNum) else None)
  ∧ page_params pageNum pageSize !! "pageSize"
    = (if 0 <? pageSize then Some (Itoa pageSize) else None).
Proof.
  unfold page_params.
  destruct (0 <? pageNum), (0 <? pageSize); split; reflexivity.
Qed.


(** *** The request [makeRequest] builds *)

(** The steps of [newRequest] when it builds a request: the URL parsed,
    its query set from the parameters, and what [String] writes of it parsed
    again. *)
Lemma newRequest_inv {T} `{GoValue T} (c : BagelPayClient)
    (method endpoint : string) (data : option T)
    (params : option (gmap string string)) (req : http.Request) :
  newRequest c method endpoint data params = inr req →
  ∃ u0 u2 : URL.URL,
    URL.Parse (baseURL c ++ endpoint) = Some u0
    ∧ URL.Parse
        (URL.String_
           match params with
           | None => u0
           | Some params =>
               with_RawQuery u0 (URL.Encode (add_params params (URL.Query u0)))
           end) = Some u2
    ∧ URL.Scheme (http.Url req) = URL.Scheme u2
    ∧ URL.Opaque (http.Url req) = URL.Opaque u2
    ∧ URL.User (http.Url req) = URL.User u2
    ∧ URL.Host (http.Url req) = http.removeEmptyPort (URL.Host u2)
    ∧ URL.Path (http.Url req) = URL.Path u2
    ∧ URL.RawQuery (http.Url req) = URL.RawQuery u2
    ∧ URL.Fragment (http.Url req) = URL.Fragment u2
    ∧ http.validMethod (if String.eqb method "" then "GET" else method) = true
    ∧ http.Method req = (if String.eqb method "" then "GET" else method)
    ∧ http.Header req = [("Content-Type", "application/json");
                         ("User-Agent", "BagelPay-Go-SDK/1.0.0");
                         ("x-api-key", apiKey c)].
Proof.
  unfold newRequest.
  destruct (URL.Parse (baseURL c ++ endpoint)) as [u0 |]; [| discriminate].
  set (u' := match params with
             | None => u0
             | Some params =>
                 with_RawQuery u0 (URL.Encode (add_params params (URL.Query u0)))
             end).
  set (body := match data with
               | Some d => _
               | None => _
               end).
  destruct body as [err | body]; [discriminate |].
  unfold http.NewRequestWithContext.
  destruct (http.validMethod (if String.eqb method "" then "GET" else method))
    eqn:Ev; [| discriminate].
  cbn [negb]. destruct (URL.Parse (URL.String_ u')) as [u2 |] eqn:Eu; [| discriminate].
  cbn [mbind option_bind]. intros [= <-]. exists u0, u2.
  split; [reflexivity |]. split; [exact Eu |]. repeat split.
Qed.

Lemma newRequest_query {T} `{GoValue T} (c : BagelPayClient)
    (method endpoint : string) (data : option T)
    (params : gmap string string) (req : http.Request) :
  newRequest c method endpoint data (Some params) = inr req →
  ∃ u0 : URL.URL,
    URL.Parse (baseURL c ++ endpoint) = Some u0
    ∧ URL.RawQuery (http.Url req) = URL.Encode (add_params params (URL.Query u0)).
Proof.
  intros Hreq. destruct (newRequest_inv _ _ _ _ _ _ Hreq)
    as (u0 & u2 & Hu0 & Hu2 & _ & _ & _ & _ & _ & Hq & _).
  exists u0. split; [exact Hu0 |]. rewrite Hq.
  destruct (Parse_spec _ _ Hu0) as (_ & _ & H1 & H2 & H3 & H4).
  exact (Parse_String_RawQuery
           (with_RawQuery u0 (URL.Encode (add_params params (URL.Query u0)))) u2
           H1 H2 H3 H4 (Encode_no_hash _) Hu2).
Qed.

(** *** Requests of a client with an https base URL *)

Lemma HasPrefix_slash (s : string) :
  URL.HasPrefix s "/" = true → ∃ r, s = String "/" r.
Proof.
  destruct s as [| c r]; [discriminate |]. unfold URL.HasPrefix.
  cbn [strip_prefix]. destruct (Ascii.eqb "/" c) eqn:E; [| discriminate].
  apply Ascii.eqb_eq in E. subst c. intros _. exists r. reflexivity.
Qed.

(** The query and the fragment as they are written after the path. *)
Lemma cut_written (c : ascii) (x : string) (o : option string) :
  URL.contains c x = false →
  cut c (x ++ match o with Some t => String c t | None => "" end) = (x, o).
Proof.
  intros Hx. rewrite (cut_app _ _ _ Hx). destruct o as [t |]; cbn.
  - rewrite Ascii.eqb_refl, append_nil_r. reflexivity.
  - rewrite append_nil_r. reflexivity.
Qed.

(** [Parse] on a text that is [https://], a host, a path, a query and a
    fragment. *)
Lemma Parse_https (h w P fr : string) (q f : option string) :
  URL.contains "/" h = false → URL.contains "?" h = false →
  URL.contains "#" h = false → URL.has_ctl h = false →
  URL.parseAuthority h = Some (None, h) →
  URL.HasPrefix w "/" = true → URL.has_ctl w = false →
  URL.contains "?" w = false → URL.contains "#" w = false →
  URL.unescape URL.encodePath w = Some P →
  URL.has_ctl (default "" q) = false → URL.contains "#" (default "" q) = false →
  URL.unescape URL.encodeFragment (default "" f) = Some fr →
  ∃ u, URL.Parse ("https://" ++ h ++ w
                  ++ match q with Some t => String "?" t | None => "" end
                  ++ match f with Some t => String "#" t | None => "" end) = Some u
       ∧ URL.Scheme u = "https" ∧ URL.Opaque u = "" ∧ URL.User u = None
       ∧ URL.Host u = h ∧ URL.Path u = P
       ∧ URL.RawQuery u = default "" q ∧ URL.Fragment u = fr
       ∧ (URL.RawPath u = "" ∨ URL.RawPath u = w).
Proof.
  intros Hh1 Hh2 Hh3 Hh4 Hauth Hw Hw1 Hw2 Hw3 HP Hq1 Hq2 Hf.
  destruct (HasPrefix_slash _ Hw) as [w1 ->].
  set (Q := match q with Some t => String "?" t | None => "" end).
  set (F := match f with Some t => String "#" t | None => "" end).
  assert (HQ : URL.contains "#" Q = false ∧ URL.has_ctl Q = false).
  { subst Q. destruct q as [t |]; [| split; reflexivity].
    cbn in Hq1, Hq2 |- *. rewrite Hq1, Hq2. split; reflexivity. }
  destruct HQ as [HQ1 HQ2].
  unfold URL.Parse.
  replace ("https://" ++ h ++ String "/" w1 ++ Q ++ F)
    with (("https://" ++ h ++ String "/" w1 ++ Q) ++ F)
    by (rewrite !app_assoc_s; reflexivity).
  subst F. rewrite cut_written
    by (rewrite !contains_app, Hh3, Hw3, HQ1; reflexivity).
  assert (Hparse :
    URL.parse ("https://" ++ h ++ String "/" w1 ++ Q)
    = Some {| URL.Scheme := "https"; URL.Opaque := ""; URL.User := None;
              URL.Host := h; URL.Path := P;
              URL.RawPath := if String.eqb (String "/" w1)
                                  (URL.escape URL.encodePath P)
                             then "" else String "/" w1;
              URL.OmitHost := false;
              URL.ForceQuery := (URL.split_query ("//" ++ h ++ String "/" w1 ++ Q)).2;
              URL.RawQuery := default "" q;
              URL.Fragment := ""; URL.RawFragment := "" |}).
  { unfold URL.parse.
    rewrite !has_ctl_app, Hh4, Hw1, HQ2.
    change (URL.has_ctl "https://") with false. cbn [orb].
    change (String.eqb ("https://" ++ h ++ String "/" w1 ++ Q) "*") with false.
    cbn iota.
    change (URL.getScheme ("https://" ++ h ++ String "/" w1 ++ Q))
      with (Some ("https", "//" ++ h ++ String "/" w1 ++ Q)).
    cbn [mbind option_bind].
    destruct (split_query_spec ("//" ++ h ++ String "/" w1 ++ Q)) as [Hrq Hrest].
    destruct (URL.split_query ("//" ++ h ++ String "/" w1 ++ Q))
      as [[rest rawQuery] forceQuery].
    cbn [fst snd] in Hrq, Hrest |- *.
    assert (Hcut : cut "?" ("//" ++ h ++ String "/" w1 ++ Q)
                   = ("//" ++ h ++ String "/" w1, q)).
    { replace ("//" ++ h ++ String "/" w1 ++ Q)
        with (("//" ++ h ++ String "/" w1) ++ Q)
        by (rewrite !app_assoc_s; reflexivity).
      subst Q. apply cut_written. rewrite !contains_app, Hh2, Hw2. reflexivity. }
    rewrite Hcut in Hrq, Hrest. cbn [fst snd] in Hrq, Hrest. subst rest rawQuery.
    change (URL.ToLower "https") with "https".
    unfold URL.parse_rest.
    change (URL.HasPrefix ("//" ++ h ++ String "/" w1) "/") with true.
    change (URL.HasPrefix ("//" ++ h ++ String "/" w1) "//") with true.
    cbn [negb andb orb String.eqb Ascii.eqb Bool.eqb].
    unfold URL.split_authority.
    change (strip_prefix "//" ("//" ++ h ++ String "/" w1))
      with (Some (h ++ String "/" w1)).
    cbn [default id]. rewrite (cut_first _ _ _ Hh1), Hauth.
    cbn [mbind option_bind]. unfold URL.setPath. rewrite HP.
    cbn [mbind option_bind]. reflexivity. }
  set (rp := if String.eqb (String "/" w1) (URL.escape URL.encodePath P)
             then "" else String "/" w1) in Hparse.
  assert (Hrp : rp = "" ∨ rp = String "/" w1).
  { subst rp. destruct (String.eqb (String "/" w1) (URL.escape URL.encodePath P));
      [left | right]; reflexivity. }
  clearbody rp.
  rewrite Hparse. cbn [mbind option_bind].
  destruct (default "" f) as [| c0 f0] eqn:Ef.
  - injection Hf as <-. eexists. split; [reflexivity |].
    cbn [URL.Scheme URL.Opaque URL.User URL.Host URL.Path URL.RawQuery
         URL.Fragment URL.RawPath].
    repeat split. exact Hrp.
  - unfold URL.setFragment. rewrite Hf. cbn [mbind option_bind].
    eexists. split; [reflexivity |].
    cbn [URL.Scheme URL.Opaque URL.User URL.Host URL.Path URL.RawQuery
         URL.Fragment URL.RawPath].
    repeat split. exact Hrp.
Qed.

(** What [String] writes of such a URL. *)
Lemma String_https (u : URL.URL) (h : string) :
  URL.Scheme u = "https" → URL.Opaque u = "" → URL.User u = None →
  URL.Host u = h → h ≠ "" → URL.escape URL.encodeHost h = h →
  URL.HasPrefix (URL.EscapedPath u) "/" = true →
  URL.String_ u
  = "https://" ++ h ++ URL.EscapedPath u
    ++ match (if URL.ForceQuery u || negb (String.eqb (URL.RawQuery u) "")
              then Some (URL.RawQuery u) else None) with
       | Some t => String "?" t
       | None => ""
       end
    ++ match (if negb (String.eqb (URL.Fragment u) "")
              then Some (URL.EscapedFragment u) else None) with
       | Some t => String "#" t
       | None => ""
       end.
Proof.
  intros Hs Ho Hu Hh Hne Hesc Hp.
  unfold URL.String_, URL.String_head, URL.String_authority.
  rewrite Hs, Ho, Hu, Hh, Hesc, Hp.
  apply String.eqb_neq in Hne. rewrite Hne.
  cbn [String.eqb negb orb andb]. rewrite !andb_false_r. cbn [andb].
  rewrite (proj2 (String.eqb_neq _ _)) by (cbn; discriminate).
  cbn [andb]. rewrite !app_assoc_s.
  change ("" ++ URL.EscapedPath u) with (URL.EscapedPath u).
  destruct (URL.ForceQuery u || negb (String.eqb (URL.RawQuery u) ""));
    destruct (negb (String.eqb (URL.Fragment u) "")); reflexivity.
Qed.

Lemma EscapedPath_slash (u : URL.URL) (w : string) :
  URL.HasPrefix (URL.Path u) "/" = true →
  URL.RawPath u = "" ∨ URL.RawPath u = w → URL.HasPrefix w "/" = true →
  URL.HasPrefix (URL.EscapedPath u) "/" = true.
Proof.
  intros HP HR Hw. unfold URL.EscapedPath.
  destruct (String.eqb (URL.RawPath u) "") eqn:E.
  - cbn [negb andb]. destruct (HasPrefix_slash _ HP) as [p ->]. reflexivity.
  - destruct HR as [HR | HR]; [rewrite HR in E; discriminate |].
    destruct (_ && _); [rewrite HR; exact Hw |].
    destruct (HasPrefix_slash _ HP) as [p ->]. reflexivity.
Qed.

Lemma plain_spec (s : string) :
  plain s = true →
  URL.has_ctl s = false ∧ URL.contains "%" s = false
  ∧ URL.contains "?" s = false ∧ URL.contains "#" s = false.
Proof.
  unfold plain. induction s as [| a s IH]; [repeat split |].
  cbn [URL.all_bytes URL.has_ctl URL.contains]. intros H.
  apply andb_true_iff in H as [Ha Hs]. destruct (IH Hs) as (-> & -> & -> & ->).
  apply andb_true_iff in Ha as [Hc Ho]. apply negb_true_iff in Hc, Ho.
  rewrite orb_false_r.
  unfold URL.one_of in Ho. cbn [URL.contains] in Ho.
  apply orb_false_iff in Ho as [H1 Ho]. apply orb_false_iff in Ho as [H2 Ho].
  apply orb_false_iff in Ho as [H3 _].
  rewrite (Ascii.eqb_sym a "%"), (Ascii.eqb_sym a "?"), (Ascii.eqb_sym a "#").
  rewrite H1, H2, H3, !orb_false_r. repeat split. exact Hc.
Qed.

Lemma plain_app (a b : string) : plain (a ++ b) = plain a && plain b.
Proof.
  unfold plain. induction a as [| x a IH]; [reflexivity |].
  change (String x a ++ b) with (String x (a ++ b)).
  cbn [URL.all_bytes]. rewrite IH, andb_assoc. reflexivity.
Qed.

Lemma HasPrefix_app (a b p : string) :
  URL.HasPrefix a p = true → URL.HasPrefix (a ++ b) p = true.
Proof.
  unfold URL.HasPrefix. revert a. induction p as [| c p IH]; intros a; [reflexivity |].
  destruct a as [| x a]; [discriminate |].
  change (String x a ++ b) with (String x (a ++ b)). cbn [strip_prefix].
  destruct (Ascii.eqb c x); [apply IH | discriminate].
Qed.

Lemma validMethod_not_empty (method : string) :
  http.validMethod method = true →
  (if String.eqb method "" then "GET" else method) = method.
Proof.
  unfold http.validMethod. destruct (String.eqb method ""); [discriminate | reflexivity].
Qed.

(** The URL of the request a client with one of the two base URLs
    builds for a plain path, a query and a fragment: what is parsed the
    second time has that path, that query and that fragment. *)
Lemma default_URL_built (c : BagelPayClient) (path : string) (q f : option string) :
  default_base c →
  URL.HasPrefix path "/" = true → plain path = true →
  URL.has_ctl (default "" q) = false → URL.contains "#" (default "" q) = false →
  URL.contains "%" (default "" f) = false →
  ∃ u0 u2,
    URL.Parse (baseURL c ++ path
               ++ match q with Some t => String "?" t | None => "" end
               ++ match f with Some t => String "#" t | None => "" end) = Some u0
    ∧ URL.Parse (URL.String_ u0) = Some u2
    ∧ URL.Scheme u2 = "https" ∧ "https://" ++ URL.Host u2 = baseURL c
    ∧ http.removeEmptyPort (URL.Host u2) = URL.Host u2
    ∧ URL.Opaque u2 = "" ∧ URL.User u2 = None
    ∧ URL.Path u2 = path ∧ URL.RawQuery u2 = default "" q
    ∧ URL.Fragment u2 = default "" f.
Proof.
  intros Hbase Hslash Hplain Hq1 Hq2 Hf.
  destruct (plain_spec _ Hplain) as (Hp1 & Hp2 & Hp3 & Hp4).
  assert (Hhost : ∃ h, baseURL c = "https://" ++ h
            ∧ URL.contains "/" h = false ∧ URL.contains "?" h = false
            ∧ URL.contains "#" h = false ∧ URL.has_ctl h = false
            ∧ URL.parseAuthority h = Some (None, h)
            ∧ h ≠ "" ∧ URL.escape URL.encodeHost h = h
            ∧ http.removeEmptyPort h = h).
  { destruct Hbase as [-> | ->];
      [exists "test.bagelpay.io" | exists "live.bagelpay.io"];
      repeat split; discriminate. }
  destruct Hhost as (h & Hb & Hh1 & Hh2 & Hh3 & Hh4 & Hauth & Hne & Hesc & Hport).
  rewrite Hb.
  destruct (Parse_https h path path (default "" f) q f
              Hh1 Hh2 Hh3 Hh4 Hauth Hslash Hp1 Hp3 Hp4
              (unescape_plain _ _ (or_introl eq_refl) Hp2) Hq1 Hq2
              (unescape_plain _ _ (or_intror eq_refl) Hf))
    as (u0 & Hu0 & Hs0 & Ho0 & Hu0' & Hh0 & HP0 & HQ0 & HF0 & HR0).
  exists u0. rewrite app_assoc_s.
  destruct (EscapedPath_spec u0) as (He1 & He2 & He3 & He4).
  destruct (EscapedFragment_spec u0) as (Hg1 & Hg2).
  assert (Hpre : URL.HasPrefix (URL.EscapedPath u0) "/" = true).
  { apply (EscapedPath_slash u0 path); [rewrite HP0; exact Hslash | exact HR0
                                       | exact Hslash]. }
  rewrite (String_https u0 h Hs0 Ho0 Hu0' Hh0 Hne Hesc Hpre).
  rewrite HP0 in He1.
  destruct (Parse_https h (URL.EscapedPath u0) path (URL.Fragment u0)
              (if URL.ForceQuery u0 || negb (String.eqb (URL.RawQuery u0) "")
               then Some (URL.RawQuery u0) else None)
              (if negb (String.eqb (URL.Fragment u0) "")
               then Some (URL.EscapedFragment u0) else None)
              Hh1 Hh2 Hh3 Hh4 Hauth Hpre He2 He4 He3 He1)
    as (u2 & Hu2 & Hs2 & Ho2 & Hu2' & Hh2' & HP2 & HQ2 & HF2 & _).
  - destruct (_ || _); [cbn; rewrite HQ0; exact Hq1 | reflexivity].
  - destruct (_ || _); [cbn; rewrite HQ0; exact Hq2 | reflexivity].
  - destruct (String.eqb (URL.Fragment u0) "") eqn:E; cbn; [| exact Hg1].
    apply String.eqb_eq in E. rewrite E. reflexivity.
  - exists u2. split; [exact Hu0 |].
    split; [exact Hu2 |]. rewrite Hh2'.
    repeat split; try assumption.
    + rewrite HQ2.
      destruct (URL.ForceQuery u0 || negb (String.eqb (URL.RawQuery u0) "")) eqn:E;
        cbn; [exact HQ0 |].
      apply orb_false_iff in E as [_ E]. apply negb_false_iff, String.eqb_eq in E.
      rewrite <- HQ0. symmetry. exact E.
    + rewrite HF2. exact HF0.
Qed.

(** The request such a client builds when it sends no body. *)
Lemma default_request (c : BagelPayClient) (method path : string)
    (q f : option string) :
  default_base c → http.validMethod method = true →
  URL.HasPrefix path "/" = true → plain path = true →
  URL.has_ctl (default "" q) = false → URL.contains "#" (default "" q) = false →
  URL.contains "%" (default "" f) = false →
  ∃ req,
    newRequest c method
      (path ++ match q with Some t => String "?" t | None => "" end
       ++ match f with Some t => String "#" t | None => "" end) no_data None
    = inr req
    ∧ default_url c path (default "" q) (default "" f) (http.Url req)
    ∧ http.Method req = method ∧ http.ReqBody req = None
    ∧ http.Header req = [("Content-Type", "application/json");
                         ("User-Agent", "BagelPay-Go-SDK/1.0.0");
                         ("x-api-key", apiKey c)].
Proof.
  intros Hbase Hm Hslash Hplain Hq1 Hq2 Hf.
  destruct (default_URL_built c path q f Hbase Hslash Hplain Hq1 Hq2 Hf)
    as (u0 & u2 & Hu0 & Hu2 & Hs & Hh & Hport & Ho & Hu & HP & HQ & HF).
  unfold newRequest, no_data. rewrite Hu0.
  unfold http.NewRequestWithContext.
  rewrite (validMethod_not_empty _ Hm), Hm. cbn [negb]. rewrite Hu2.
  cbn [mbind option_bind].
  eexists. split; [reflexivity |].
  unfold default_url. cbn. rewrite Hport.
  repeat split; assumption.
Qed.

(** *** Identifiers in the path *)

Lemma cut_fst_ctl_app (c : ascii) (a b : string) :
  URL.has_ctl (cut c a).1 = true → URL.has_ctl (cut c (a ++ b)).1 = true.
Proof.
  induction a as [| x a IH]; [discriminate |].
  change (String x a ++ b) with (String x (a ++ b)). cbn [cut].
  destruct (Ascii.eqb x c); [discriminate |].
  destruct (cut c a) as [a1 a2], (cut c (a ++ b)) as [b1 b2].
  cbn [fst URL.has_ctl] in *. intros H.
  apply orb_true_iff in H as [H | H]; [rewrite H; reflexivity |].
  rewrite (IH H). apply orb_true_r.
Qed.

Lemma Parse_ctl (p s : string) :
  URL.contains "#" p = false → URL.has_ctl (cut "#" s).1 = true →
  URL.Parse (p ++ s) = None.
Proof.
  intros Hp Hs. unfold URL.Parse. rewrite (cut_app _ _ _ Hp).
  cbv beta iota. unfold URL.parse. rewrite has_ctl_app, Hs, orb_true_r. reflexivity.
Qed.

Lemma default_base_no_hash (c : BagelPayClient) :
  default_base c → URL.contains "#" (baseURL c) = false.
Proof. intros [-> | ->]; reflexivity. Qed.

(** The request for an endpoint made of a prefix, an identifier and a
    suffix. *)
Lemma interpolated_built (c : BagelPayClient) (method prefix id suffix : string) :
  default_base c → http.validMethod method = true →
  URL.HasPrefix prefix "/" = true → plain prefix = true → plain suffix = true →
  interpolated c prefix id suffix
    (newRequest c method (prefix ++ id ++ suffix) no_data None).
Proof.
  intros Hbase Hm Hslash Hprefix Hsuffix.
  destruct (plain_spec _ Hprefix) as (Hp1 & Hp2 & Hp3 & Hp4).
  destruct (plain_spec _ Hsuffix) as (Hs1 & Hs2 & Hs3 & Hs4).
  repeat apply conj.
  - intros Hid.
    destruct (default_request c method (prefix ++ id ++ suffix) None None
                Hbase Hm (HasPrefix_app _ _ _ Hslash)) as (req & Hreq & Hurl & _);
      try reflexivity.
    { rewrite !plain_app, Hprefix, Hid, Hsuffix. reflexivity. }
    cbn [default Datatypes.id] in Hurl. rewrite !append_nil_r in Hreq.
    exists req. split; assumption.
  - intros a b -> Ha Hb1 Hb2.
    destruct (default_request c method (prefix ++ a) (Some (b ++ suffix)) None
                Hbase Hm (HasPrefix_app _ _ _ Hslash)) as (req & Hreq & Hurl & _);
      try reflexivity.
    { rewrite plain_app, Hprefix, Ha. reflexivity. }
    { cbn [default Datatypes.id]. rewrite has_ctl_app, Hb1, Hs1. reflexivity. }
    { cbn [default Datatypes.id]. rewrite contains_app, Hb2, Hs4. reflexivity. }
    cbn [default Datatypes.id] in Hurl. rewrite append_nil_r in Hreq.
    exists req. split; [| exact Hurl]. rewrite <- Hreq. f_equal.
    repeat first [rewrite app_assoc_s
                 | progress change (String ?x ?s ++ ?t) with (String x (s ++ t))];
      reflexivity.
  - intros a b -> Ha Hb.
    destruct (default_request c method (prefix ++ a) None (Some (b ++ suffix))
                Hbase Hm (HasPrefix_app _ _ _ Hslash)) as (req & Hreq & Hurl & _);
      try reflexivity.
    { rewrite plain_app, Hprefix, Ha. reflexivity. }
    { cbn [default Datatypes.id]. rewrite contains_app, Hb, Hs2. reflexivity. }
    cbn [default Datatypes.id] in Hurl.
    exists req. split; [| exact Hurl]. rewrite <- Hreq. f_equal.
    repeat first [rewrite app_assoc_s
                 | progress change (String ?x ?s ++ ?t) with (String x (s ++ t))];
      reflexivity.
  - intros a b d -> Ha Hb1 Hb2 Hd.
    destruct (default_request c method (prefix ++ a) (Some b) (Some (d ++ suffix))
                Hbase Hm (HasPrefix_app _ _ _ Hslash)) as (req & Hreq & Hurl & _);
      try assumption.
    { rewrite plain_app, Hprefix, Ha. reflexivity. }
    { cbn [default Datatypes.id]. rewrite contains_app, Hd, Hs2. reflexivity. }
    cbn [default Datatypes.id] in Hurl.
    exists req. split; [| exact Hurl]. rewrite <- Hreq. f_equal.
    repeat first [rewrite app_assoc_s
                 | progress change (String ?x ?s ++ ?t) with (String x (s ++ t))];
      reflexivity.
  - intros Hid. unfold newRequest.
    rewrite <- app_assoc_s, Parse_ctl; [reflexivity | |].
    + rewrite contains_app, (default_base_no_hash _ Hbase), Hp4. reflexivity.
    + apply cut_fst_ctl_app, Hid.
Qed.

(** C10. The five operations that take an identifier write it into the
    endpoint as it is, and the request [makeRequest] hands to the transport
    is the one built for that text.  For a client with one of the two base
    URLs of the package: an identifier without control character, percent
    sign, question mark or hash sign becomes part of the path of the request,
    its slashes being separators of the path like any other; the first
    question mark of the identifier ends the path, and what follows it is the
    query of the request, the suffix of the endpoint included; the first hash
    sign ends the path or the query, and what follows it is the fragment; an
    identifier with a control character before any hash sign makes the URL
    invalid and nothing is sent.  On the test client: the identifier
    [p_1?pageNum=2] gives the path [/api/products/p_1] and the query
    [pageNum=2]; with [p_1/../p_2#] the suffix [/archive] is the fragment;
    [a b] is written [a%20b] by the URL, a slash, a question mark or a hash
    sign being left alone; [%zz] makes the URL invalid. *)
Theorem path_id_unescaped {Product Subscription : Type}
    `{!GoValue Product, !GoValue Subscription}
    (Do : http.Client → http.Request → error + http.Response)
    (c : BagelPayClient) (id : string) :
  default_base c →
  let get_product := newRequest c "GET" ("/api/products/" ++ id) no_data None in
  let archive := newRequest c "POST" ("/api/products/" ++ id ++ "/archive") no_data None in
  let unarchive :=
    newRequest c "POST" ("/api/products/" ++ id ++ "/unarchive") no_data None in
  let get_subscription :=
    newRequest c "GET" ("/api/subscriptions/" ++ id) no_data None in
  let cancel :=
    newRequest c "POST" ("/api/subscriptions/" ++ id ++ "/cancel") no_data None in
  let invalid : error + http.Request :=
    inl (PBagelPayError (NewBagelPayError "invalid URL" (Some (Foreign "net/url")))) in
  (GetProduct Do c id = finish Data (send Do c get_product)
   ∧ interpolated c "/api/products/" id "" get_product)
  ∧ (ArchiveProduct Do c id = finish Data (send Do c archive)
     ∧ interpolated c "/api/products/" id "/archive" archive)
  ∧ (UnarchiveProduct Do c id = finish Data (send Do c unarchive)
     ∧ interpolated c "/api/products/" id "/unarchive" unarchive)
  ∧ (GetSubscription Do c id = finish Data (send Do c get_subscription)
     ∧ interpolated c "/api/subscriptions/" id "" get_subscription)
  ∧ (CancelSubscription Do c id = finish Data (send Do c cancel)
     ∧ interpolated c "/api/subscriptions/" id "/cancel" cancel)
  ∧ (∃ req,
       newRequest test_client "GET" ("/api/products/" ++ "p_1?pageNum=2") no_data None
       = inr req
       ∧ URL.Path (http.Url req) = "/api/products/p_1"
       ∧ URL.RawQuery (http.Url req) = "pageNum=2")
  ∧ (∃ req,
       newRequest test_client "POST" ("/api/products/" ++ "p_1/../p_2#" ++ "/archive")
         no_data None = inr req
       ∧ URL.Path (http.Url req) = "/api/products/p_1/../p_2"
       ∧ URL.Fragment (http.Url req) = "/archive"
       ∧ URL.String_ (http.Url req)
         = "https://test.bagelpay.io/api/products/p_1/../p_2#/archive")
  ∧ (∃ req,
       newRequest test_client "GET" ("/api/products/" ++ "a b") no_data None = inr req
       ∧ URL.Path (http.Url req) = "/api/products/a b"
       ∧ URL.String_ (http.Url req) = "https://test.bagelpay.io/api/products/a%20b")
  ∧ newRequest test_client "GET" ("/api/products/" ++ "%zz") no_data None = invalid.
Proof.
  intros Hbase. cbv zeta.
  assert (H0 : ∀ method prefix,
             interpolated c prefix id ""
               (newRequest c method (prefix ++ id ++ "") no_data None) →
             interpolated c prefix id ""
               (newRequest c method (prefix ++ id) no_data None)).
  { intros method prefix. rewrite append_nil_r. exact (fun H => H). }
  split; [split; [reflexivity |];
          apply H0, interpolated_built; try reflexivity; exact Hbase |].
  split; [split; [reflexivity |];
          apply interpolated_built; try reflexivity; exact Hbase |].
  split; [split; [reflexivity |];
          apply interpolated_built; try reflexivity; exact Hbase |].
  split; [split; [reflexivity |];
          apply H0, interpolated_built; try reflexivity; exact Hbase |].
  split; [split; [reflexivity |];
          apply interpolated_built; try reflexivity; exact Hbase |].
  split; [eexists; split; [vm_compute; reflexivity | split; reflexivity] |].
  split; [eexists; split; [vm_compute; reflexivity
                          | repeat split; vm_compute; reflexivity] |].
  split; [eexists; split; [vm_compute; reflexivity
                          | repeat split; vm_compute; reflexivity] |].
  vm_compute. reflexivity.
Qed.

Lemma path_id_unescaped_witness :
  default_base test_client
  ∧ interpolated test_client "/api/products/" "p_1/../p_2" ""
      (newRequest test_client "GET" ("/api/products/" ++ "p_1/../p_2") no_data None).
Proof.
  split; [left; reflexivity |].
  exact (proj2 (proj1 (path_id_unescaped (Product := Customer)
                         (Subscription := Customer) unreachable
                         test_client "p_1/../p_2" (or_introl eq_refl)))).
Defined.
(** C4.  The query of the request [makeRequest] builds is the encoding of
    the parameters its URL had already with those of the mapping added; a
    parameter of the mapping whose value is empty adds nothing, so that the
    pairs written under its key are those the URL had already, and none when
    the URL had no query: the key does not appear, not even with an empty
    value.  The mapping of the four list operations has no entry for a page
    number or size that is not positive, so that neither is written. *)
Theorem empty_query_parameters_omitted {T} `{GoValue T} (c : BagelPayClient)
    (method endpoint : string) (data : option T)
    (params : gmap string string) (req : http.Request) :
  newRequest c method endpoint data (Some params) = inr req →
  ∃ (u0 : URL.URL) (q : URL.Values),
    URL.Parse (baseURL c ++ endpoint) = Some u0
    ∧ q = add_params params (URL.Query u0)
    ∧ URL.RawQuery (http.Url req) = URL.Encode q
    ∧ (∀ key, params !! key = Some "" →
         q !! key = URL.Query u0 !! key
         ∧ (∀ x, (key, x) ∈ URL.pairs q ↔ (key, x) ∈ URL.pairs (URL.Query u0))
         ∧ (URL.RawQuery u0 = "" → ∀ x, (key, x) ∉ URL.pairs q))
    ∧ (∀ pageNum pageSize, params = page_params pageNum pageSize →
         URL.RawQuery u0 = "" →
         (pageNum ≤ 0 → ∀ x, ("pageNum", x) ∉ URL.pairs q)
         ∧ (pageSize ≤ 0 → ∀ x, ("pageSize", x) ∉ URL.pairs q)
         ∧ (0 < pageNum → ∀ x, ("pageNum", x) ∈ URL.pairs q ↔ x = Itoa pageNum)
         ∧ (0 < pageSize → ∀ x, ("pageSize", x) ∈ URL.pairs q ↔ x = Itoa pageSize))
    ∧ (∀ (PL TL SL CL : Type) (H1 : GoValue PL) (H2 : GoValue TL)
         (H3 : GoValue SL) (H4 : GoValue CL) Do pageNum pageSize,
         ListProducts (ProductListResponse := PL) Do c pageNum pageSize
         = finish id (makeRequest Do c "GET" "/api/products/list" no_data
                        (Some (page_params pageNum pageSize)))
         ∧ ListTransactions (TransactionListResponse := TL) Do c pageNum pageSize
           = finish id (makeRequest Do c "GET" "/api/transactions/list" no_data
                          (Some (page_params pageNum pageSize)))
         ∧ ListSubscriptions (SubscriptionListResponse := SL) Do c pageNum pageSize
           = finish id (makeRequest Do c "GET" "/api/subscriptions/list" no_data
                          (Some (page_params pageNum pageSize)))
         ∧ ListCustomers (CustomerListResponse := CL) Do c pageNum pageSize
           = finish id (makeRequest Do c "GET" "/api/customers/list" no_data
                          (Some (page_params pageNum pageSize)))).
Proof.
  intros Hreq. apply newRequest_query in Hreq as [u0 [HP HQ]].
  exists u0, (add_params params (URL.Query u0)).
  assert (Hnone : URL.RawQuery u0 = "" → ∀ key, URL.Query u0 !! key = None).
  { intros Hr key. unfold URL.Query. rewrite Hr. apply lookup_empty. }
  assert (Hsame : ∀ key, params !! key = Some "" ∨ params !! key = None →
            add_params params (URL.Query u0) !! key = URL.Query u0 !! key).
  { intros key Hk. rewrite add_params_lookup. destruct Hk as [-> | ->]; reflexivity. }
  assert (Habsent : URL.RawQuery u0 = "" →
            ∀ key, params !! key = Some "" ∨ params !! key = None →
            ∀ x, (key, x) ∉ URL.pairs (add_params params (URL.Query u0))).
  { intros Hr key Hk x Hin. apply elem_of_pairs in Hin as [vs [Hq _]].
    rewrite (Hsame key Hk), (Hnone Hr) in Hq. discriminate. }
  assert (Hpresent : URL.RawQuery u0 = "" → ∀ key v,
            params !! key = Some v → v ≠ "" →
            ∀ x, (key, x) ∈ URL.pairs (add_params params (URL.Query u0)) ↔ x = v).
  { intros Hr key v Hk Hv x. rewrite elem_of_pairs, add_params_lookup, Hk.
    destruct (String.eqb_spec v ""); [contradiction |].
    rewrite (Hnone Hr). simpl. split.
    - intros [vs [[= <-] Hx]]. apply list_elem_of_singleton in Hx. exact Hx.
    - intros ->. eexists. split; [reflexivity |]. apply list_elem_of_singleton.
      reflexivity. }
  split; [exact HP |]. split; [reflexivity |]. split; [exact HQ |].
  split; [| split].
  - intros key Hk. split; [apply Hsame; left; exact Hk |]. split.
    + apply pairs_same_key. apply Hsame. left. exact Hk.
    + intros Hr. apply Habsent; [exact Hr | left; exact Hk].
  - intros pageNum pageSize -> Hr.
    destruct (page_params_lookup pageNum pageSize) as [Hn Hs].
    split; [| split; [| split]].
    + intros Hle. apply Habsent; [exact Hr |]. right. rewrite Hn.
      destruct (0 <? pageNum) eqn:E; [lia | reflexivity].
    + intros Hle. apply Habsent; [exact Hr |]. right. rewrite Hs.
      destruct (0 <? pageSize) eqn:E; [lia | reflexivity].
    + intros Hlt. apply Hpresent; [exact Hr | | apply Itoa_not_empty].
      rewrite Hn. destruct (0 <? pageNum) eqn:E; [reflexivity | lia].
    + intros Hlt. apply Hpresent; [exact Hr | | apply Itoa_not_empty].
      rewrite Hs. destruct (0 <? pageSize) eqn:E; [reflexivity | lia].
  - intros. repeat split.
Qed.

Lemma empty_query_parameters_omitted_witness :
  newRequest test_client "GET" "/api/products/list" no_data
    (Some (page_params 0 5)) = inr size_only_request
  ∧ ∃ (u0 : URL.URL) (q : URL.Values),
      URL.Parse (baseURL test_client ++ "/api/products/list") = Some u0
      ∧ q = add_params (page_params 0 5) (URL.Query u0)
      ∧ URL.RawQuery (http.Url size_only_request) = URL.Encode q
      ∧ (∀ key, page_params 0 5 !! key = Some "" →
           q !! key = URL.Query u0 !! key
           ∧ (∀ x, (key, x) ∈ URL.pairs q ↔ (key, x) ∈ URL.pairs (URL.Query u0))
           ∧ (URL.RawQuery u0 = "" → ∀ x, (key, x) ∉ URL.pairs q))
      ∧ (∀ pageNum pageSize, page_params 0 5 = page_params pageNum pageSize →
           URL.RawQuery u0 = "" →
           (pageNum ≤ 0 → ∀ x, ("pageNum", x) ∉ URL.pairs q)
           ∧ (pageSize ≤ 0 → ∀ x, ("pageSize", x) ∉ URL.pairs q)
           ∧ (0 < pageNum → ∀ x, ("pageNum", x) ∈ URL.pairs q ↔ x = Itoa pageNum)
           ∧ (0 < pageSize → ∀ x, ("pageSize", x) ∈ URL.pairs q ↔ x = Itoa pageSize))
      ∧ (∀ (PL TL SL CL : Type) (H1 : GoValue PL) (H2 : GoValue TL)
           (H3 : GoValue SL) (H4 : GoValue CL) Do pageNum pageSize,
           ListProducts (ProductListResponse := PL) Do test_client pageNum pageSize
           = finish id (makeRequest Do test_client "GET" "/api/products/list" no_data
                          (Some (page_params pageNum pageSize)))
           ∧ ListTransactions (TransactionListResponse := TL) Do test_client
               pageNum pageSize
             = finish id (makeRequest Do test_client "GET" "/api/transactions/list"
                            no_data (Some (page_params pageNum pageSize)))
           ∧ ListSubscriptions (SubscriptionListResponse := SL) Do test_client
               pageNum pageSize
             = finish id (makeRequest Do test_client "GET" "/api/subscriptions/list"
                            no_data (Some (page_params pageNum pageSize)))
           ∧ ListCustomers (CustomerListResponse := CL) Do test_client
               pageNum pageSize
             = finish id (makeRequest Do test_client "GET" "/api/customers/list"
                            no_data (Some (page_params pageNum pageSize)))).
Proof.
  split; [vm_compute; reflexivity |].
  apply (empty_query_parameters_omitted test_client "GET" "/api/products/list"
           no_data (page_params 0 5) size_only_request).
  vm_compute; reflexivity.
Defined.

(** A parameter with an empty value next to one with a value: the query
    written holds the second alone. *)
Example empty_parameter_not_written :
  ∃ req, newRequest test_client "GET" "/api/products/list" no_data
           (Some {[ "pageNum" := ""; "pageSize" := "5" ]}) = inr req
         ∧ URL.RawQuery (http.Url req) = "pageSize=5".
Proof. eexists. split; [vm_compute; reflexivity | reflexivity]. Qed.

End Requests.

(** ** The webhook verifier *)

Section Verifier.
Import Bytes hmac Webhook.

Lemma val_inj (a b : ascii) : val a = val b → a = b.
Proof.
  unfold val. intros H. apply N2Z.inj in H.
  rewrite <- (ascii_N_embedding a), <- (ascii_N_embedding b), H. reflexivity.
Qed.

Lemma val_range (c : ascii) : 0 ≤ val c < 256.
Proof.
  unfold val. pose proof (N_ascii_bounded c) as Hb. lia.
Qed.

(** The loop of the comparison leaves zero when nothing was set before and
    the two texts, of one length, are the same. *)
Lemma xor_all_zero (x y : string) (v : Z) :
  String.length x = String.length y →
  xor_all x y v = 0 ↔ v = 0 ∧ x = y.
Proof.
  revert y v. induction x as [| a x IH]; intros [| b y] v Hlen; try discriminate.
  - simpl. split; [intros ->; split; reflexivity | intros [-> _]; reflexivity].
  - simpl. injection Hlen as Hlen. rewrite (IH y _ Hlen).
    rewrite Z.lor_eq_0_iff, Z.lxor_eq_0_iff. split.
    + intros [[-> Hab] ->]. apply val_inj in Hab as ->. split; reflexivity.
    + intros [-> [= -> ->]]. repeat split; reflexivity.
Qed.

(** [hmac.Equal] holds of two texts when they are the same text. *)
Lemma Equal_iff (x y : string) : Equal x y = true ↔ x = y.
Proof.
  unfold Equal, ConstantTimeCompare.
  destruct (Nat.eqb_spec (String.length x) (String.length y)) as [Hl | Hl]; simpl.
  - pose proof (xor_all_zero x y 0 Hl) as Hx.
    destruct (xor_all x y 0 =? 0) eqn:E.
    + apply Z.eqb_eq in E. split; [intros _; apply Hx, E | reflexivity].
    + apply Z.eqb_neq in E. split; [discriminate |].
      intros ->. exfalso. apply E, Hx. split; reflexivity.
  - split; [discriminate |]. intros ->. contradiction.
Qed.

(** The verifier accepts a signature when it is the hexadecimal text of
    the HMAC-SHA256, under the secret, of the timestamp, a point and the
    payload. *)
Lemma verifyWebhookSignature_iff (payload timestamp signature secret : string) :
  verifyWebhookSignature payload timestamp signature secret = true
  ↔ signature
    = EncodeToString (hmac.sha256_mac secret (timestamp ++ "." ++ payload)).
Proof.
  unfold verifyWebhookSignature. rewrite Equal_iff. split; congruence.
Qed.

(** The signature computed from the same secret, timestamp and payload is
    accepted. *)
Lemma verifyWebhookSignature_recomputed (payload timestamp secret : string) :
  verifyWebhookSignature payload timestamp
    (EncodeToString (hmac.sha256_mac secret (timestamp ++ "." ++ payload)))
    secret = true.
Proof. apply verifyWebhookSignature_iff. reflexivity. Qed.

Lemma one_byte_altered_neq (s s' : string) : one_byte_altered s s' → s ≠ s'.
Proof.
  intros (a & c & c' & b & -> & -> & Hc) H.
  induction a as [| x a IH]; simpl in H.
  - injection H as H. contradiction.
  - apply IH. injection H as H. exact H.
Qed.

(** A signature that was accepted is refused once a byte of it is
    altered. *)
Lemma altered_signature_refused (payload timestamp signature signature' secret : string) :
  verifyWebhookSignature payload timestamp signature secret = true →
  one_byte_altered signature signature' →
  verifyWebhookSignature payload timestamp signature' secret = false.
Proof.
  intros Hv Ha. apply verifyWebhookSignature_iff in Hv.
  destruct (verifyWebhookSignature payload timestamp signature' secret) eqn:E;
    [| reflexivity].
  apply verifyWebhookSignature_iff in E.
  exfalso. apply (one_byte_altered_neq _ _ Ha). congruence.
Qed.

Lemma hex_digit_inj (m n : Z) :
  0 ≤ m < 16 → 0 ≤ n < 16 → hex_digit m = hex_digit n → m = n.
Proof.
  intros Hm Hn H.
  assert (Hc : ∀ k, 0 ≤ k < 16 →
            val (hex_digit k) = if k <? 10 then 48 + k else 87 + k).
  { intros k Hk. unfold hex_digit, of_val, val.
    destruct (k <? 10) eqn:E; rewrite N_ascii_embedding; lia. }
  apply (f_equal val) in H. rewrite (Hc m Hm), (Hc n Hn) in H.
  destruct (m <? 10) eqn:Em, (n <? 10) eqn:En; lia.
Qed.

Lemma EncodeToString_inj (s s' : string) :
  EncodeToString s = EncodeToString s' → s = s'.
Proof.
  revert s'. induction s as [| c s IH]; intros [| c' s'] H; try discriminate;
    [reflexivity |].
  simpl in H. injection H as Hhi Hlo Hrest.
  pose proof (val_range c) as Hc. pose proof (val_range c') as Hc'.
  apply hex_digit_inj in Hhi; [| Z.div_mod_to_equations; lia ..].
  apply hex_digit_inj in Hlo; [| Z.div_mod_to_equations; lia ..].
  f_equal; [apply val_inj; Z.div_mod_to_equations; lia | apply IH; exact Hrest].
Qed.

(** With the signature of one message, another message is accepted when,
    and only when, HMAC-SHA256 gives the two the same digest. *)
Lemma other_message_accepted_iff
    (payload timestamp payload' timestamp' secret : string) :
  verifyWebhookSignature payload' timestamp'
    (EncodeToString (hmac.sha256_mac secret (timestamp ++ "." ++ payload)))
    secret = true
  ↔ hmac.sha256_mac secret (timestamp' ++ "." ++ payload')
    = hmac.sha256_mac secret (timestamp ++ "." ++ payload).
Proof.
  rewrite verifyWebhookSignature_iff. split.
  - intros H. apply EncodeToString_inj in H. congruence.
  - intros ->. reflexivity.
Qed.

(** On the sample: the signature is accepted; with one byte of the payload,
    of the timestamp or of the signature altered, it is refused. *)
Example verifyWebhookSignature_sample :
  verifyWebhookSignature sample_payload sample_timestamp sample_signature
    WEBHOOK_SECRET = true
  ∧ verifyWebhookSignature (requote "{'event_type':'checkout.completeD'}")
      sample_timestamp sample_signature WEBHOOK_SECRET = false
  ∧ verifyWebhookSignature sample_payload "1700000001" sample_signature
      WEBHOOK_SECRET = false
  ∧ verifyWebhookSignature sample_payload sample_timestamp
      "598620d802715b88a2db01e1ade2828e43977df2133d5393845e2e142f59e611"
      WEBHOOK_SECRET = false.
Proof. repeat split; vm_compute; reflexivity. Qed.

End Verifier.

(** ** UTF-8: decoding and encoding a well-formed sequence *)

Section UTF8Facts.
Import Bytes UTF8.

Lemma of_val_val (c : ascii) : of_val (val c) = c.
Proof. unfold of_val, val. rewrite N2Z.id. apply ascii_N_embedding. Qed.

Lemma of_val_eq (z : Z) (c : ascii) : z = val c → of_val z = c.
Proof. intros ->. apply of_val_val. Qed.

Lemma val_of_val (z : Z) : 0 ≤ z < 256 → val (of_val z) = z.
Proof.
  intros Hz. unfold of_val, val. rewrite N_ascii_embedding; lia.
Qed.

Lemma in_range_spec (lo hi : Z) (c : ascii) :
  in_range lo hi c = true ↔ lo ≤ val c ≤ hi.
Proof. unfold in_range. rewrite andb_true_iff, !Z.leb_le. reflexivity. Qed.

Lemma substring_none (s : string) : substring 0 0 s = "".
Proof. destruct s; reflexivity. Qed.

Lemma is_error_wide (rr : Z) (size : nat) : size ≠ 1%nat → is_error rr size = false.
Proof.
  intros Hs. unfold is_error. destruct (Nat.eqb_spec size 1); [contradiction |].
  apply andb_false_r.
Qed.

End UTF8Facts.

(** Boolean tests on numbers, as facts about the numbers. *)
Ltac to_props :=
  repeat match goal with
    | H : _ && _ = true |- _ => apply andb_true_iff in H; destruct H
    | H : Bytes.in_range _ _ _ = true |- _ => apply in_range_spec in H
    | H : UTF8.cont _ = true |- _ => apply in_range_spec in H
    | H : (_ <? _) = true |- _ => apply Z.ltb_lt in H
    | H : (_ <? _) = false |- _ => apply Z.ltb_ge in H
    | H : (_ <=? _) = true |- _ => apply Z.leb_le in H
    | H : (_ <=? _) = false |- _ => apply Z.leb_gt in H
    | H : (_ =? _) = true |- _ => apply Z.eqb_eq in H
    | H : (_ =? _) = false |- _ => apply Z.eqb_neq in H
    end.

(** Decide the comparisons of numbers in the goal from the context. *)
Ltac decide_tests :=
  repeat match goal with
    | |- context [?a <? ?b] =>
        first [ rewrite (proj2 (Z.ltb_lt a b)) by (Z.div_mod_to_equations; lia)
              | rewrite (proj2 (Z.ltb_ge a b)) by (Z.div_mod_to_equations; lia) ]
    | |- context [?a <=? ?b] =>
        first [ rewrite (proj2 (Z.leb_le a b)) by (Z.div_mod_to_equations; lia)
              | rewrite (proj2 (Z.leb_gt a b)) by (Z.div_mod_to_equations; lia) ]
    | |- context [?a =? ?b] =>
        first [ rewrite (proj2 (Z.eqb_eq a b)) by (Z.div_mod_to_equations; lia)
              | rewrite (proj2 (Z.eqb_neq a b)) by (Z.div_mod_to_equations; lia) ]
    end.

Section UTF8Sequences.
Import Bytes UTF8.

(** What one step of decoding that met no ill-formed byte has read: the
    encoding of the rune it returns, which decodes to that rune before any
    text. *)
Lemma DecodeRune_encoded (c0 : ascii) (r0 : string) (rr : Z) (size : nat)
    (rest : string) :
  128 ≤ val c0 →
  DecodeRune (String c0 r0) = Some (rr, size, rest) →
  is_error rr size = false →
  String c0 r0 = EncodeRune rr ++ rest
  ∧ substring 0 size (String c0 r0) = EncodeRune rr
  ∧ 128 ≤ rr
  ∧ (∃ c t, EncodeRune rr = String c t ∧ 128 ≤ val c)
  ∧ (∀ Y, DecodeRune (EncodeRune rr ++ Y) = Some (rr, size, Y)).
Proof.
  intros H0 HD He.
  pose proof (val_range c0) as Hc0.
  assert (Hbad : Some (RuneError, 1%nat, r0) = Some (rr, size, rest) → False).
  { intros [= <- <- <-]. discriminate He. }
  unfold DecodeRune in HD.
  rewrite (proj2 (Z.ltb_ge _ _) H0) in HD.
  destruct (in_range 194 223 c0) eqn:E1.
  { destruct r0 as [| c1 r1]; [destruct (Hbad HD) |].
    destruct (cont c1) eqn:E2; [| destruct (Hbad HD)].
    injection HD as <- <- <-. to_props.
    pose proof (val_range c1) as Hc1.
    assert (Henc : EncodeRune ((val c0 - 192) * 64 + (val c1 - 128))
                   = String c0 (String c1 "")).
    { unfold EncodeRune, RuneError. decide_tests. simpl. decide_tests.
      repeat apply (f_equal2 String); try reflexivity;
        apply of_val_eq; Z.div_mod_to_equations; lia. }
    rewrite Henc. split; [reflexivity |].
    split; [simpl; rewrite substring_none; reflexivity |].
    split; [lia |]. split.
    - exists c0, (String c1 ""). split; [reflexivity | lia].
    - intros Y. change (String c0 (String c1 "") ++ Y) with (String c0 (String c1 Y)).
      unfold DecodeRune. rewrite (proj2 (Z.ltb_ge _ _) H0).
      rewrite (proj2 (in_range_spec 194 223 c0)) by lia.
      unfold cont. rewrite (proj2 (in_range_spec 128 191 c1)) by lia.
      reflexivity. }
  destruct (in_range 224 239 c0) eqn:E3.
  { destruct r0 as [| c1 [| c2 r2]]; [destruct (Hbad HD) .. |].
    destruct (in_range _ _ c1 && cont c2) eqn:E2; [| destruct (Hbad HD)].
    injection HD as <- <- <-.
    pose proof (val_range c1) as Hc1. pose proof (val_range c2) as Hc2.
    assert (Hb : (if val c0 =? 224 then 160 else 128) ≤ val c1
                 ≤ (if val c0 =? 237 then 159 else 191) ∧ 128 ≤ val c2 ≤ 191).
    { to_props. split; assumption. }
    destruct Hb as [Hb1 Hb2]. to_props.
    assert (Henc : EncodeRune ((val c0 - 224) * 4096 + (val c1 - 128) * 64
                               + (val c2 - 128))
                   = String c0 (String c1 (String c2 ""))).
    { destruct (Z.eqb_spec (val c0) 224), (Z.eqb_spec (val c0) 237),
        (Z.ltb_spec (val c0) 237);
        try (exfalso; lia);
        unfold EncodeRune, RuneError; decide_tests; simpl; decide_tests;
        repeat apply (f_equal2 String); try reflexivity;
        apply of_val_eq; Z.div_mod_to_equations; lia. }
    rewrite Henc. split; [reflexivity |].
    split; [simpl; rewrite substring_none; reflexivity |].
    split; [destruct (Z.eqb_spec (val c0) 224); lia |]. split.
    - exists c0, (String c1 (String c2 "")). split; [reflexivity | lia].
    - intros Y.
      change (String c0 (String c1 (String c2 "")) ++ Y)
        with (String c0 (String c1 (String c2 Y))).
      unfold DecodeRune. rewrite (proj2 (Z.ltb_ge _ _) H0), E1.
      rewrite (proj2 (in_range_spec 224 239 c0)) by lia.
      rewrite (proj2 (in_range_spec _ _ c1)) by exact Hb1.
      unfold cont. rewrite (proj2 (in_range_spec 128 191 c2)) by lia.
      reflexivity. }
  destruct (in_range 240 244 c0) eqn:E4; [| destruct (Hbad HD)].
  destruct r0 as [| c1 [| c2 [| c3 r3]]]; [destruct (Hbad HD) .. |].
  destruct (in_range _ _ c1 && cont c2 && cont c3) eqn:E2; [| destruct (Hbad HD)].
  injection HD as <- <- <-.
  pose proof (val_range c1) as Hc1. pose proof (val_range c2) as Hc2.
  pose proof (val_range c3) as Hc3.
  assert (Hb : (if val c0 =? 240 then 144 else 128) ≤ val c1
               ≤ (if val c0 =? 244 then 143 else 191)
               ∧ 128 ≤ val c2 ≤ 191 ∧ 128 ≤ val c3 ≤ 191).
  { to_props. repeat split; lia. }
  destruct Hb as [Hb1 [Hb2 Hb3]]. to_props.
  assert (Henc : EncodeRune ((val c0 - 240) * 262144 + (val c1 - 128) * 4096
                             + (val c2 - 128) * 64 + (val c3 - 128))
                 = String c0 (String c1 (String c2 (String c3 "")))).
  { destruct (Z.eqb_spec (val c0) 240), (Z.eqb_spec (val c0) 244);
      try (exfalso; lia);
      unfold EncodeRune, RuneError; decide_tests; simpl; decide_tests;
      repeat apply (f_equal2 String); try reflexivity;
      apply of_val_eq; Z.div_mod_to_equations; lia. }
  rewrite Henc. split; [reflexivity |].
    split; [simpl; rewrite substring_none; reflexivity |].
  split; [destruct (Z.eqb_spec (val c0) 240); lia |]. split.
  - exists c0, (String c1 (String c2 (String c3 ""))). split; [reflexivity | lia].
  - intros Y.
    change (String c0 (String c1 (String c2 (String c3 ""))) ++ Y)
      with (String c0 (String c1 (String c2 (String c3 Y)))).
    unfold DecodeRune. rewrite (proj2 (Z.ltb_ge _ _) H0), E1, E3.
    rewrite (proj2 (in_range_spec 240 244 c0)) by lia.
    rewrite (proj2 (in_range_spec _ _ c1)) by exact Hb1.
    unfold cont. rewrite (proj2 (in_range_spec 128 191 c2)) by lia.
    rewrite (proj2 (in_range_spec 128 191 c3)) by lia.
    reflexivity.
Qed.

End UTF8Sequences.

(** ** JSON: reading back what was written *)

Section JSONRoundTrip.
Import Bytes UTF8 JSON.

(** An ASCII character as [quote] writes it is read back as itself. *)
Lemma unquote_quote_ascii (c : ascii) (n : nat) (X : string) :
  val c < 128 →
  unquote (S n) (quote_ascii c ++ X)
  = '(t, rest) ← unquote n X; Some (String c t, rest).
Proof.
  destruct c as [[] [] [] [] [] [] [] []]; intros Hc;
    try (exfalso; vm_compute in Hc; discriminate Hc); reflexivity.
Qed.

(** A byte outside ASCII starts a sequence that is decoded and encoded
    again. *)
Lemma unquote_high (c : ascii) (r : string) (n : nat) :
  128 ≤ val c →
  unquote (S n) (String c r)
  = '(rr, _, r') ← DecodeRune (String c r);
    '(t, rest) ← unquote n r';
    Some (EncodeRune rr ++ t, rest).
Proof.
  intros Hc. cbn [unquote].
  destruct (Ascii.eqb_spec c dquote) as [-> | _]; [vm_compute in Hc; contradiction |].
  destruct (Ascii.eqb_spec c "\") as [-> | _]; [vm_compute in Hc; contradiction |].
  rewrite (proj2 (Z.ltb_ge (val c) 32)) by lia.
  rewrite (proj2 (Z.ltb_ge (val c) 128)) by lia.
  reflexivity.
Qed.

Lemma unquote_end (n : nat) (rest : string) :
  unquote (S n) (String dquote rest) = Some ("", rest).
Proof. reflexivity. Qed.

Lemma valid_fuel_empty (s : string) : valid_fuel 0 s = true → s = "".
Proof. destruct s as [| c r]; [reflexivity |]. simpl.
  unfold DecodeRune. repeat case_match; discriminate. Qed.

Lemma length_app_s (a b : string) :
  String.length (a ++ b) = (String.length a + String.length b)%nat.
Proof.
  induction a as [| x a IH]; [reflexivity |].
  change (S (String.length (a ++ b)) = S (String.length a + String.length b)).
  f_equal. exact IH.
Qed.

Lemma quote_ascii_length (c : ascii) :
  val c < 128 → (1 ≤ String.length (quote_ascii c))%nat.
Proof.
  destruct c as [[] [] [] [] [] [] [] []]; intros Hc;
    try (exfalso; vm_compute in Hc; discriminate Hc); vm_compute;
    repeat constructor.
Qed.

(** The text [quote] writes for a well-formed string, read back with more
    fuel than it is long. *)
Lemma unquote_quote_body (m : nat) (s : string) (n : nat) (rest : string) :
  valid_fuel m s = true →
  (String.length (quote_body m s) < n)%nat →
  unquote n (quote_body m s ++ String dquote rest) = Some (s, rest).
Proof.
  revert s n. induction m as [| m IH]; intros s n Hv Hn.
  - apply valid_fuel_empty in Hv as ->.
    destruct n as [| n]; [lia |]. apply unquote_end.
  - destruct n as [| n]; [lia |].
    destruct s as [| c r]; [apply unquote_end |].
    destruct (Z.ltb_spec (val c) 128) as [Hlt | Hge].
    + assert (Hr : valid_fuel m r = true).
      { cbn [valid_fuel] in Hv. unfold DecodeRune in Hv.
        rewrite (proj2 (Z.ltb_lt _ _) Hlt) in Hv.
        apply andb_true_iff in Hv as [_ Hv]. exact Hv. }
      cbn [quote_body] in Hn |- *. rewrite (proj2 (Z.ltb_lt _ _) Hlt) in Hn |- *.
      rewrite length_app_s in Hn. pose proof (quote_ascii_length c Hlt).
      rewrite app_assoc_s, unquote_quote_ascii by exact Hlt.
      rewrite (IH r n Hr) by lia. reflexivity.
    + cbn [valid_fuel] in Hv.
      destruct (DecodeRune (String c r)) as [[[rr size] rest'] |] eqn:HD;
        [| exfalso; unfold DecodeRune in HD; repeat case_match; discriminate].
      apply andb_true_iff in Hv as [He Hr]. apply negb_true_iff in He.
      destruct (DecodeRune_encoded c r rr size rest' Hge HD He)
        as (Hs & Hsub & Hrr & (c' & t & Henc & Hc') & Hdec).
      cbn [quote_body] in Hn |- *.
      rewrite (proj2 (Z.ltb_ge _ _) Hge), HD, He in Hn |- *.
      rewrite length_app_s in Hn.
      destruct ((rr =? 8232) || (rr =? 8233)) eqn:Esep.
      * rewrite Hs.
        apply orb_true_iff in Esep as [E | E]; apply Z.eqb_eq in E; subst rr;
          rewrite length_app_s in Hn; cbn [String.length] in Hn;
          rewrite app_assoc_s.
        -- change (unquote (S n) _)
             with ('(t, rest0) ← unquote n (quote_body m rest' ++ String dquote rest);
                   Some (EncodeRune 8232 ++ t, rest0)).
           rewrite (IH rest' n Hr) by lia. reflexivity.
        -- change (unquote (S n) _)
             with ('(t, rest0) ← unquote n (quote_body m rest' ++ String dquote rest);
                   Some (EncodeRune 8233 ++ t, rest0)).
           rewrite (IH rest' n Hr) by lia. reflexivity.
      * rewrite Hsub in Hn |- *. rewrite Henc in Hn. cbn [String.length] in Hn.
        rewrite app_assoc_s. rewrite Henc at 1.
        change (String c' t ++ ?W) with (String c' (t ++ W)).
        rewrite unquote_high by exact Hc'.
        change (String c' (t ++ ?W)) with (String c' t ++ W).
        rewrite <- Henc, Hdec. cbn [mbind option_bind].
        rewrite (IH rest' n Hr) by lia. cbn [mbind option_bind].
        rewrite <- Hs. reflexivity.
Qed.

(** A string literal as [quote] writes it, read back. *)
Lemma parse_string_quote (s rest : string) :
  Valid s = true → parse_string (quote s ++ rest) = Some (s, rest).
Proof.
  intros Hv. unfold quote.
  change (String dquote ?a ++ rest) with (String dquote (a ++ rest)).
  cbn [parse_string]. rewrite Ascii.eqb_refl.
  rewrite app_assoc_s.
  change (String dquote "" ++ rest) with (String dquote rest).
  apply unquote_quote_body; [exact Hv |].
  rewrite length_app_s. cbn [String.length]. lia.
Qed.

Lemma print_JArr (l : list json) : print (JArr l) = "[" ++ print_elems l ++ "]".
Proof. reflexivity. Qed.

Lemma print_JObj (l : list (string * json)) :
  print (JObj l) = "{" ++ print_members l ++ "}".
Proof. reflexivity. Qed.

Lemma print_head (d : nat) (j : json) :
  readable d j → ∃ c t, print j = String c t ∧ opens c.
Proof.
  intros H. destruct H as [d | d [|] | d s _ | d l _ | d l _].
  - exists "n"%char, "ull". repeat split.
  - exists "t"%char, "rue". repeat split.
  - exists "f"%char, "alse". repeat split.
  - eexists dquote, _. split; [reflexivity | repeat split].
  - rewrite print_JArr. eexists "["%char, _. split; [reflexivity | repeat split].
  - rewrite print_JObj. eexists "{"%char, _. split; [reflexivity | repeat split].
Qed.

Lemma skip_ws_opens (c : ascii) (t : string) :
  opens c → skip_ws (String c t) = String c t.
Proof. intros [H _]. cbn [skip_ws]. rewrite H. reflexivity. Qed.

Lemma skip_ws_print (d : nat) (j : json) (R : string) :
  readable d j → skip_ws (print j ++ R) = print j ++ R.
Proof.
  intros H. destruct (print_head d j H) as (c & t & -> & Hc).
  change (String c t ++ R) with (String c (t ++ R)). apply skip_ws_opens, Hc.
Qed.

Section Containers.
Variable d : nat.
Variable pv : string → option (json * string).
Hypothesis pv_print :
  ∀ v, readable d v → ∀ R, pv (print v ++ R) = Some (v, R).

Lemma parse_elems_more (n : nat) (s : string) (v : json) (r : string) :
  pv s = Some (v, String "," r) →
  parse_elems pv (S n) s
  = '(vs, r'') ← parse_elems pv n (skip_ws r); Some (v :: vs, r'').
Proof. intros H. cbn [parse_elems]. rewrite H. reflexivity. Qed.

Lemma parse_elems_last (n : nat) (s : string) (v : json) (r : string) :
  pv s = Some (v, String "]" r) → parse_elems pv (S n) s = Some ([v], r).
Proof. intros H. cbn [parse_elems]. rewrite H. reflexivity. Qed.

Lemma parse_members_more (n : nat) (s k : string) (v : json) (r0 r : string) :
  parse_string s = Some (k, String ":" r0) →
  pv (skip_ws r0) = Some (v, String "," r) →
  parse_members pv (S n) s
  = '(ms, r'') ← parse_members pv n (skip_ws r); Some ((k, v) :: ms, r'').
Proof.
  intros Hk H. cbn [parse_members]. rewrite Hk. cbn [mbind option_bind].
  change (skip_ws (String ":" r0)) with (String ":" r0). cbn beta iota.
  rewrite Ascii.eqb_refl, H. reflexivity.
Qed.

Lemma parse_members_last (n : nat) (s k : string) (v : json) (r0 r : string) :
  parse_string s = Some (k, String ":" r0) →
  pv (skip_ws r0) = Some (v, String "}" r) →
  parse_members pv (S n) s = Some ([(k, v)], r).
Proof.
  intros Hk H. cbn [parse_members]. rewrite Hk. cbn [mbind option_bind].
  change (skip_ws (String ":" r0)) with (String ":" r0). cbn beta iota.
  rewrite Ascii.eqb_refl, H. reflexivity.
Qed.

Lemma print_elems_cons (v v' : json) (l : list json) :
  print_elems (v :: v' :: l) = print v ++ String "," (print_elems (v' :: l)).
Proof. reflexivity. Qed.

Lemma print_members_cons (k : string) (v : json) (kv : string * json)
    (l : list (string * json)) :
  print_members ((k, v) :: kv :: l)
  = quote k ++ String ":" (print v ++ String "," (print_members (kv :: l))).
Proof. reflexivity. Qed.

Lemma print_members_one (k : string) (v : json) :
  print_members [(k, v)] = quote k ++ String ":" (print v).
Proof. reflexivity. Qed.

Lemma skip_ws_elems (l : list json) (R : string) :
  l ≠ [] → Forall (readable d) l →
  skip_ws (print_elems l ++ R) = print_elems l ++ R.
Proof.
  destruct l as [| v [| v' l']]; [contradiction | |]; intros _ Hl;
    apply Forall_cons in Hl as [Hv _].
  - apply (skip_ws_print d), Hv.
  - rewrite print_elems_cons, app_assoc_s. apply (skip_ws_print d), Hv.
Qed.

Lemma skip_ws_members (l : list (string * json)) (R : string) :
  l ≠ [] → skip_ws (print_members l ++ R) = print_members l ++ R.
Proof.
  destruct l as [| [k v] [| kv l']]; [contradiction | |]; intros _; reflexivity.
Qed.

Lemma parse_elems_print (l : list json) (n : nat) (rest : string) :
  l ≠ [] → Forall (readable d) l → (length l ≤ n)%nat →
  parse_elems pv n (print_elems l ++ String "]" rest) = Some (l, rest).
Proof.
  revert n. induction l as [| v l IH]; intros n Hne Hl Hn; [contradiction |].
  destruct n as [| n]; [simpl in Hn; lia |].
  apply Forall_cons in Hl as [Hv Hl].
  destruct l as [| v' l'].
  - apply parse_elems_last. apply (pv_print v Hv).
  - rewrite print_elems_cons, app_assoc_s.
    rewrite (parse_elems_more n _ v (print_elems (v' :: l') ++ String "]" rest))
      by apply (pv_print v Hv).
    rewrite skip_ws_elems by (discriminate || exact Hl).
    rewrite IH; [reflexivity | discriminate | exact Hl | simpl in Hn |- *; lia].
Qed.

Lemma parse_members_print (l : list (string * json)) (n : nat) (rest : string) :
  l ≠ [] → Forall (fun kv => Valid kv.1 = true ∧ readable d kv.2) l →
  (length l ≤ n)%nat →
  parse_members pv n (print_members l ++ String "}" rest) = Some (l, rest).
Proof.
  revert n. induction l as [| [k v] l IH]; intros n Hne Hl Hn; [contradiction |].
  destruct n as [| n]; [simpl in Hn; lia |].
  apply Forall_cons in Hl as [[Hk Hv] Hl]. cbn [fst snd] in Hk, Hv.
  destruct l as [| kv l'].
  - rewrite print_members_one, app_assoc_s.
    apply (parse_members_last n _ k v (print v ++ String "}" rest)).
    + apply (parse_string_quote k _ Hk).
    + rewrite (skip_ws_print d v _ Hv). apply (pv_print v Hv).
  - rewrite print_members_cons, app_assoc_s.
    change (String ":" ?a ++ ?b) with (String ":" (a ++ b)).
    rewrite app_assoc_s.
    change (String "," ?a ++ ?b) with (String "," (a ++ b)).
    rewrite (parse_members_more n _ k v
               (print v ++ String "," (print_members (kv :: l') ++ String "}" rest))
               (print_members (kv :: l') ++ String "}" rest)).
    + rewrite skip_ws_members by discriminate.
      rewrite IH; [reflexivity | discriminate | exact Hl | simpl in Hn |- *; lia].
    + apply (parse_string_quote k _ Hk).
    + rewrite (skip_ws_print d v _ Hv). apply (pv_print v Hv).
Qed.

End Containers.

Lemma elems_head (d : nat) (l : list json) (R : string) :
  l ≠ [] → Forall (readable d) l →
  ∃ c t, print_elems l ++ R = String c t ∧ opens c.
Proof.
  destruct l as [| v [| v' l']]; [contradiction | |]; intros _ Hl;
    apply Forall_cons in Hl as [Hv _];
    destruct (print_head d v Hv) as (c & t & Hp & Hc).
  - exists c, (t ++ R). split; [| exact Hc]. cbn [print_elems]. rewrite Hp. reflexivity.
  - eexists c, _. split; [| exact Hc]. rewrite print_elems_cons, Hp. reflexivity.
Qed.

Lemma members_head (l : list (string * json)) (R : string) :
  l ≠ [] → ∃ t, print_members l ++ R = String dquote t.
Proof.
  destruct l as [| [k v] [| kv l']]; [contradiction | |]; intros _;
    eexists; reflexivity.
Qed.

Lemma print_elems_length (d : nat) (l : list json) (R : string) :
  Forall (readable d) l → (length l ≤ String.length (print_elems l ++ R))%nat.
Proof.
  induction l as [| v l IH]; intros Hl; [simpl; lia |].
  apply Forall_cons in Hl as [Hv Hl]. specialize (IH Hl).
  destruct (print_head d v Hv) as (c & t & Hp & _).
  destruct l as [| v' l'].
  - cbn [print_elems]. rewrite Hp. simpl. lia.
  - rewrite print_elems_cons, app_assoc_s, length_app_s, Hp.
    change (String "," ?a ++ R) with (String "," (a ++ R)).
    cbn [String.length length] in IH |- *. lia.
Qed.

Lemma print_members_length (l : list (string * json)) (R : string) :
  (length l ≤ String.length (print_members l ++ R))%nat.
Proof.
  induction l as [| [k v] l IH]; [simpl; lia |].
  destruct l as [| kv l'].
  - rewrite print_members_one. unfold quote. rewrite !length_app_s.
    cbn [String.length length]. lia.
  - rewrite print_members_cons. unfold quote. rewrite !length_app_s.
    rewrite length_app_s in IH.
    cbn [String.length length] in IH |- *. rewrite !length_app_s.
    cbn [String.length]. lia.
Qed.

Lemma parse_value_literal (d : nat) (X : string) :
  parse_value d (String dquote X)
  = '(t, r') ← parse_string (String dquote X); Some (JStr t, r').
Proof. destruct d; reflexivity. Qed.

Lemma parse_value_array (d : nat) (r : string) :
  parse_value (S d) (String "[" r)
  = match skip_ws r with
    | String c' r' =>
        if Ascii.eqb c' "]" then Some (JArr [], r')
        else '(vs, r1) ← parse_elems (parse_value d)
                           (String.length (String c' r')) (String c' r');
             Some (JArr vs, r1)
    | EmptyString => None
    end.
Proof. reflexivity. Qed.

Lemma parse_value_object (d : nat) (r : string) :
  parse_value (S d) (String "{" r)
  = match skip_ws r with
    | String c' r' =>
        if Ascii.eqb c' "}" then Some (JObj [], r')
        else '(ms, r1) ← parse_members (parse_value d)
                           (String.length (String c' r')) (String c' r');
             Some (JObj ms, r1)
    | EmptyString => None
    end.
Proof. reflexivity. Qed.

(** A document as [print] writes it is read back as itself, before any
    text. *)
Lemma parse_value_print (d : nat) (j : json) (rest : string) :
  readable d j → parse_value d (print j ++ rest) = Some (j, rest).
Proof.
  revert j rest. induction d as [| d IH]; intros j rest Hj;
    inversion Hj as [d0 | d0 b | d0 s Hs | d0 l Hl | d0 l Hl]; subst;
    try (destruct b; reflexivity); try reflexivity.
  - unfold print, quote. change (String dquote ?a ++ rest) with (String dquote (a ++ rest)).
    rewrite parse_value_literal.
    change (String dquote (?a ++ rest)) with (String dquote a ++ rest).
    fold (quote s). rewrite (parse_string_quote s rest Hs). reflexivity.
  - unfold print, quote. change (String dquote ?a ++ rest) with (String dquote (a ++ rest)).
    rewrite parse_value_literal.
    change (String dquote (?a ++ rest)) with (String dquote a ++ rest).
    fold (quote s). rewrite (parse_string_quote s rest Hs). reflexivity.
  - rewrite print_JArr.
    change ("[" ++ ?a) with (String "[" a).
    change (String "[" ?a ++ rest) with (String "[" (a ++ rest)).
    rewrite app_assoc_s. change ("]" ++ rest) with (String "]" rest).
    rewrite parse_value_array.
    destruct l as [| v l]; [reflexivity |].
    rewrite (skip_ws_elems d) by (discriminate || exact Hl).
    destruct (elems_head d (v :: l) (String "]" rest)) as (c & t & Hh & Hc);
      [discriminate | exact Hl |].
    pose proof (print_elems_length d (v :: l) (String "]" rest) Hl) as Hlen.
    rewrite Hh. destruct Hc as (_ & -> & _).
    rewrite <- Hh.
    rewrite (parse_elems_print d (parse_value d) (fun v Hv R => IH v R Hv));
      [reflexivity | discriminate | exact Hl | exact Hlen].
  - rewrite print_JObj.
    change ("{" ++ ?a) with (String "{" a).
    change (String "{" ?a ++ rest) with (String "{" (a ++ rest)).
    rewrite app_assoc_s. change ("}" ++ rest) with (String "}" rest).
    rewrite parse_value_object.
    destruct l as [| kv l]; [reflexivity |].
    rewrite skip_ws_members by discriminate.
    destruct (members_head (kv :: l) (String "}" rest)) as (t & Hh); [discriminate |].
    pose proof (print_members_length (kv :: l) (String "}" rest)) as Hlen.
    rewrite Hh.
    change (Ascii.eqb dquote "}") with false. cbn beta iota.
    rewrite <- Hh.
    rewrite (parse_members_print d (parse_value d) (fun v Hv R => IH v R Hv));
      [reflexivity | discriminate | exact Hl | exact Hlen].
Qed.

Lemma maxNestingDepth_unfold : maxNestingDepth = S (S (Z.to_nat 9998)).
Proof. unfold maxNestingDepth. lia. Qed.

(** A whole document as [print] writes it is read back as itself. *)
Lemma parse_print (j : json) :
  readable maxNestingDepth j → parse (print j) = Some j.
Proof.
  intros Hj. unfold parse.
  rewrite <- (append_nil_r (print j)).
  rewrite (skip_ws_print _ j "" Hj), (parse_value_print _ j "" Hj).
  reflexivity.
Qed.

End JSONRoundTrip.

(** ** Round trip of a model through [ToJSON] and [FromJSON] *)

Section ModelRoundTrip.
Import Bytes UTF8 JSON Models.


(** A map that is empty and not nil is left out, and read back as nil. *)
Example empty_metadata_not_restored :
  let H := CheckoutRequest_GoValue (Dynamic0 := document_values) in
  let text := requote "{'product_id':'prod_1'}" in
  ToJSON empty_metadata_request = Some text
  ∧ FromJSON text (zero : CheckoutRequest json)
    = Some {| ProductID := "prod_1"; Customer_ := None; RequestID := None;
              Units := None; SuccessURL := None; Metadata := None |}
  ∧ Metadata empty_metadata_request ≠ None.
Proof.
  intros H text. split; [vm_compute; reflexivity |].
  split; [vm_compute; reflexivity | discriminate].
Qed.

Lemma readable_member (d : nat) (k : string) (s : string) :
  Valid k = true → Valid s = true →
  (fun kv : string * json => Valid kv.1 = true ∧ readable d kv.2) (k, JStr s).
Proof. intros Hk Hs. split; [exact Hk | apply readable_str, Hs]. Qed.



End ModelRoundTrip.

(** ** The texts of the errors *)

Section ErrorTexts.
Import Bytes Errors Models Client ErrorMethods.

(** The parts of the error a status code of 400 or more is classified
    as. *)
Lemma classify_parts (status : Z) (a : APIError) :
  400 ≤ status →
  ∃ e, api_part (classify status a) = Some e
       ∧ base_of (classify status a) = Some (Base e)
       ∧ Errors.Message (Base e) = Message a
       ∧ Cause (Base e) = None
       ∧ StatusCode e = status
       ∧ ErrorCode e
         = match kind_of (classify status a) with
           | GenericAPI => if Code a =? 0 then "" else Itoa (Code a)
           | _ => ""
           end.
Proof.
  intros Hs. unfold classify.
  destruct (status =? StatusUnauthorized) eqn:E1;
    [apply Z.eqb_eq in E1; subst; eexists; repeat apply conj; reflexivity |].
  destruct (status =? StatusBadRequest) eqn:E2;
    [apply Z.eqb_eq in E2; subst; eexists; repeat apply conj; reflexivity |].
  destruct (status =? StatusNotFound) eqn:E3;
    [apply Z.eqb_eq in E3; subst; eexists; repeat apply conj; reflexivity |].
  destruct (status =? StatusTooManyRequests) eqn:E4;
    [apply Z.eqb_eq in E4; subst; eexists; repeat apply conj; reflexivity |].
  destruct (500 <=? status) eqn:E5.
  - apply Z.leb_le in E5. eexists. repeat apply conj; try reflexivity.
    cbn. rewrite (proj2 (Z.eqb_neq status 0)) by lia. reflexivity.
  - eexists. repeat apply conj; reflexivity.
Qed.

Lemma Itoa_eqb_empty (n : Z) : String.eqb (Itoa n) "" = false.
Proof. apply String.eqb_neq, Itoa_not_empty. Qed.

(** [String] of an error with a positive status code. *)
Lemma String_parts (message : string) (cause : option error) (status : Z)
    (code : string) (payload : option APIError) :
  0 < status →
  BagelPayAPIError_String
    {| Base := {| Errors.Message := message; Cause := cause |};
       StatusCode := status; ErrorCode := code; Errors.APIError := payload |}
  = message ++ " | Status: " ++ Itoa status
    ++ (if String.eqb code "" then "" else " | Code: " ++ code).
Proof.
  intros Hs. unfold BagelPayAPIError_String.
  cbn [Base StatusCode ErrorCode Errors.Message].
  rewrite (proj2 (Z.ltb_lt 0 status) Hs). generalize (Itoa status). intros t.
  destruct (String.eqb code ""); cbn [negb app foldl].
  - rewrite append_nil_r. reflexivity.
  - rewrite app_assoc_s. reflexivity.
Qed.

(** X1.  The text [Error] gives for the error [handleResponse] returns
    at a status of 400 or more is the prefix of its kind followed by the
    message of the payload; the status code is part of the text for the
    generic kind only. *)
Theorem classified_error_Error {T} `{GoValue T}
    (status : Z) (body : string) (result : option T) :
  400 ≤ status →
  let payload := error_payload status body in
  ∃ err,
    (handleResponse {| http.StatusCode := status; http.Body := inr body |} result).2
    = Some err
    ∧ Error err
      = Some (match kind_of err with
              | Authentication => "BagelPay authentication error: "
              | Validation => "BagelPay validation error: "
              | NotFound => "BagelPay not found error: "
              | RateLimit => "BagelPay rate limit error: "
              | Server => "BagelPay server error: "
              | GenericAPI => "BagelPay API error (status " ++ Itoa status ++ "): "
              | NotAPI => ""
              end ++ Message payload).
Proof.
  intros Hs payload. exists (classify status payload).
  split; [rewrite handleResponse_error_status by exact Hs; reflexivity |].
  unfold classify.
  repeat (match goal with
          | |- context [if ?b then _ else _] => destruct b
          end; [cbn; rewrite ?app_assoc_s; reflexivity |]).
  cbn. rewrite ?app_assoc_s. reflexivity.
Qed.

Lemma classified_error_Error_witness :
  400 ≤ 404
  ∧ let payload := error_payload 404 (requote "{'message':'no such product'}") in
    Message payload = "no such product"
    ∧ ∃ err,
        (handleResponse
           {| http.StatusCode := 404;
              http.Body := inr (requote "{'message':'no such product'}") |}
           (Some (zero : Customer))).2 = Some err
        ∧ Error err
          = Some (match kind_of err with
                  | Authentication => "BagelPay authentication error: "
                  | Validation => "BagelPay validation error: "
                  | NotFound => "BagelPay not found error: "
                  | RateLimit => "BagelPay rate limit error: "
                  | Server => "BagelPay server error: "
                  | GenericAPI => "BagelPay API error (status " ++ Itoa 404 ++ "): "
                  | NotAPI => ""
                  end ++ Message payload).
Proof.
  split; [lia |]. intros payload. split; [vm_compute; reflexivity |].
  apply (classified_error_Error 404 (requote "{'message':'no such product'}")
           (Some (zero : Customer))).
  lia.
Defined.

(** X2.  [String] of the error [handleResponse] returns at a status of
    400 or more is the message of the payload, a bar and the status, and
    then, for the generic kind with a code that is not zero, a bar and the
    code. *)
Theorem classified_error_String {T} `{GoValue T}
    (status : Z) (body : string) (result : option T) :
  400 ≤ status →
  let payload := error_payload status body in
  ∃ err e,
    (handleResponse {| http.StatusCode := status; http.Body := inr body |} result).2
    = Some err
    ∧ api_part err = Some e
    ∧ BagelPayAPIError_String e
      = Message payload ++ " | Status: " ++ Itoa status
        ++ match kind_of err with
           | GenericAPI =>
               if Code payload =? 0 then "" else " | Code: " ++ Itoa (Code payload)
           | _ => ""
           end.
Proof.
  intros Hs payload.
  destruct (classify_parts status payload Hs) as (e & He & _ & Hm & _ & Hc & Hec).
  exists (classify status payload), e.
  split; [rewrite handleResponse_error_status by exact Hs; reflexivity |].
  split; [exact He |].
  destruct e as [[m cs] sc ec ap].
  cbn [Base StatusCode ErrorCode Errors.Message] in Hm, Hc, Hec. subst m sc ec.
  rewrite String_parts by lia. clearbody payload.
  destruct (kind_of (classify status payload)); try reflexivity.
  destruct (Code payload =? 0); [reflexivity |].
  rewrite Itoa_eqb_empty. reflexivity.
Qed.

Lemma classified_error_String_witness :
  400 ≤ 409
  ∧ let payload :=
      error_payload 409 (requote "{'code':1007,'message':'already archived'}") in
    payload = {| Code := 1007; Message := "already archived"; Details := "" |}
    ∧ ∃ err e,
        (handleResponse
           {| http.StatusCode := 409;
              http.Body :=
                inr (requote "{'code':1007,'message':'already archived'}") |}
           (Some (zero : Customer))).2 = Some err
        ∧ api_part err = Some e
        ∧ BagelPayAPIError_String e
          = Message payload ++ " | Status: " ++ Itoa 409
            ++ match kind_of err with
               | GenericAPI =>
                   if Code payload =? 0 then ""
                   else " | Code: " ++ Itoa (Code payload)
               | _ => ""
               end.
Proof.
  split; [lia |]. intros payload. split; [vm_compute; reflexivity |].
  apply (classified_error_String 409
           (requote "{'code':1007,'message':'already archived'}")
           (Some (zero : Customer))).
  lia.
Defined.

(** X3.  [String] of an error made by one of the five full constructors
    with a status code that is not negative shows the message, then the
    status code given or, when that is zero, the default of the kind, then
    the error code when there is one. *)
Theorem constructed_error_String (message : string) (statusCode : Z)
    (errorCode : string) (apiError : option APIError) (cause : option error) :
  0 ≤ statusCode →
  let shown (default_status : Z) :=
    message ++ " | Status: "
    ++ Itoa (if statusCode =? 0 then default_status else statusCode)
    ++ (if String.eqb errorCode "" then "" else " | Code: " ++ errorCode) in
  BagelPayAPIError_String
    (NewBagelPayAuthenticationError message statusCode errorCode apiError cause)
  = shown 401
  ∧ BagelPayAPIError_String
      (NewBagelPayValidationError message statusCode errorCode apiError cause)
    = shown 400
  ∧ BagelPayAPIError_String
      (NewBagelPayNotFoundError message statusCode errorCode apiError cause)
    = shown 404
  ∧ BagelPayAPIError_String
      (NewBagelPayRateLimitError message statusCode errorCode apiError cause)
    = shown 429
  ∧ BagelPayAPIError_String
      (NewBagelPayServerError message statusCode errorCode apiError cause)
    = shown 500.
Proof.
  intros Hs shown.
  assert (Hgen : ∀ d, 0 < d →
            BagelPayAPIError_String
              (new_with_default d message statusCode errorCode apiError cause)
            = shown d).
  { intros d Hd. unfold new_with_default, NewBagelPayError, shown.
    apply String_parts. destruct (statusCode =? 0) eqn:E; [exact Hd |].
    apply Z.eqb_neq in E. lia. }
  repeat apply conj; apply Hgen; reflexivity.
Qed.

Lemma constructed_error_String_witness :
  0 ≤ 0
  ∧ BagelPayAPIError_String
      (NewBagelPayNotFoundError "no such product" 0 "P404" None None)
    = "no such product | Status: 404 | Code: P404".
Proof.
  split; [lia |].
  apply (constructed_error_String "no such product" 0 "P404" None None). lia.
Defined.

End ErrorTexts.

(** ** What the operations return *)

Section Answers.
Import Bytes JSON Errors Models Client ErrorMethods.

(** X4.  When the request is built and the transport returns an error,
    every operation returns, and [handleResponse] is not run, the
    [BagelPayError] with the message [request failed] that wraps the error
    of the transport: [Unwrap] gives that error back, and the error is no
    API error of any kind. *)
Theorem transport_failure_wrapped {D R T} `{GoValue D} `{GoValue R}
    (Do : http.Client → http.Request → error + http.Response)
    (extract : R → T) (c : BagelPayClient) (method endpoint : string)
    (data : option D) (params : option (gmap string string))
    (req : http.Request) (cause : error) :
  newRequest c method endpoint data params = inr req →
  Do (httpClient c) req = inl cause →
  finish extract (makeRequest Do c method endpoint data params)
  = inl (PBagelPayError (NewBagelPayError "request failed" (Some cause)))
  ∧ ∃ err b,
      finish extract (makeRequest Do c method endpoint data params) = inl err
      ∧ base_of err = Some b
      ∧ Errors.Message b = "request failed"
      ∧ Unwrap b = Some cause
      ∧ kind_of err = NotAPI.
Proof.
  intros Hreq Hdo. unfold makeRequest. rewrite Hreq, Hdo.
  split; [reflexivity |].
  eexists _, _. split; [reflexivity |].
  split; [reflexivity |]. repeat apply conj; reflexivity.
Qed.

Lemma transport_failure_wrapped_witness :
  newRequest test_client "GET" "/api/products/prod_1" no_data None
  = inr product_request
  ∧ unreachable (httpClient test_client) product_request = inl (Foreign "net/http")
  ∧ GetProduct (Product := Customer) unreachable test_client "prod_1"
    = inl (PBagelPayError (NewBagelPayError "request failed"
                             (Some (Foreign "net/http")))).
Proof.
  split; [vm_compute; reflexivity |]. split; [reflexivity |].
  apply (transport_failure_wrapped (R := DataOf Customer) unreachable Data
           test_client "GET" "/api/products/prod_1" no_data None product_request
           (Foreign "net/http")); [vm_compute; reflexivity | reflexivity].
Defined.

(** X5.  When the body of the answer cannot be read, [handleResponse]
    returns a [BagelPayError] that wraps the error of the read whatever
    the status code is: the answer is not classified, and the result is
    left alone. *)
Theorem unreadable_body_not_classified {R T} `{GoValue R}
    (extract : R → T) (status : Z) (cause : error) (result : option R) :
  let resp := {| http.StatusCode := status; http.Body := inl cause |} in
  let err := PBagelPayError
               (NewBagelPayError "failed to read response body" (Some cause)) in
  handleResponse resp result = (result, Some err)
  ∧ finish extract (inr resp) = inl err
  ∧ kind_of err = NotAPI
  ∧ IsNotFoundError (Some err) = false
  ∧ IsServerError (Some err) = false
  ∧ (∃ b, base_of err = Some b ∧ Unwrap b = Some cause).
Proof.
  intros resp err. repeat apply conj; try reflexivity.
  eexists. split; reflexivity.
Qed.

(** X6.  At a status below 400, redirects included, the only error
    [handleResponse] returns is the [BagelPayError] of a body that is not
    stored, which is no API error of any kind; with a nil result it
    returns no error whatever the body is; and it returns no error exactly
    when [Unmarshal] stores the body, the result being what was stored. *)
Theorem success_status_error_not_api {T} `{GoValue T}
    (status : Z) (body : string) (result : option T) :
  status < 400 →
  let answer :=
    handleResponse {| http.StatusCode := status; http.Body := inr body |} result in
  (answer.2 = None
   ∨ answer.2 = Some (PBagelPayError
                        (NewBagelPayError "failed to parse response"
                           (Some (Foreign "encoding/json")))))
  ∧ (∀ err, answer.2 = Some err → kind_of err = NotAPI)
  ∧ (result = None → answer = (None, None))
  ∧ (∀ r, result = Some r →
       (answer.2 = None ↔ ∃ r', Unmarshal body r = Some r' ∧ answer.1 = Some r')).
Proof.
  intros Hs answer. subst answer. unfold handleResponse.
  cbn [http.Body http.StatusCode].
  rewrite (proj2 (Z.leb_gt 400 status)) by lia.
  destruct result as [r |].
  - destruct (Unmarshal body r) as [r' |] eqn:Hu; cbn [fst snd].
    + split; [left; reflexivity |]. split; [discriminate |].
      split; [discriminate |]. intros r0 [= <-]. rewrite Hu.
      split; [intros _; exists r'; split; reflexivity | reflexivity].
    + split; [right; reflexivity |].
      split; [intros err [= <-]; reflexivity |].
      split; [discriminate |]. intros r0 [= <-]. rewrite Hu.
      split; [discriminate | intros (r' & Hr & _); discriminate].
  - split; [left; reflexivity |]. split; [discriminate |].
    split; [reflexivity | discriminate].
Qed.

Lemma success_status_error_not_api_witness :
  302 < 400
  ∧ let answer :=
      handleResponse {| http.StatusCode := 302; http.Body := inr "<html>" |}
        (Some (zero : Customer)) in
    answer.2 = Some (PBagelPayError
                       (NewBagelPayError "failed to parse response"
                          (Some (Foreign "encoding/json"))))
    ∧ ((answer.2 = None
        ∨ answer.2 = Some (PBagelPayError
                             (NewBagelPayError "failed to parse response"
                                (Some (Foreign "encoding/json")))))
       ∧ (∀ err, answer.2 = Some err → kind_of err = NotAPI)
       ∧ (Some (zero : Customer) = None → answer = (None, None))
       ∧ (∀ r, Some (zero : Customer) = Some r →
            (answer.2 = None
             ↔ ∃ r', Unmarshal "<html>" r = Some r' ∧ answer.1 = Some r'))).
Proof.
  split; [lia |]. intros answer. split; [vm_compute; reflexivity |].
  apply (success_status_error_not_api 302 "<html>" (Some (zero : Customer))). lia.
Defined.

(** X7.  When the transport answers with a status of 400 or more, an
    operation returns the error that status and body are classified as,
    and no value, whatever the body holds. *)
Theorem operation_error_status {D R T} `{GoValue D} `{GoValue R}
    (Do : http.Client → http.Request → error + http.Response)
    (extract : R → T) (c : BagelPayClient) (method endpoint : string)
    (data : option D) (params : option (gmap string string))
    (req : http.Request) (status : Z) (body : string) :
  newRequest c method endpoint data params = inr req →
  Do (httpClient c) req = inr {| http.StatusCode := status; http.Body := inr body |} →
  400 ≤ status →
  finish extract (makeRequest Do c method endpoint data params)
  = inl (classify status (error_payload status body)).
Proof.
  intros Hreq Hdo Hs. unfold makeRequest, finish. rewrite Hreq, Hdo.
  rewrite handleResponse_error_status by exact Hs. reflexivity.
Qed.

Lemma operation_error_status_witness :
  let body := requote "{'data':{'email':'a@b.c'}}" in
  let resp := {| http.StatusCode := 404; http.Body := inr body |} in
  newRequest test_client "GET" "/api/products/prod_1" no_data None
  = inr product_request
  ∧ answering resp (httpClient test_client) product_request = inr resp
  ∧ 400 ≤ 404
  ∧ GetProduct (Product := Customer) (answering resp) test_client "prod_1"
    = inl (classify 404 (error_payload 404 body)).
Proof.
  intros body resp. split; [vm_compute; reflexivity |].
  split; [reflexivity |]. split; [lia |].
  apply (operation_error_status (R := DataOf Customer) (answering resp) Data
           test_client "GET" "/api/products/prod_1" no_data None product_request
           404 body); [vm_compute; reflexivity | reflexivity | lia].
Defined.

End Answers.

(** ** Bodies of other shapes *)

Section Documents.
Import Bytes JSON Errors Models Client ErrorMethods.

(** Members whose keys name no field leave the value as it is. *)
Lemma store_members_unknown {T} (names : list string)
    (set : string → json → T → option T) (ms : list (string * json))
    (acc : option T) :
  Forall (fun kv => match_field names kv.1 = None) ms →
  foldl (fun acc '(k, v) =>
           t ← acc;
           match match_field names k with
           | Some f => set f v t
           | None => Some t
           end) acc ms = acc.
Proof.
  intros Hms. revert acc. induction Hms as [| [k v] ms Hk _ IH]; intros acc.
  - reflexivity.
  - cbn [foldl]. rewrite IH. cbn in Hk. rewrite Hk. destruct acc; reflexivity.
Qed.

Lemma store_struct_one_known {T} (names : list string)
    (set : string → json → T → option T) (pre post : list (string * json))
    (k f : string) (j : json) (old : T) :
  Forall (fun kv => match_field names kv.1 = None) pre →
  Forall (fun kv => match_field names kv.1 = None) post →
  match_field names k = Some f →
  store_struct names set (JObj (pre ++ (k, j) :: post)) old = set f j old.
Proof.
  intros Hpre Hpost Hk. unfold store_struct.
  rewrite foldl_app, (store_members_unknown names set pre _ Hpre).
  cbn [foldl]. rewrite (store_members_unknown names set post _ Hpost).
  cbn. rewrite Hk. reflexivity.
Qed.

(** X8.  At a status of 400 or more, a body that is [null], or an
    object none of whose keys is [code], [message] or [details] in any
    case of letters, is no failure of [Unmarshal]: the payload is the zero
    value and not the fallback, and the error returned has an empty message
    and no error code. *)
Theorem unrecognised_error_body_empty_message (status : Z) (body : string) :
  400 ≤ status →
  (parse body = Some JNull
   ∨ ∃ ms, parse body = Some (JObj ms)
           ∧ Forall (fun kv => match_field ["code"; "message"; "details"] kv.1 = None)
               ms) →
  error_payload status body = {| Code := 0; Message := ""; Details := "" |}
  ∧ ∃ e, api_part (classify status (error_payload status body)) = Some e
         ∧ Errors.Message (Base e) = ""
         ∧ ErrorCode e = "".
Proof.
  intros Hs Hbody.
  assert (Hp : error_payload status body = {| Code := 0; Message := ""; Details := "" |}).
  { unfold error_payload, Unmarshal.
    destruct Hbody as [-> | (ms & -> & Hms)]; cbn [mbind option_bind].
    - reflexivity.
    - cbn [store APIError_GoValue store_struct].
      rewrite (store_members_unknown _ _ ms _ Hms). reflexivity. }
  split; [exact Hp |]. rewrite Hp.
  destruct (classify_parts status {| Code := 0; Message := ""; Details := "" |} Hs)
    as (e & He & _ & Hm & _ & _ & Hec).
  exists e. split; [exact He |]. split; [exact Hm |].
  rewrite Hec. destruct (kind_of _); reflexivity.
Qed.

Lemma unrecognised_error_body_empty_message_witness :
  let body := requote "{'error':'quota exceeded','status':'failed'}" in
  400 ≤ 429
  ∧ (parse body = Some JNull
     ∨ ∃ ms, parse body = Some (JObj ms)
             ∧ Forall (fun kv =>
                         match_field ["code"; "message"; "details"] kv.1 = None) ms)
  ∧ error_payload 429 body = {| Code := 0; Message := ""; Details := "" |}
  ∧ ∃ e, api_part (classify 429 (error_payload 429 body)) = Some e
         ∧ Errors.Message (Base e) = ""
         ∧ ErrorCode e = "".
Proof.
  intros body.
  assert (Hbody : parse body = Some JNull
            ∨ ∃ ms, parse body = Some (JObj ms)
                    ∧ Forall (fun kv =>
                                match_field ["code"; "message"; "details"] kv.1
                                = None) ms).
  { right. eexists. split; [vm_compute; reflexivity |].
    repeat (apply Forall_cons_2; [vm_compute; reflexivity |]). apply Forall_nil_2. }
  split; [lia |]. split; [exact Hbody |].
  apply (unrecognised_error_body_empty_message 429 body); [lia | exact Hbody].
Defined.

(** X9.  When the transport answers with a status below 400 and an
    object with one member [data], beside members whose keys are not
    [data] in any case of letters, an operation that expects the envelope
    returns the value that member is stored as, and no error. *)
Theorem data_envelope_unwrapped {D T} `{GoValue D} `{GoValue T}
    (Do : http.Client → http.Request → error + http.Response)
    (c : BagelPayClient) (method endpoint : string)
    (data : option D) (params : option (gmap string string))
    (req : http.Request) (status : Z) (body : string)
    (pre post : list (string * json)) (j : json) (v : T) :
  newRequest c method endpoint data params = inr req →
  Do (httpClient c) req = inr {| http.StatusCode := status; http.Body := inr body |} →
  status < 400 →
  parse body = Some (JObj (pre ++ ("data", j) :: post)) →
  Forall (fun kv => match_field ["data"] kv.1 = None) pre →
  Forall (fun kv => match_field ["data"] kv.1 = None) post →
  store j (zero : T) = Some v →
  finish Data (makeRequest Do c method endpoint data params) = inr v.
Proof.
  intros Hreq Hdo Hs Hbody Hpre Hpost Hv.
  unfold makeRequest. rewrite Hreq, Hdo. unfold finish, handleResponse.
  cbn [http.Body http.StatusCode].
  rewrite (proj2 (Z.leb_gt 400 status)) by lia.
  unfold Unmarshal. rewrite Hbody. cbn [mbind option_bind].
  cbn [store DataOf_GoValue].
  rewrite (store_struct_one_known _ _ pre post "data" "data" j _ Hpre Hpost eq_refl).
  change (store j (Data zero)) with (store j (zero : T)).
  rewrite Hv. reflexivity.
Qed.

Lemma data_envelope_unwrapped_witness :
  let body := requote "{'code':200, 'msg':'success', 'data':{'email':'a@b.c'}}" in
  let resp := {| http.StatusCode := 200; http.Body := inr body |} in
  let pre := [("code", JNum "200"); ("msg", JStr "success")] in
  let j := JObj [("email", JStr "a@b.c")] in
  newRequest test_client "GET" "/api/products/prod_1" no_data None
  = inr product_request
  ∧ answering resp (httpClient test_client) product_request = inr resp
  ∧ 200 < 400
  ∧ parse body = Some (JObj (pre ++ ("data", j) :: []))
  ∧ Forall (fun kv => match_field ["data"] kv.1 = None) pre
  ∧ Forall (fun kv : string * json => match_field ["data"] kv.1 = None) []
  ∧ store j (zero : Customer) = Some {| Email := "a@b.c" |}
  ∧ GetProduct (Product := Customer) (answering resp) test_client "prod_1"
    = inr {| Email := "a@b.c" |}.
Proof.
  intros body resp pre j.
  assert (Hpre : Forall (fun kv => match_field ["data"] kv.1 = None) pre).
  { repeat (apply Forall_cons_2; [vm_compute; reflexivity |]). apply Forall_nil_2. }
  split; [vm_compute; reflexivity |]. split; [reflexivity |]. split; [lia |].
  split; [vm_compute; reflexivity |]. split; [exact Hpre |].
  split; [apply Forall_nil_2 |]. split; [reflexivity |].
  apply (data_envelope_unwrapped (answering resp) test_client "GET"
           "/api/products/prod_1" no_data None product_request 200 body pre [] j
           {| Email := "a@b.c" |});
    [vm_compute; reflexivity | reflexivity | lia | vm_compute; reflexivity
    | exact Hpre | apply Forall_nil_2 | reflexivity].
Defined.

(** X10.  When the transport answers with a status below 400 and a body
    that is [null], or an object with no key that is [data] in any case of
    letters, an operation that expects the envelope returns the zero value
    and no error. *)
Theorem missing_data_member_gives_zero {D T} `{GoValue D} `{GoValue T}
    (Do : http.Client → http.Request → error + http.Response)
    (c : BagelPayClient) (method endpoint : string)
    (data : option D) (params : option (gmap string string))
    (req : http.Request) (status : Z) (body : string) :
  newRequest c method endpoint data params = inr req →
  Do (httpClient c) req = inr {| http.StatusCode := status; http.Body := inr body |} →
  status < 400 →
  (parse body = Some JNull
   ∨ ∃ ms, parse body = Some (JObj ms)
           ∧ Forall (fun kv => match_field ["data"] kv.1 = None) ms) →
  finish Data (makeRequest Do c method endpoint data params) = inr (zero : T).
Proof.
  intros Hreq Hdo Hs Hbody.
  unfold makeRequest. rewrite Hreq, Hdo. unfold finish, handleResponse.
  cbn [http.Body http.StatusCode].
  rewrite (proj2 (Z.leb_gt 400 status)) by lia.
  unfold Unmarshal.
  destruct Hbody as [-> | (ms & -> & Hms)]; cbn [mbind option_bind].
  - reflexivity.
  - cbn [store DataOf_GoValue store_struct].
    rewrite (store_members_unknown _ _ ms _ Hms). reflexivity.
Qed.

Lemma missing_data_member_gives_zero_witness :
  let body := requote "{'code':200,'msg':'success'}" in
  let resp := {| http.StatusCode := 200; http.Body := inr body |} in
  newRequest test_client "GET" "/api/products/prod_1" no_data None
  = inr product_request
  ∧ answering resp (httpClient test_client) product_request = inr resp
  ∧ 200 < 400
  ∧ (parse body = Some JNull
     ∨ ∃ ms, parse body = Some (JObj ms)
             ∧ Forall (fun kv => match_field ["data"] kv.1 = None) ms)
  ∧ GetProduct (Product := Customer) (answering resp) test_client "prod_1"
    = inr (zero : Customer).
Proof.
  intros body resp.
  assert (Hbody : parse body = Some JNull
            ∨ ∃ ms, parse body = Some (JObj ms)
                    ∧ Forall (fun kv => match_field ["data"] kv.1 = None) ms).
  { right. eexists. split; [vm_compute; reflexivity |].
    repeat (apply Forall_cons_2; [vm_compute; reflexivity |]). apply Forall_nil_2. }
  split; [vm_compute; reflexivity |]. split; [reflexivity |]. split; [lia |].
  split; [exact Hbody |].
  apply (missing_data_member_gives_zero (T := Customer) (answering resp) test_client
           "GET" "/api/products/prod_1" no_data None product_request 200 body);
    [vm_compute; reflexivity | reflexivity | lia | exact Hbody].
Defined.

End Documents.

(** ** The query as the server reads it *)

Section Queries.
Import Bytes Errors Models Client.

(** [QueryEscape] goes character by character. *)
Lemma QueryEscape_cons (a : ascii) (r : string) :
  URL.QueryEscape (String a r) = URL.QueryEscape (String a "") ++ URL.QueryEscape r.
Proof.
  cbn [URL.QueryEscape]. destruct (URL.unreserved a); [reflexivity |].
  destruct (Ascii.eqb a " "); reflexivity.
Qed.

Ltac each_byte a :=
  destruct a as [[] [] [] [] [] [] [] []].

Lemma QueryEscape_char_plain (a : ascii) :
  URL.contains "&" (URL.QueryEscape (String a "")) = false
  ∧ URL.contains "=" (URL.QueryEscape (String a "")) = false
  ∧ URL.contains ";" (URL.QueryEscape (String a "")) = false.
Proof. each_byte a; vm_compute; repeat split. Qed.

Lemma QueryEscape_plain (s : string) :
  URL.contains "&" (URL.QueryEscape s) = false
  ∧ URL.contains "=" (URL.QueryEscape s) = false
  ∧ URL.contains ";" (URL.QueryEscape s) = false.
Proof.
  induction s as [| a r (IH1 & IH2 & IH3)]; [repeat split |].
  rewrite QueryEscape_cons, !contains_app, IH1, IH2, IH3.
  destruct (QueryEscape_char_plain a) as (-> & -> & ->). repeat split.
Qed.

(** How one byte is escaped: left as it is, written as a plus sign, or
    as a percent sign and the two digits of its value. *)
Lemma QueryEscape_char_shape (a : ascii) :
  if URL.unreserved a
  then Ascii.eqb a "%" = false ∧ Ascii.eqb a "+" = false
  else if Ascii.eqb a " " then a = " "%char
  else Ascii.eqb (URL.upper_hex (val a / 16)) "%" = false
       ∧ hex_val (URL.upper_hex (val a / 16)) = Some (val a / 16)
       ∧ hex_val (URL.upper_hex (val a mod 16)) = Some (val a mod 16)
       ∧ of_val (val a / 16 * 16 + val a mod 16) = a.
Proof. each_byte a; vm_compute; repeat split. Qed.

Lemma QueryUnescape_char (a : ascii) (r t : string) :
  URL.QueryUnescape r = Some t →
  URL.QueryUnescape (URL.QueryEscape (String a "") ++ r) = Some (String a t).
Proof.
  intros Hr. pose proof (QueryEscape_char_shape a) as Ha.
  cbn [URL.QueryEscape]. destruct (URL.unreserved a).
  - destruct Ha as (H1 & H2).
    change (URL.QueryUnescape (String a r) = Some (String a t)).
    cbn [URL.QueryUnescape]. rewrite H1, Hr, H2. reflexivity.
  - destruct (Ascii.eqb a " ").
    + subst a. change (URL.QueryUnescape (String "+" r) = Some (String " " t)).
      cbn [URL.QueryUnescape]. rewrite Hr. reflexivity.
    + destruct Ha as (_ & H1 & H2 & H3).
      change (URL.QueryUnescape
                (String "%" (String (URL.upper_hex (val a / 16))
                               (String (URL.upper_hex (val a mod 16)) r)))
              = Some (String a t)).
      cbn [URL.QueryUnescape]. change (Ascii.eqb "%" "%") with true.
      cbn iota. rewrite H1, H2. cbn [mbind option_bind]. rewrite Hr.
      cbn [mbind option_bind]. rewrite H3. reflexivity.
Qed.

Lemma QueryUnescape_QueryEscape (s : string) :
  URL.QueryUnescape (URL.QueryEscape s) = Some s.
Proof.
  induction s as [| a r IH]; [reflexivity |].
  rewrite QueryEscape_cons. apply QueryUnescape_char, IH.
Qed.


Lemma split_amp_empty (n : nat) : URL.split_amp n "" = [].
Proof. destruct n; reflexivity. Qed.

(** Texts with no ampersand, joined by ampersands, are split again. *)
Lemma split_amp_join (l : list string) (n : nat) :
  Forall (fun x => x ≠ "" ∧ URL.contains "&" x = false) l →
  (String.length (URL.join_amp l) ≤ n)%nat →
  URL.split_amp n (URL.join_amp l) = l.
Proof.
  intros Hl. revert n. induction Hl as [| x l (Hx & Hamp) Hl IH]; intros n Hn.
  - apply split_amp_empty.
  - destruct l as [| y l'].
    + cbn [URL.join_amp] in *. destruct x as [| c x']; [congruence |].
      destruct n as [| n']; [cbn in Hn; lia |].
      cbn [URL.split_amp]. rewrite (cut_absent _ _ Hamp).
      cbn [default id]. rewrite split_amp_empty. reflexivity.
    + change (URL.join_amp (x :: y :: l'))
        with (x ++ String "&" (URL.join_amp (y :: l'))) in *.
      rewrite length_app_s in Hn. cbn [String.length] in Hn.
      destruct n as [| n']; [lia |].
      cbn [URL.split_amp].
      destruct (x ++ String "&" (URL.join_amp (y :: l'))) eqn:E;
        [destruct x; discriminate E |].
      rewrite <- E, (cut_first _ _ _ Hamp). cbn [default id].
      rewrite IH by lia. reflexivity.
Qed.

Lemma foldl_Add_values (k : string) (vs : list string) (m : URL.Values) :
  foldl (fun m '(k, x) => URL.Add k x m) m ((fun x => (k, x)) <$> vs)
  = match vs with
    | [] => m
    | _ => <[k := (default [] (m !! k) ++ vs)%list]> m
    end.
Proof.
  revert m. induction vs as [| v vs IH]; intros m; [reflexivity |].
  cbn [fmap list_fmap foldl]. rewrite IH. unfold URL.Add.
  destruct vs as [| v' vs']; [reflexivity |].
  rewrite lookup_insert_eq. cbn [default id].
  rewrite insert_insert_eq, <- app_assoc. reflexivity.
Qed.

Lemma foldl_Add_entries (L : list (string * list string)) (m : URL.Values) :
  NoDup L.*1 →
  Forall (fun kv => kv.2 ≠ [] ∧ m !! kv.1 = None) L →
  foldl (fun m '(k, x) => URL.Add k x m) m
    (mbind (M := list) (fun '(k, vs) => (fun x => (k, x)) <$> vs) L)
  = (list_to_map L : URL.Values) ∪ m.
Proof.
  revert m. induction L as [| [k vs] L IH]; intros m Hnd HL.
  - cbn. rewrite (left_id_L ∅ (∪)). reflexivity.
  - apply NoDup_cons in Hnd as [Hk Hnd]. apply Forall_cons in HL as [[Hvs Hm] HL].
    cbn [fst snd] in *.
    cbn [mbind list_bind]. rewrite foldl_app, foldl_Add_values.
    destruct vs as [| v vs]; [congruence |].
    rewrite Hm. cbn [default app].
    rewrite IH.
    + cbn [list_to_map foldr uncurry fst snd].
      rewrite <- insert_union_r, insert_union_l; [reflexivity |].
      apply not_elem_of_list_to_map_1, Hk.
    + exact Hnd.
    + apply Forall_forall. intros [k' vs'] Hin.
      rewrite Forall_forall in HL. destruct (HL _ Hin) as [Hne Hnone].
      split; [exact Hne |]. cbn [fst snd] in *.
      rewrite lookup_insert_ne; [exact Hnone |].
      intros ->. apply Hk. apply list_elem_of_fmap. exists (k', vs'). split; [reflexivity | exact Hin].
Qed.

Lemma foldl_Add_pairs (q : URL.Values) :
  (∀ k vs, q !! k = Some vs → vs ≠ []) →
  foldl (fun m '(k, x) => URL.Add k x m) ∅ (URL.pairs q) = q.
Proof.
  intros Hq. unfold URL.pairs.
  set (L := merge_sort _ (map_to_list q)).
  assert (HP : L ≡ₚ map_to_list q) by apply merge_sort_Permutation.
  assert (Hnd : NoDup L.*1).
  { rewrite HP. apply NoDup_fst_map_to_list. }
  rewrite foldl_Add_entries.
  - rewrite (right_id_L ∅ (∪)).
    rewrite (list_to_map_proper L (map_to_list q) Hnd HP).
    apply list_to_map_to_list.
  - exact Hnd.
  - apply Forall_forall. intros [k vs] Hin. rewrite HP in Hin.
    apply elem_of_map_to_list in Hin. split; [apply (Hq k), Hin | apply lookup_empty].
Qed.

Lemma parse_pairs (L : list (string * string)) (m : URL.Values) :
  foldl (fun m key =>
           if URL.contains ";" key then m
           else if String.eqb key "" then m
           else
             let '(k, v) := cut "=" key in
             match URL.QueryUnescape k, URL.QueryUnescape (default "" v) with
             | Some k', Some v' => URL.Add k' v' m
             | _, _ => m
             end) m
    ((fun '(k, x) => URL.QueryEscape k ++ "=" ++ URL.QueryEscape x) <$> L)
  = foldl (fun m '(k, x) => URL.Add k x m) m L.
Proof.
  revert m. induction L as [| [k x] L IH]; intros m; [reflexivity |].
  cbn [fmap list_fmap foldl]. rewrite <- IH. f_equal.
  destruct (QueryEscape_plain k) as (_ & Hk & Hk').
  destruct (QueryEscape_plain x) as (_ & _ & Hx').
  change (URL.QueryEscape k ++ "=" ++ URL.QueryEscape x)
    with (URL.QueryEscape k ++ String "=" (URL.QueryEscape x)).
  rewrite contains_app, Hk'.
  change (URL.contains ";" (String "=" (URL.QueryEscape x)))
    with (URL.contains ";" (URL.QueryEscape x)).
  rewrite Hx'. cbn [orb].
  replace (String.eqb (URL.QueryEscape k ++ String "=" (URL.QueryEscape x)) "")
    with false by (destruct (URL.QueryEscape k); reflexivity).
  rewrite (cut_first _ _ _ Hk). cbn [default id].
  rewrite !QueryUnescape_QueryEscape. reflexivity.
Qed.

(** What [Encode] writes is parsed back into the same values. *)
Lemma parseQuery_Encode (q : URL.Values) :
  (∀ k vs, q !! k = Some vs → vs ≠ []) →
  URL.parseQuery (URL.Encode q) = q.
Proof.
  intros Hq. unfold URL.parseQuery, URL.Encode.
  rewrite split_amp_join; [| | reflexivity].
  - rewrite parse_pairs. apply foldl_Add_pairs, Hq.
  - apply Forall_fmap, Forall_forall. intros [k x] _. cbn.
    destruct (QueryEscape_plain k) as (Hk & _ & _).
    destruct (QueryEscape_plain x) as (Hx & _ & _).
    split; [destruct (URL.QueryEscape k); discriminate |].
    change (URL.QueryEscape k ++ "=" ++ URL.QueryEscape x)
      with (URL.QueryEscape k ++ String "=" (URL.QueryEscape x)).
    rewrite contains_app, Hk. exact Hx.
Qed.


Lemma Add_nonempty (k x : string) (m : URL.Values) :
  (∀ key vs, m !! key = Some vs → vs ≠ []) →
  ∀ key vs, URL.Add k x m !! key = Some vs → vs ≠ [].
Proof.
  intros Hm key vs. rewrite Add_lookup. destruct (decide (k = key)).
  - intros [= <-]. destruct (default [] (m !! k)); discriminate.
  - apply Hm.
Qed.

Lemma parseQuery_nonempty (query : string) :
  ∀ key vs, URL.parseQuery query !! key = Some vs → vs ≠ [].
Proof.
  unfold URL.parseQuery.
  generalize (URL.split_amp (String.length query) query). intros l.
  assert (H0 : ∀ key vs, (∅ : URL.Values) !! key = Some vs → vs ≠ []).
  { intros key vs. rewrite lookup_empty. discriminate. }
  revert H0. generalize (∅ : URL.Values).
  induction l as [| x l IH]; intros m Hm; [exact Hm |].
  cbn [foldl]. apply IH.
  destruct (URL.contains ";" x); [exact Hm |].
  destruct (String.eqb x ""); [exact Hm |].
  destruct (cut "=" x) as [k v].
  destruct (URL.QueryUnescape k); [| exact Hm].
  destruct (URL.QueryUnescape (default "" v)); [| exact Hm].
  apply Add_nonempty, Hm.
Qed.

(** X11.  The query of the request [makeRequest] builds, parsed again,
    is the query the URL had with each parameter of a value that is not
    empty added to it, whatever bytes keys and values hold; for a URL
    without a query it has exactly the parameters whose value is not empty,
    each once. *)
Theorem query_parameters_restored {T} `{GoValue T} (c : BagelPayClient)
    (method endpoint : string) (data : option T)
    (params : gmap string string) (req : http.Request) :
  newRequest c method endpoint data (Some params) = inr req →
  ∃ u0 : URL.URL,
    URL.Parse (baseURL c ++ endpoint) = Some u0
    ∧ URL.Query (http.Url req) = add_params params (URL.Query u0)
    ∧ (∀ key,
         URL.Query (http.Url req) !! key
         = match params !! key with
           | Some v =>
               if String.eqb v "" then URL.Query u0 !! key
               else Some (default [] (URL.Query u0 !! key) ++ [v])%list
           | None => URL.Query u0 !! key
           end)
    ∧ (URL.RawQuery u0 = "" →
       ∀ key,
         URL.Query (http.Url req) !! key
         = match params !! key with
           | Some v => if String.eqb v "" then None else Some [v]
           | None => None
           end).
Proof.
  intros Hreq. destruct (newRequest_query c method endpoint data params req Hreq)
    as (u0 & Hu0 & Hraw).
  exists u0. split; [exact Hu0 |].
  assert (Hq : URL.Query (http.Url req) = add_params params (URL.Query u0)).
  { unfold URL.Query at 1. rewrite Hraw. apply parseQuery_Encode.
    intros k vs. rewrite add_params_lookup.
    destruct (params !! k) as [v |]; [| apply parseQuery_nonempty].
    destruct (String.eqb v ""); [apply parseQuery_nonempty |].
    intros [= <-]. destruct (default [] (URL.Query u0 !! k)); discriminate. }
  split; [exact Hq |]. rewrite Hq.
  split; [intros key; apply add_params_lookup |].
  intros Hempty key. rewrite add_params_lookup.
  unfold URL.Query. rewrite Hempty.
  change (URL.parseQuery "") with (∅ : URL.Values). rewrite lookup_empty.
  destruct (params !! key) as [v |]; [| reflexivity].
  destruct (String.eqb v ""); reflexivity.
Qed.

Lemma query_parameters_restored_witness :
  newRequest test_client "GET" "/api/products/list" no_data
    (Some (page_params 0 5)) = inr size_only_request
  ∧ ∃ u0 : URL.URL,
      URL.Parse (baseURL test_client ++ "/api/products/list") = Some u0
      ∧ URL.Query (http.Url size_only_request)
        = add_params (page_params 0 5) (URL.Query u0)
      ∧ (∀ key,
           URL.Query (http.Url size_only_request) !! key
           = match page_params 0 5 !! key with
             | Some v =>
                 if String.eqb v "" then URL.Query u0 !! key
                 else Some (default [] (URL.Query u0 !! key) ++ [v])%list
             | None => URL.Query u0 !! key
             end)
      ∧ (URL.RawQuery u0 = "" →
         ∀ key,
           URL.Query (http.Url size_only_request) !! key
           = match page_params 0 5 !! key with
             | Some v => if String.eqb v "" then None else Some [v]
             | None => None
             end).
Proof.
  split; [vm_compute; reflexivity |].
  apply (query_parameters_restored test_client "GET" "/api/products/list" no_data
           (page_params 0 5) size_only_request).
  vm_compute. reflexivity.
Defined.

End Queries.

(** ** Clients and the operations that send a body *)

Section Sending.
Import Bytes UTF8 JSON Errors Models Client Package.

(** The request a client with one of the two base URLs builds for a
    plain path when it sends a body. *)
Lemma default_request_body {T} `{GoValue T} (c : BagelPayClient)
    (method path : string) (data : T) (body : string) :
  default_base c → http.validMethod method = true → carries_body method = true →
  URL.HasPrefix path "/" = true → plain path = true →
  Marshal data = Some body →
  ∃ req,
    newRequest c method path (Some data) None = inr req
    ∧ default_url c path "" "" (http.Url req)
    ∧ http.Method req = method ∧ http.ReqBody req = Some body
    ∧ http.Header req = [("Content-Type", "application/json");
                         ("User-Agent", "BagelPay-Go-SDK/1.0.0");
                         ("x-api-key", apiKey c)].
Proof.
  intros Hbase Hm Hcb Hslash Hplain Hbody.
  destruct (default_URL_built c path None None Hbase Hslash Hplain)
    as (u0 & u2 & Hu0 & Hu2 & Hs & Hh & Hport & Ho & Hu & HP & HQ & HF);
    try reflexivity.
  rewrite !append_nil_r in Hu0.
  unfold newRequest. rewrite Hu0, Hcb, Hbody.
  unfold http.NewRequestWithContext.
  rewrite (validMethod_not_empty _ Hm), Hm. cbn [negb]. rewrite Hu2.
  cbn [mbind option_bind].
  eexists. split; [reflexivity |].
  unfold default_url. cbn. rewrite Hport.
  repeat split; assumption.
Qed.

(** X12.  [NewDefaultClient] is [NewTestClient]: both and
    [NewLiveClient] have the base URL of their mode, the timeout of 30
    seconds and the key given; and a request of the live client, for a
    method that is a token and an endpoint that starts with a slash and has
    no control character, percent sign, question mark or hash sign, is for
    the host of the live base URL with the endpoint as its path, with no
    query and with the key as its [x-api-key] header; for the endpoint
    [/%zz] it builds none, but returns the error of an invalid URL. *)
Theorem convenience_clients (key : string) :
  NewDefaultClient key = NewTestClient key
  ∧ baseURL (NewTestClient key) = DefaultTestBaseURL
  ∧ baseURL (NewLiveClient key) = DefaultLiveBaseURL
  ∧ http.Timeout (httpClient (NewTestClient key)) = DefaultTimeout
  ∧ http.Timeout (httpClient (NewLiveClient key)) = DefaultTimeout
  ∧ apiKey (NewTestClient key) = key
  ∧ apiKey (NewLiveClient key) = key
  ∧ (∀ method endpoint,
       http.validMethod method = true →
       URL.HasPrefix endpoint "/" = true → plain endpoint = true →
       ∃ req, newRequest (NewLiveClient key) method endpoint no_data None = inr req
              ∧ http.Method req = method
              ∧ URL.Scheme (http.Url req) = "https"
              ∧ URL.Host (http.Url req) = "live.bagelpay.io"
              ∧ URL.Path (http.Url req) = endpoint
              ∧ URL.RawQuery (http.Url req) = ""
              ∧ URL.Fragment (http.Url req) = ""
              ∧ http.Header req = [("Content-Type", "application/json");
                                   ("User-Agent", DefaultUserAgent);
                                   ("x-api-key", key)])
  ∧ newRequest (NewLiveClient key) "GET" "/%zz" no_data None
    = inl (PBagelPayError (NewBagelPayError "invalid URL" (Some (Foreign "net/url")))).
Proof.
  repeat (split; [reflexivity |]).
  split; [| reflexivity].
  intros method endpoint Hm Hslash Hplain.
  destruct (default_request (NewLiveClient key) method endpoint None None)
    as (req & Hreq & Hurl & Hmethod & _ & Hheader);
    try first [assumption | reflexivity | right; reflexivity].
  rewrite !append_nil_r in Hreq.
  destruct Hurl as (Hs & Hh & _ & _ & HP & HQ & HF).
  exists req. split; [exact Hreq |].
  repeat split; try assumption.
  change (baseURL (NewLiveClient key)) with ("https://" ++ "live.bagelpay.io") in Hh.
  injection Hh as Hh. exact Hh.
Qed.

(** X13.  When [Marshal] refuses the request, [CreateCheckout],
    [CreateProduct] and [UpdateProduct] return, whatever the transport would
    answer, the [BagelPayError] with the message [invalid URL] when
    [url.Parse] refuses the base URL followed by the endpoint, and else the
    one with the message [failed to marshal request data]: nothing is sent.
    With one of the two base URLs of the package it is the second. *)
Theorem unmarshalable_request_not_sent
    {iface} `{!Dynamic iface} {CheckoutResponse CreateProductRequest : Type}
    {UpdateProductRequest Product : Type}
    `{!GoValue CheckoutResponse, !GoValue CreateProductRequest}
    `{!GoValue UpdateProductRequest, !GoValue Product}
    (Do : http.Client → http.Request → error + http.Response)
    (c : BagelPayClient) :
  let refused (endpoint : string) :=
    match URL.Parse (baseURL c ++ endpoint) with
    | None => PBagelPayError (NewBagelPayError "invalid URL" (Some (Foreign "net/url")))
    | Some _ =>
        PBagelPayError (NewBagelPayError "failed to marshal request data"
                          (Some (Foreign "encoding/json")))
    end in
  (∀ request : CheckoutRequest iface, Marshal request = None →
     CreateCheckout (CheckoutResponse := CheckoutResponse) Do c request
     = inl (refused "/api/payments/checkouts"))
  ∧ (∀ request : CreateProductRequest, Marshal request = None →
       CreateProduct (Product := Product) Do c request
       = inl (refused "/api/products/create"))
  ∧ (∀ request : UpdateProductRequest, Marshal request = None →
       UpdateProduct (Product := Product) Do c request
       = inl (refused "/api/products/update"))
  ∧ (default_base c →
     ∀ endpoint, URL.HasPrefix endpoint "/" = true → plain endpoint = true →
       refused endpoint
       = PBagelPayError (NewBagelPayError "failed to marshal request data"
                           (Some (Foreign "encoding/json")))).
Proof.
  intros refused.
  assert (Hgen : ∀ (D R T : Type) (HD : GoValue D) (HR : GoValue R)
            (extract : R → T) endpoint (request : D),
            Marshal request = None →
            finish extract (makeRequest Do c "POST" endpoint (Some request) None)
            = inl (refused endpoint)).
  { intros D R T HD HR extract endpoint request Hm.
    unfold makeRequest, newRequest, refused.
    destruct (URL.Parse (baseURL c ++ endpoint)) as [u |]; [| reflexivity].
    change (carries_body "POST") with true. cbn iota. rewrite Hm. reflexivity. }
  split; [intros request Hm; apply Hgen; exact Hm |].
  split; [intros request Hm; apply Hgen; exact Hm |].
  split; [intros request Hm; apply Hgen; exact Hm |].
  intros Hbase endpoint Hslash Hplain. unfold refused.
  destruct (default_URL_built c endpoint None None Hbase Hslash Hplain)
    as (u0 & _ & Hu0 & _); try reflexivity.
  rewrite !append_nil_r in Hu0. rewrite Hu0. reflexivity.
Qed.

(** The test client and a request whose metadata [Marshal] refuses. *)
Example unmarshalable_request_refused :
  CreateCheckout (Dynamic0 := refused_values) (CheckoutResponse := Customer)
    unreachable test_client unmarshalable_request
  = inl (PBagelPayError (NewBagelPayError "failed to marshal request data"
                           (Some (Foreign "encoding/json")))).
Proof. vm_compute. reflexivity. Qed.

(** The document of a request with well-formed strings and no metadata
    is one that is read back. *)
Lemma encode_CheckoutRequest_readable {iface} `{Dynamic iface}
    (r : CheckoutRequest iface) (j : json) :
  well_formed_strings r → Metadata r = None →
  encode r = Some j → readable maxNestingDepth j.
Proof.
  destruct r as [p c q u s m]. unfold well_formed_strings.
  cbn [ProductID Customer_ RequestID Units SuccessURL Metadata].
  intros (Hp & Hc & Hq & Hu & Hs) -> Hj. rewrite maxNestingDepth_unfold.
  destruct c as [[e] |], q as [q |], u as [u |], s as [s |];
    unfold valid_opt in Hc, Hq, Hu, Hs;
    cbn [fmap option_fmap option_map Email] in Hc; injection Hj as <-;
    apply readable_obj;
    repeat (apply Forall_cons_2;
            [first [ apply readable_member; [reflexivity | assumption]
                   | split; [reflexivity |]; apply readable_obj;
                     apply Forall_cons_2;
                     [apply readable_member; [reflexivity | assumption]
                     | apply Forall_nil_2 ] ] |]);
    apply Forall_nil_2.
Qed.

(** X14.  For a client with one of the two base URLs of the package and
    a checkout request with well-formed strings and nil metadata,
    [CreateCheckout] gives the transport one request, of method POST, for
    the path [/api/payments/checkouts] on the host of the base URL, whose
    body is the text [ToJSON] writes for the request, and [FromJSON] of that
    body into a zero request is the request. *)
Theorem CreateCheckout_body_restores_request
    {iface} `{!Dynamic iface} {CheckoutResponse : Type} `{!GoValue CheckoutResponse}
    (Do : http.Client → http.Request → error + http.Response)
    (c : BagelPayClient) (request : CheckoutRequest iface) :
  default_base c →
  well_formed_strings request →
  Metadata request = None →
  ∃ req body,
    newRequest c "POST" "/api/payments/checkouts" (Some request) None = inr req
    ∧ http.Method req = "POST"
    ∧ default_url c "/api/payments/checkouts" "" "" (http.Url req)
    ∧ http.ReqBody req = Some body
    ∧ ToJSON request = Some body
    ∧ FromJSON body (zero : CheckoutRequest iface) = Some request
    ∧ CreateCheckout (CheckoutResponse := CheckoutResponse) Do c request
      = finish Data
          match Do (httpClient c) req with
          | inl err => inl (PBagelPayError (NewBagelPayError "request failed" (Some err)))
          | inr resp => inr resp
          end.
Proof.
  intros Hc Hwf Hm.
  destruct (encode request) as [j |] eqn:Hj.
  - pose proof (encode_CheckoutRequest_readable request j Hwf Hm Hj) as Hread.
    assert (Hstore : store j (zero : CheckoutRequest iface) = Some request).
    { destruct request as [p cu q un s m]. cbn [Metadata] in Hm. subst m.
      destruct cu as [[e] |], q as [q |], un as [un |], s as [s |];
        injection Hj as <-; reflexivity. }
    destruct (default_request_body c "POST" "/api/payments/checkouts"
                request (print j) Hc)
      as (req & Hreq & Hurl & Hmethod & Hbody & _); try reflexivity.
    { unfold Marshal. rewrite Hj. reflexivity. }
    exists req, (print j).
    split; [exact Hreq |]. split; [exact Hmethod |]. split; [exact Hurl |].
    split; [exact Hbody |].
    split; [unfold ToJSON, Marshal; rewrite Hj; reflexivity |].
    split.
    + unfold FromJSON, Unmarshal. rewrite (parse_print j Hread). exact Hstore.
    + unfold CreateCheckout, makeRequest. rewrite Hreq. reflexivity.
  - destruct request as [p cu q un s m]. cbn [Metadata] in Hm. subst m.
    destruct cu as [[e] |], q as [q |], un as [un |], s as [s |]; discriminate Hj.
Qed.

Lemma CreateCheckout_body_restores_request_witness :
  let H := CheckoutRequest_GoValue (Dynamic0 := document_values) in
  default_base test_client
  ∧ well_formed_strings sample_request
  ∧ Metadata sample_request = None
  ∧ ∃ req body,
      newRequest test_client "POST" "/api/payments/checkouts"
        (Some sample_request) None = inr req
      ∧ http.Method req = "POST"
      ∧ default_url test_client "/api/payments/checkouts" "" "" (http.Url req)
      ∧ http.ReqBody req = Some body
      ∧ ToJSON sample_request = Some body
      ∧ FromJSON body (zero : CheckoutRequest json) = Some sample_request
      ∧ CreateCheckout (Dynamic0 := document_values) (CheckoutResponse := Customer)
          unreachable test_client sample_request
        = finish Data
            match unreachable (httpClient test_client) req with
            | inl err =>
                inl (PBagelPayError (NewBagelPayError "request failed" (Some err)))
            | inr resp => inr resp
            end.
Proof.
  intros H. split; [left; reflexivity |].
  split; [repeat split; vm_compute; reflexivity |].
  split; [reflexivity |].
  apply (CreateCheckout_body_restores_request (Dynamic0 := document_values)
           (CheckoutResponse := Customer) unreachable test_client sample_request);
    [left; reflexivity | repeat split; vm_compute; reflexivity | reflexivity].
Defined.

(** X15.  [FromJSON] stores into the value it is given: for a checkout
    request with well-formed strings and nil metadata, reading the text
    [ToJSON] writes for it into any request [w] gives the fields of the
    request where they are present, and leaves those of [w] where the
    request has nil; the metadata of [w] stay. *)
Theorem CheckoutRequest_read_into_existing {iface} `{Dynamic iface}
    (r w : CheckoutRequest iface) :
  well_formed_strings r →
  Metadata r = None →
  ∃ text,
    ToJSON r = Some text
    ∧ FromJSON text w
      = Some {| ProductID := ProductID r;
                Customer_ := match Customer_ r with
                             | Some c => Some c
                             | None => Customer_ w
                             end;
                RequestID := match RequestID r with
                             | Some x => Some x
                             | None => RequestID w
                             end;
                Units := match Units r with
                         | Some x => Some x
                         | None => Units w
                         end;
                SuccessURL := match SuccessURL r with
                              | Some x => Some x
                              | None => SuccessURL w
                              end;
                Metadata := Metadata w |}.
Proof.
  intros Hwf Hm.
  destruct (encode r) as [j |] eqn:Hj.
  - pose proof (encode_CheckoutRequest_readable r j Hwf Hm Hj) as Hread.
    exists (print j).
    split; [unfold ToJSON, Marshal; rewrite Hj; reflexivity |].
    unfold FromJSON, Unmarshal. rewrite (parse_print j Hread).
    cbn [mbind option_bind].
    destruct r as [p cu q un s m]. cbn [Metadata] in Hm. subst m.
    destruct cu as [[e] |], q as [q |], un as [un |], s as [s |];
      injection Hj as <-; reflexivity.
  - destruct r as [p cu q un s m]. cbn [Metadata] in Hm. subst m.
    destruct cu as [[e] |], q as [q |], un as [un |], s as [s |]; discriminate Hj.
Qed.

Lemma CheckoutRequest_read_into_existing_witness :
  let H := CheckoutRequest_GoValue (Dynamic0 := document_values) in
  well_formed_strings bare_request
  ∧ Metadata bare_request = None
  ∧ ∃ text,
      ToJSON bare_request = Some text
      ∧ FromJSON text sample_request
        = Some {| ProductID := "prod_2";
                  Customer_ := Customer_ sample_request;
                  RequestID := RequestID sample_request;
                  Units := Units sample_request;
                  SuccessURL := SuccessURL sample_request;
                  Metadata := None |}.
Proof.
  intros H. split; [repeat split; vm_compute; reflexivity |].
  split; [reflexivity |].
  apply (CheckoutRequest_read_into_existing (H := document_values)
           bare_request sample_request);
    [repeat split; vm_compute; reflexivity | reflexivity].
Defined.

End Sending.

(** ** The webhook handler *)

Section Digests.
Import Bytes hmac Webhook.

Lemma round_length (st : list Z) (kw : Z * Z) :
  length st = 8%nat → length (SHA256.round st kw) = 8%nat.
Proof.
  intros Hst. do 9 (destruct st as [| ? st]; try discriminate Hst). reflexivity.
Qed.

Lemma rounds_length (l : list (Z * Z)) (st : list Z) :
  length st = 8%nat → length (foldl SHA256.round st l) = 8%nat.
Proof.
  revert st. induction l as [| kw l IH]; intros st Hst; [exact Hst |].
  cbn [foldl]. apply IH, round_length, Hst.
Qed.

Lemma block_length (st bytes : list Z) :
  length st = 8%nat → length (SHA256.block st bytes) = 8%nat.
Proof.
  intros Hst. unfold SHA256.block. rewrite length_zip_with, rounds_length, Hst by exact Hst.
  reflexivity.
Qed.

Lemma blocks_length (l : list (list Z)) (st : list Z) :
  length st = 8%nat → length (foldl SHA256.block st l) = 8%nat.
Proof.
  revert st. induction l as [| b l IH]; intros st Hst; [exact Hst |].
  cbn [foldl]. apply IH, block_length, Hst.
Qed.

Lemma to_be_length (n : nat) (x : Z) : length (SHA256.to_be n x) = n.
Proof.
  revert x. induction n as [| n IH]; intros x; [reflexivity |].
  cbn [SHA256.to_be]. rewrite length_app, IH. cbn. lia.
Qed.

Lemma words_length (l : list Z) :
  length (mbind (M := list) (SHA256.to_be 4) l) = (4 * length l)%nat.
Proof.
  induction l as [| x l IH]; [reflexivity |].
  cbn [mbind list_bind]. rewrite length_app, to_be_length.
  change (list_bind _ _ (SHA256.to_be 4) l) with (mbind (M := list) (SHA256.to_be 4) l).
  rewrite IH. cbn [length]. lia.
Qed.

(** A digest has 32 bytes. *)
Lemma sum_length (msg : list Z) : length (SHA256.sum msg) = 32%nat.
Proof.
  unfold SHA256.sum. rewrite words_length, blocks_length; reflexivity.
Qed.

Lemma of_values_length (l : list Z) : String.length (of_values l) = length l.
Proof. induction l as [| x l IH]; [reflexivity |]. cbn. rewrite IH. reflexivity. Qed.

Lemma EncodeToString_length (s : string) :
  String.length (EncodeToString s) = (2 * String.length s)%nat.
Proof.
  induction s as [| c s IH]; [reflexivity |].
  cbn [EncodeToString String.length]. rewrite IH. lia.
Qed.

Lemma expected_signature_length (key message : string) :
  String.length (EncodeToString (sha256_mac key message)) = 64%nat.
Proof.
  rewrite EncodeToString_length. unfold sha256_mac.
  rewrite of_values_length, sum_length. reflexivity.
Qed.

End Digests.

Section Deliveries.
Import Bytes JSON hmac Webhook Handler.

(** X16.  [webhookHandler] answers 200 exactly when the body is read,
    the signature header is the hexadecimal HMAC of the timestamp header, a
    dot and the body under the secret, and the body is an object stored
    without error whose [event_type] is a string, recognised or not; the
    answer then says [Success], and every other answer is 400 or 401. *)
Theorem webhookHandler_success_iff (r : Incoming) :
  ((webhookHandler r).1 = 200
   ↔ ∃ payload eventType,
       body r = inr payload
       ∧ signature r
         = EncodeToString (sha256_mac WEBHOOK_SECRET (timestamp r ++ "." ++ payload))
       ∧ event_type payload = Some (Some eventType))
  ∧ ((webhookHandler r).1 = 200 →
     (webhookHandler r).2 = requote "{'message': 'Success'}")
  ∧ ((webhookHandler r).1 = 200 ∨ (webhookHandler r).1 = 400
     ∨ (webhookHandler r).1 = 401).
Proof.
  unfold webhookHandler. destruct (body r) as [err | payload].
  { split; [split; [discriminate | intros (p & t & Hb & _); discriminate] |].
    split; [discriminate | right; left; reflexivity]. }
  destruct (verifyWebhookSignature payload (timestamp r) (signature r) WEBHOOK_SECRET) eqn:Hv.
  - apply verifyWebhookSignature_iff in Hv. cbn [negb].
    destruct (event_type payload) as [[t |] |] eqn:Ht; cbn [fst snd http_Error].
    + split; [split; [intros _; exists payload, t; repeat split; assumption
                     | reflexivity] |].
      split; [reflexivity | left; reflexivity].
    + split; [split; [discriminate
                     | intros (p & t & [= <-] & _ & Hp); congruence] |].
      split; [discriminate | right; left; reflexivity].
    + split; [split; [discriminate
                     | intros (p & t & [= <-] & _ & Hp); congruence] |].
      split; [discriminate | right; left; reflexivity].
  - cbn [negb fst snd http_Error].
    split; [split; [discriminate |] |].
    + intros (p & t & [= <-] & Hs & _).
      apply verifyWebhookSignature_iff in Hs. congruence.
    + split; [discriminate | right; right; reflexivity].
Qed.

(** X17.  A delivery whose body is read and whose signature header has
    not 64 characters, an absent header for one, or differs from the
    expected signature is answered 401 [Invalid signature], whether or not
    its body is a document: the signature is checked before the body is
    parsed. *)
Theorem webhookHandler_signature_first (r : Incoming)
    (payload : string) :
  body r = inr payload →
  String.length (signature r) ≠ 64%nat
  ∨ signature r ≠ EncodeToString (sha256_mac WEBHOOK_SECRET (timestamp r ++ "." ++ payload)) →
  webhookHandler r = http_Error "Invalid signature" 401.
Proof.
  intros Hb Hs. unfold webhookHandler. rewrite Hb.
  destruct (verifyWebhookSignature payload (timestamp r) (signature r) WEBHOOK_SECRET) eqn:Hv;
    [| reflexivity].
  apply verifyWebhookSignature_iff in Hv. exfalso.
  destruct Hs as [Hlen | Hne]; [| exact (Hne Hv)].
  apply Hlen. rewrite Hv. apply expected_signature_length.
Qed.

Lemma webhookHandler_signature_first_witness :
  body unsigned_delivery = inr "not a document"
  ∧ (String.length (signature unsigned_delivery) ≠ 64%nat
     ∨ signature unsigned_delivery
       ≠ EncodeToString
           (sha256_mac WEBHOOK_SECRET
              (timestamp unsigned_delivery ++ "." ++ "not a document")))
  ∧ webhookHandler unsigned_delivery = http_Error "Invalid signature" 401.
Proof.
  split; [reflexivity |].
  split; [left; discriminate |].
  apply (webhookHandler_signature_first unsigned_delivery "not a document");
    [reflexivity | left; discriminate].
Defined.

End Deliveries.
